(** * Emotion detection service: dispatcher, retry executor, result cache,
      fallback classifier and session aggregator

    Shallow embedding of [EmotionDetectionService]
    (services/emotion/emotion-detection.service.ts) and the properties the
    specification states about it (C1 to C10).

    Modelling conventions.
    - A JavaScript string is a [string] whose characters are the code units
      U+0000..U+00FF; [String.length] is [.length].
    - A JavaScript number is an exact rational ([Q]): the arithmetic and the
      comparisons are those of [Q], without floating-point rounding, and
      equalities between computed numbers are stated with [==].
    - Promises are run to completion: an [async] method is a transformer of
      the state of the service and of its environment that ends in a value or
      in a thrown error; one call is run after the other.
    - [console.log], [console.warn] and [console.error] are left out.

    The file has two parts: the definitions (the service, the reference
    formulations of the specification, sample inputs), then the properties. *)

From Stdlib Require Import QArith Qminmax Qround Lqa.
From Stdlib Require Import String Ascii List Bool Arith Lia DecimalString.
Import ListNotations.

Set Implicit Arguments.

(* ################################################################# *)
(** * JavaScript primitives used by the service *)

Module Js.

Local Open Scope nat_scope.

Definition charCode (c : ascii) : nat := nat_of_ascii c.

(** [A-Z] of a regular expression without flags. *)
Definition isUpperAZ (c : ascii) : bool :=
  (65 <=? charCode c) && (charCode c <=? 90).

(** Code units that [String.prototype.toLowerCase] changes below U+0100:
    A-Z and U+00C0..U+00DE except the multiplication sign U+00D7. *)
Definition hasLowerCase (c : ascii) : bool :=
  isUpperAZ c
  || ((192 <=? charCode c) && (charCode c <=? 222) && negb (charCode c =? 215)).

Definition toLowerChar (c : ascii) : ascii :=
  if hasLowerCase c then ascii_of_nat (charCode c + 32) else c.

Fixpoint toLowerCase (s : string) : string :=
  match s with
  | EmptyString => EmptyString
  | String c s' => String (toLowerChar c) (toLowerCase s')
  end.

(** White space and line terminators stripped by [trim], below U+0100:
    TAB, LF, VT, FF, CR, SP and NBSP. *)
Definition isWhiteSpace (c : ascii) : bool :=
  let n := charCode c in
  ((9 <=? n) && (n <=? 13)) || (n =? 32) || (n =? 160).

Fixpoint trimStart (s : string) : string :=
  match s with
  | EmptyString => EmptyString
  | String c s' => if isWhiteSpace c then trimStart s' else s
  end.

Fixpoint trimEnd (s : string) : string :=
  match s with
  | EmptyString => EmptyString
  | String c s' =>
      match trimEnd s' with
      | EmptyString => if isWhiteSpace c then EmptyString else String c EmptyString
      | t => String c t
      end
  end.

Definition trim (s : string) : string := trimEnd (trimStart s).

(** [s.includes(sub)] *)
Fixpoint includes (sub s : string) : bool :=
  prefix sub s ||
  match s with
  | EmptyString => false
  | String _ s' => includes sub s'
  end.

(** [(s.match(new RegExp(kw, 'g')) || []).length] for a pattern [kw] made of
    literal characters: the matches are found left to right and do not
    overlap, so after a match the scan resumes behind it ([skip] characters
    further). *)
Fixpoint matchCountFrom (kw : string) (skip : nat) (s : string) : nat :=
  match s with
  | EmptyString => 0
  | String _ s' =>
      match skip with
      | S k => matchCountFrom kw k s'
      | O =>
          if prefix kw s
          then S (matchCountFrom kw (String.length kw - 1) s')
          else matchCountFrom kw 0 s'
      end
  end.

Definition matchCount (kw s : string) : nat := matchCountFrom kw 0 s.

(** [s.split(' ').length]: one piece more than there are separators. *)
Fixpoint countChar (sep : ascii) (s : string) : nat :=
  match s with
  | EmptyString => 0
  | String c s' => (if Ascii.eqb c sep then 1 else 0) + countChar sep s'
  end.

Definition splitLength (sep : ascii) (s : string) : nat := S (countChar sep s).

(** [/[A-Z]{2,}/.test(s)] *)
Fixpoint testUpperRun (s : string) : bool :=
  match s with
  | String a (String b _ as s') => (isUpperAZ a && isUpperAZ b) || testUpperRun s'
  | _ => false
  end.

(** [Math.min], [Math.max] on numbers. *)
Definition Math_min (a b : Q) : Q := Qmin a b.
Definition Math_max (a b : Q) : Q := Qmax a b.

(** [x || d] for an optional number: [undefined], [null] and [0] are falsy. *)
Definition numberOr (x : option Q) (d : Q) : Q :=
  match x with
  | Some q => if Qeq_bool q 0 then d else q
  | None => d
  end.

(** [x || d] for an optional value none of whose inhabitants is falsy. *)
Definition valueOr {A : Type} (x : option A) (d : A) : A :=
  match x with
  | Some a => a
  | None => d
  end.

(** Truthiness of a string ([undefined] is [None]): only the empty string and
    [undefined] are falsy. *)
Definition truthy (x : option string) : bool :=
  match x with
  | Some EmptyString | None => false
  | Some _ => true
  end.

(** [a || b] on optional strings. *)
Definition stringOr (a b : option string) : option string :=
  if truthy a then a else b.

(** [a < b] on numbers. *)
Definition ltb (a b : Q) : bool := negb (Qle_bool b a).

(** [Array.prototype.sort(cmp)]: the sort is stable, and an element [x] goes
    behind [y] only where [cmp x y > 0]. *)
Fixpoint sortInsert {A : Type} (cmp : A -> A -> Z) (x : A) (l : list A) : list A :=
  match l with
  | [] => [x]
  | y :: l' => if (0 <? cmp x y)%Z then y :: sortInsert cmp x l' else x :: l
  end.

Definition sort {A : Type} (cmp : A -> A -> Z) (l : list A) : list A :=
  fold_right (sortInsert cmp) [] l.

(** [Math.pow(b, n)] for a natural exponent. *)
Definition Math_pow (b : Q) (n : nat) : Q := Qpower b (Z.of_nat n).

End Js.

(* ################################################################# *)
(** * Data model *)

Inductive EmotionLabel : Type :=
| happy | neutral | nervous | confident | stressed
| excited | disappointed | frustrated | calm | uncertain.

Inductive Intensity : Type := low | medium | high.

Inductive SpeakingPace : Type := slow | normal | fast.

Inductive Trend : Type := improving | declining | stable.

Definition EmotionLabel_eqb (a b : EmotionLabel) : bool :=
  match a, b with
  | happy, happy | neutral, neutral | nervous, nervous
  | confident, confident | stressed, stressed | excited, excited
  | disappointed, disappointed | frustrated, frustrated
  | calm, calm | uncertain, uncertain => true
  | _, _ => false
  end.

Definition EmotionLabel_eq_dec (a b : EmotionLabel) : {a = b} + {a <> b}.
Proof. decide equality. Defined.

Record Metrics : Type := {
  stress_level : Q;
  energy_level : Q;
  speaking_pace : SpeakingPace;
  voice_stability : Q
}.

Record EmotionData : Type := {
  emotion : EmotionLabel;
  confidence : Q;
  timestamp : Q;
  secondsFromStart : Q;
  duration : Q;
  intensity : Intensity;
  additionalMetrics : Metrics
}.

(* ################################################################# *)
(** * Fallback classifier ([fallbackTextAnalysis]) *)

Local Open Scope string_scope.

(** [Object.entries(emotionPatterns)]: the keys of the literal in the order
    they are written. *)
Definition emotionPatterns : list (EmotionLabel * list string) :=
  [ (confident, ["sure"; "definitely"; "absolutely"; "i know"; "certain"; "experience"]);
    (nervous, ["um"; "uh"; "i think"; "maybe"; "not sure"; "i guess"]);
    (excited, ["great"; "amazing"; "love"; "excited"; "fantastic"; "wonderful"]);
    (stressed, ["difficult"; "hard"; "struggle"; "challenging"; "overwhelming"]);
    (frustrated, ["but"; "however"; "unfortunately"; "problem"; "issue"]);
    (calm, ["okay"; "fine"; "alright"; "steady"; "stable"]);
    (happy, ["good"; "well"; "positive"; "pleased"; "satisfied"]);
    (disappointed, ["not good"; "unfortunately"; "sadly"; "failed"; "disappointed"]) ].

(** [keywords.reduce((acc, keyword) => acc + occurrences, 0)] *)
Definition keywordScore (lowerText : string) (keywords : list string) : nat :=
  fold_left (fun acc keyword => (acc + Js.matchCount keyword lowerText)%nat) keywords 0%nat.

(** One turn of the [forEach] callback on the pair
    [(maxScore, detectedEmotion)]. *)
Definition scoreStep (lowerText : string) (st : nat * EmotionLabel)
    (entry : EmotionLabel * list string) : nat * EmotionLabel :=
  let score := keywordScore lowerText (snd entry) in
  if (fst st <? score)%nat then (score, fst entry) else st.

Definition detectEmotion (text : string) : nat * EmotionLabel :=
  fold_left (scoreStep (Js.toLowerCase text)) emotionPatterns (0%nat, neutral).

Definition maxScoreOf (text : string) : nat := fst (detectEmotion text).
Definition detectedEmotionOf (text : string) : EmotionLabel := snd (detectEmotion text).

Definition wordCountOf (text : string) : nat := Js.splitLength " "%char text.

Local Open Scope Q_scope.

Definition Qnat (n : nat) : Q := inject_Z (Z.of_nat n).

Definition fallbackConfidence (text : string) : Q :=
  Js.Math_min (0.3 + (Qnat (maxScoreOf text) / Qnat (wordCountOf text)) * 2) 0.85.

Definition fallbackIntensity (text : string) : Intensity :=
  let hasCapitals := Js.testUpperRun text in
  let hasExclamation := Js.includes "!" text in
  if hasCapitals || hasExclamation || (2 <? maxScoreOf text)%nat then high
  else if (maxScoreOf text =? 0)%nat || (String.length text <? 20)%nat then low
  else medium.

Definition isOneOf (ls : list EmotionLabel) (e : EmotionLabel) : bool :=
  existsb (EmotionLabel_eqb e) ls.

Definition fallbackTextAnalysis (text : string) (timestamp speakingDuration : Q)
  : EmotionData :=
  let detectedEmotion := detectedEmotionOf text in
  let wordCount := wordCountOf text in
  let confidence := fallbackConfidence text in
  {| emotion := detectedEmotion;
     confidence := confidence;
     timestamp := timestamp;
     secondsFromStart := timestamp / 1000;
     duration := speakingDuration;
     intensity := fallbackIntensity text;
     additionalMetrics :=
       {| stress_level := if isOneOf [nervous; stressed] detectedEmotion then 0.7 else 0.3;
          energy_level := if isOneOf [excited; confident] detectedEmotion then 0.8 else 0.5;
          speaking_pace :=
            if (50 <? wordCount)%nat then fast
            else if (wordCount <? 20)%nat then slow else normal;
          voice_stability := confidence |} |}.

(* ################################################################# *)
(** * Result cache: a JavaScript [Map] with string keys

    A [Map] keeps its entries in insertion order; [set] on a key that is
    present replaces the value where it stands, [set] on a new key appends;
    [has] and [get] leave the map as it is. *)

Module JsMap.

Section WithValue.
Variable V : Type.

Definition t : Type := list (string * V).

Definition empty : t := [].

Definition keys (m : t) : list string := map fst m.

Definition size (m : t) : nat := List.length m.

Fixpoint get (k : string) (m : t) : option V :=
  match m with
  | [] => None
  | (k', v) :: m' => if String.eqb k k' then Some v else get k m'
  end.

Definition has (k : string) (m : t) : bool :=
  match get k m with Some _ => true | None => false end.

Fixpoint replace (k : string) (v : V) (m : t) : t :=
  match m with
  | [] => []
  | (k', v') :: m' =>
      if String.eqb k k' then (k', v) :: m' else (k', v') :: replace k v m'
  end.

Definition set (k : string) (v : V) (m : t) : t :=
  if has k m then replace k v m else (m ++ [(k, v)])%list.

Fixpoint delete (k : string) (m : t) : t :=
  match m with
  | [] => []
  | (k', v') :: m' => if String.eqb k k' then m' else (k', v') :: delete k m'
  end.

(** [m.keys().next().value] *)
Definition firstKey (m : t) : option string :=
  match m with
  | [] => None
  | (k, _) :: _ => Some k
  end.

End WithValue.

End JsMap.

(** The fields of [cacheableData]: an [EmotionData] without [timestamp] and
    [secondsFromStart]. *)
Record CachedEmotion : Type := {
  cached_emotion : EmotionLabel;
  cached_confidence : Q;
  cached_duration : Q;
  cached_intensity : Intensity;
  cached_additionalMetrics : Metrics
}.

(* ################################################################# *)
(** * Service instance, environment and asynchronous computations *)

(** A thrown value, as far as the service looks at it: [error.message],
    absent for a thrown value that is not an [Error]. *)
Record JsError : Type := { message : option string }.

Definition newError (msg : string) : JsError := {| message := Some msg |}.

(** What one call of the live model returns, seen through
    [result.match(/\{[\s\S]*\}/)] and [JSON.parse(jsonMatch[0])]. The parsed
    object is taken at the types of the JSON structure the prompt asks for, as
    the cast [as EmotionLabel] and the declaration of [EmotionData] take it:
    [emotion] is one of the ten labels, a number field holds a number, and a
    field that is absent or [null] is [None]. *)
Record Analysis : Type := {
  reply_emotion : EmotionLabel;
  reply_confidence : option Q;
  reply_intensity : option Intensity;
  reply_stress_level : option Q;
  reply_energy_level : option Q;
  reply_speaking_pace : option SpeakingPace;
  reply_voice_stability : option Q
}.

Inductive Reply : Type :=
| NoJsonObject               (* the text has no [{ ... }] part: [jsonMatch] is [null] *)
| MalformedJson              (* [JSON.parse] throws a [SyntaxError] *)
| JsonObject (a : Analysis). (* [JSON.parse] returns this object *)

Inductive LiveOutcome : Type :=
| Rejects (e : JsError)
| Resolves (r : Reply).

(** The environment of one call of the service: the outcome and the latency of
    the n-th call of [model.generateContent], and the n-th value of
    [Math.random()]. *)
Record Env : Type := {
  liveOutcome : nat -> LiveOutcome;
  liveLatency : nat -> Q;
  random : nat -> Q
}.

(** [process.env], read at every call. *)
Record ProcessEnv : Type := {
  GOOGLE_AI_API_KEY : option string;
  NEXT_PUBLIC_GOOGLE_AI_API_KEY : option string;
  EMOTION_DETECTION_FALLBACK_ONLY : option string
}.

Inductive Event : Type :=
| RateLimitWait (ms : Q)
| LiveAttempt
| BackoffSleep (ms : Q).

(** The service instance ([emotionCache], [lastRequestTime], [requestCount])
    together with the clock ([Date.now()]), the number of calls made to the
    live model and to [Math.random], and the trace of what happened. *)
Record World : Type := {
  emotionCache : JsMap.t CachedEmotion;
  lastRequestTime : Q;
  requestCount : nat;
  now : Q;
  liveCalls : nat;
  randomCalls : nat;
  trace : list Event
}.

Definition initialWorld (startTime : Q) : World :=
  {| emotionCache := JsMap.empty CachedEmotion;
     lastRequestTime := 0;
     requestCount := 0%nat;
     now := startTime;
     liveCalls := 0%nat;
     randomCalls := 0%nat;
     trace := [] |}.

Inductive Completion (A : Type) : Type :=
| Return (a : A)
| Throw (e : JsError).
Arguments Return {A} a.
Arguments Throw {A} e.

Definition Async (A : Type) : Type := World -> Completion A * World.

Definition ret {A : Type} (a : A) : Async A := fun w => (Return a, w).

Definition throw {A : Type} (e : JsError) : Async A := fun w => (Throw e, w).

Definition bind {A B : Type} (m : Async A) (k : A -> Async B) : Async B :=
  fun w =>
    match m w with
    | (Return a, w') => k a w'
    | (Throw e, w') => (Throw e, w')
    end.

Definition tryCatch {A : Type} (m : Async A) (handler : JsError -> Async A) : Async A :=
  fun w =>
    match m w with
    | (Return a, w') => (Return a, w')
    | (Throw e, w') => handler e w'
    end.

Declare Scope async_scope.
Delimit Scope async_scope with async.
Notation "x <- m ;; k" := (bind m (fun x => k))
  (at level 61, m at next level, right associativity) : async_scope.
Notation "m ;;; k" := (bind m (fun _ => k))
  (at level 61, right associativity) : async_scope.

Definition getWorld : Async World := fun w => (Return w, w).

(** [await new Promise(resolve => setTimeout(resolve, ms))] *)
Definition sleep (ev : Event) (ms : Q) : Async unit :=
  fun w =>
    (Return tt,
     {| emotionCache := emotionCache w;
        lastRequestTime := lastRequestTime w;
        requestCount := requestCount w;
        now := now w + ms;
        liveCalls := liveCalls w;
        randomCalls := randomCalls w;
        trace := (trace w ++ [ev])%list |}).

(** [Math.random()] *)
Definition Math_random (env : Env) : Async Q :=
  fun w =>
    (Return (random env (randomCalls w)),
     {| emotionCache := emotionCache w;
        lastRequestTime := lastRequestTime w;
        requestCount := requestCount w;
        now := now w;
        liveCalls := liveCalls w;
        randomCalls := S (randomCalls w);
        trace := trace w |}).

(** [(await this.model.generateContent(prompt)).response.text()] *)
Definition generateContent (env : Env) : Async Reply :=
  fun w =>
    let w' :=
      {| emotionCache := emotionCache w;
         lastRequestTime := lastRequestTime w;
         requestCount := requestCount w;
         now := now w + liveLatency env (liveCalls w);
         liveCalls := S (liveCalls w);
         randomCalls := randomCalls w;
         trace := (trace w ++ [LiveAttempt])%list |} in
    match liveOutcome env (liveCalls w) with
    | Rejects e => (Throw e, w')
    | Resolves r => (Return r, w')
    end.

Definition setCache (c : JsMap.t CachedEmotion) : Async unit :=
  fun w =>
    (Return tt,
     {| emotionCache := c;
        lastRequestTime := lastRequestTime w;
        requestCount := requestCount w;
        now := now w;
        liveCalls := liveCalls w;
        randomCalls := randomCalls w;
        trace := trace w |}).

(** [this.lastRequestTime = Date.now(); this.requestCount++] *)
Definition requestServed : Async unit :=
  fun w =>
    (Return tt,
     {| emotionCache := emotionCache w;
        lastRequestTime := now w;
        requestCount := S (requestCount w);
        now := now w;
        liveCalls := liveCalls w;
        randomCalls := randomCalls w;
        trace := trace w |}).

(* ################################################################# *)
(** * Retry executor ([retryWithBackoff]) *)

Local Open Scope async_scope.

Definition MAX_RETRIES : nat := 3.
Definition RATE_LIMIT_DELAY : Q := 3000.

(** [error.message?.includes('429') || error.message?.includes('quota')] *)
Definition isRateLimitError (error : JsError) : bool :=
  match message error with
  | Some m => Js.includes "429" m || Js.includes "quota" m
  | None => false
  end.

(** The [for] loop of [retryWithBackoff], entered with [attempt] and
    [iterations] turns left before [attempt <= maxRetries] fails. *)
Fixpoint retryLoop {A : Type} (env : Env) (fn : Async A) (maxRetries : nat)
    (baseDelay : Q) (iterations attempt : nat) : Async A :=
  match iterations with
  | O => throw (newError "Max retries exceeded")
  | S iterations' =>
      tryCatch fn (fun error =>
        if (attempt =? maxRetries)%nat then throw error
        else if isRateLimitError error then
          r <- Math_random env ;;
          let delay := baseDelay * Js.Math_pow 2 (attempt - 1) + r * 1000 in
          sleep (BackoffSleep delay) delay ;;;
          retryLoop env fn maxRetries baseDelay iterations' (S attempt)
        else throw error)
  end.

Definition retryWithBackoff {A : Type} (env : Env) (fn : Async A)
    (maxRetries : nat) (baseDelay : Q) : Async A :=
  retryLoop env fn maxRetries baseDelay maxRetries 1.

(* ################################################################# *)
(** * Rate limiter ([makeRateLimitedRequest], [processQueue])

    For a caller that awaits each call before it makes the next, the queue
    holds the one request just pushed and no worker is active:
    [processQueue] waits out what is left of [RATE_LIMIT_DELAY], runs the
    request, which settles the caller's promise either way, and records that
    a request was served. *)

Definition makeRateLimitedRequest {A : Type} (requestFn : Async A) : Async A :=
  w <- getWorld ;;
  let timeSinceLastRequest := now w - lastRequestTime w in
  (if Js.ltb timeSinceLastRequest RATE_LIMIT_DELAY
   then
     let waitTime := RATE_LIMIT_DELAY - timeSinceLastRequest in
     sleep (RateLimitWait waitTime) waitTime
   else ret tt) ;;;
  (fun w1 =>
     let (settled, w2) := requestFn w1 in
     (settled, snd (requestServed w2))).

(* ################################################################# *)
(** * Dispatcher ([analyzeTextEmotion]) *)

(** The record built from a parsed reply. *)
Definition liveEmotionData (analysis : Analysis) (timestamp speakingDuration : Q)
  : EmotionData :=
  {| emotion := reply_emotion analysis;
     confidence :=
       Js.Math_min (Js.Math_max (Js.numberOr (reply_confidence analysis) 0.5) 0) 1;
     timestamp := timestamp;
     secondsFromStart := timestamp / 1000;
     duration := speakingDuration;
     intensity := Js.valueOr (reply_intensity analysis) medium;
     additionalMetrics :=
       {| stress_level := Js.numberOr (reply_stress_level analysis) 0.5;
          energy_level := Js.numberOr (reply_energy_level analysis) 0.5;
          speaking_pace := Js.valueOr (reply_speaking_pace analysis) normal;
          voice_stability := Js.numberOr (reply_voice_stability analysis) 0.5 |} |}.

Definition cacheableData (emotionData : EmotionData) : CachedEmotion :=
  {| cached_emotion := emotion emotionData;
     cached_confidence := confidence emotionData;
     cached_duration := duration emotionData;
     cached_intensity := intensity emotionData;
     cached_additionalMetrics := additionalMetrics emotionData |}.

(** [{ ...cachedResult, timestamp, secondsFromStart: timestamp / 1000 }] *)
Definition fromCache (cachedResult : CachedEmotion) (timestamp : Q) : EmotionData :=
  {| emotion := cached_emotion cachedResult;
     confidence := cached_confidence cachedResult;
     timestamp := timestamp;
     secondsFromStart := timestamp / 1000;
     duration := cached_duration cachedResult;
     intensity := cached_intensity cachedResult;
     additionalMetrics := cached_additionalMetrics cachedResult |}.

(** [this.emotionCache.set(cacheKey, ...)] followed by the size limit. *)
Definition cacheStore (cacheKey : string) (data : CachedEmotion)
    (cache : JsMap.t CachedEmotion) : JsMap.t CachedEmotion :=
  let cache' := JsMap.set cacheKey data cache in
  if (100 <? JsMap.size cache')%nat then
    match JsMap.firstKey cache' with
    | Some firstKey =>
        if Js.truthy (Some firstKey) then JsMap.delete firstKey cache' else cache'
    | None => cache'
    end
  else cache'.

(** [jsonMatch[0]] on a [null] match is a [TypeError]; [JSON.parse] on text
    that is not JSON is a [SyntaxError]. *)
Definition parseReply (result : Reply) : Async Analysis :=
  match result with
  | NoJsonObject => throw (newError "Cannot read properties of null (reading '0')")
  | MalformedJson => throw (newError "Unexpected token in JSON")
  | JsonObject analysis => ret analysis
  end.

(** [process.env.EMOTION_DETECTION_FALLBACK_ONLY === 'true'] *)
Definition fallbackOnlyOf (penv : ProcessEnv) : bool :=
  match EMOTION_DETECTION_FALLBACK_ONLY penv with
  | Some v => String.eqb v "true"
  | None => false
  end.

(** [process.env.GOOGLE_AI_API_KEY || process.env.NEXT_PUBLIC_GOOGLE_AI_API_KEY] *)
Definition apiKeyOf (penv : ProcessEnv) : option string :=
  Js.stringOr (GOOGLE_AI_API_KEY penv) (NEXT_PUBLIC_GOOGLE_AI_API_KEY penv).

(** The live request of [analyzeTextEmotion]: the retried call of the model
    behind the rate limiter. *)
Definition liveRequest (env : Env) : Async Reply :=
  makeRateLimitedRequest (retryWithBackoff env (generateContent env) MAX_RETRIES 2000).

Section Dispatcher.

(** The rendering of a number inside a template literal. *)
Variable numberToString : Q -> string.

Definition cacheKeyOf (text : string) (speakingDuration : Q) : string :=
  (Js.toLowerCase (Js.trim text) ++ "_" ++ numberToString speakingDuration)%string.

Definition analyzeTextEmotion (penv : ProcessEnv) (env : Env)
    (text : string) (timestamp speakingDuration : Q) : Async EmotionData :=
  let fallbackOnly := fallbackOnlyOf penv in
  let apiKey := apiKeyOf penv in
  if fallbackOnly || negb (Js.truthy apiKey) then
    ret (fallbackTextAnalysis text timestamp speakingDuration)
  else
    let cacheKey := cacheKeyOf text speakingDuration in
    w <- getWorld ;;
    match JsMap.get cacheKey (emotionCache w) with
    | Some cachedResult => ret (fromCache cachedResult timestamp)
    | None =>
        if (String.length (Js.trim text) <? 10)%nat then
          ret (fallbackTextAnalysis text timestamp speakingDuration)
        else
          tryCatch
            (result <- liveRequest env ;;
             analysis <- parseReply result ;;
             let emotionData := liveEmotionData analysis timestamp speakingDuration in
             w' <- getWorld ;;
             setCache (cacheStore cacheKey (cacheableData emotionData) (emotionCache w')) ;;;
             ret emotionData)
            (fun _ => ret (fallbackTextAnalysis text timestamp speakingDuration))
    end.

(** The states the service can be in: the one it is constructed in, and the
    one any call leaves behind, whatever the configuration, the environment
    and the time that passed since the call before. *)
Inductive reachable : World -> Prop :=
| reachable_initial (startTime : Q) : reachable (initialWorld startTime)
| reachable_call (w : World) penv env text timestamp speakingDuration :
    reachable w ->
    reachable (snd (analyzeTextEmotion penv env text timestamp speakingDuration w))
| reachable_elapse (w : World) (ms : Q) :
    reachable w -> 0 <= ms ->
    reachable
      {| emotionCache := emotionCache w;
         lastRequestTime := lastRequestTime w;
         requestCount := requestCount w;
         now := now w + ms;
         liveCalls := liveCalls w;
         randomCalls := randomCalls w;
         trace := trace w |}.

End Dispatcher.

(* ################################################################# *)
(** * Session aggregator ([calculateEmotionSummary], [calculateEmotionalTrend]) *)

Record EmotionSummary : Type := {
  averageConfidence : Q;
  mostFrequentEmotion : EmotionLabel;
  emotionalStability : Q;
  stressIndicators : list string
}.

Definition sumQ (l : list Q) : Q := fold_left Qplus l 0.

(** [acc[e.emotion] = (acc[e.emotion] || 0) + 1] on an object whose own
    properties are kept in the order they were created (none of the label
    names is an array index). *)
Fixpoint countUp (label : EmotionLabel) (acc : list (EmotionLabel * nat))
  : list (EmotionLabel * nat) :=
  match acc with
  | [] => [(label, 1%nat)]
  | (l, n) :: acc' =>
      if EmotionLabel_eqb label l then (l, S n) :: acc'
      else (l, n) :: countUp label acc'
  end.

Definition emotionCounts (emotions : list EmotionData) : list (EmotionLabel * nat) :=
  fold_left (fun acc e => countUp (emotion e) acc) emotions [].

(** [([,a], [,b]) => b - a] *)
Definition byCountDescending (x y : EmotionLabel * nat) : Z :=
  (Z.of_nat (snd y) - Z.of_nat (snd x))%Z.

(** [Object.entries(emotionCounts).sort(...)[0][0]]; [None] where [[0]] is
    [undefined] and the property access throws. *)
Definition mostFrequentOf (emotions : list EmotionData) : option EmotionLabel :=
  match Js.sort byCountDescending (emotionCounts emotions) with
  | [] => None
  | (label, _) :: _ => Some label
  end.

(** [new Set(emotions.map(e => e.emotion)).size] *)
Definition uniqueEmotionsOf (emotions : list EmotionData) : nat :=
  List.length (nodup EmotionLabel_eq_dec (map emotion emotions)).

Definition calculateEmotionSummary (emotions : list EmotionData)
  : option EmotionSummary :=
  match emotions with
  | [] =>
      Some {| averageConfidence := 0;
              mostFrequentEmotion := neutral;
              emotionalStability := 0;
              stressIndicators := [] |}
  | _ =>
      let len := Qnat (List.length emotions) in
      let averageConfidence := sumQ (map confidence emotions) / len in
      match mostFrequentOf emotions with
      | None => None
      | Some mostFrequent =>
          let uniqueEmotions := uniqueEmotionsOf emotions in
          let emotionalStability := Js.Math_max 0 (1 - Qnat uniqueEmotions / len) in
          let stressedCount :=
            List.length
              (filter (fun e => EmotionLabel_eqb (emotion e) stressed
                                || EmotionLabel_eqb (emotion e) nervous) emotions) in
          let averageStress :=
            sumQ (map (fun e => Js.numberOr (Some (stress_level (additionalMetrics e))) 0)
                      emotions) / len in
          Some {| averageConfidence := averageConfidence;
                  mostFrequentEmotion := mostFrequent;
                  emotionalStability := emotionalStability;
                  stressIndicators :=
                    ((if Js.ltb (len * 0.3) (Qnat stressedCount)
                      then ["High frequency of stressed/nervous responses"] else [])
                     ++ (if Js.ltb 0.6 averageStress
                         then ["Elevated stress levels detected"] else [])
                     ++ (if Js.ltb emotionalStability 0.5
                         then ["High emotional volatility"] else []))%list |}
      end
  end.

Definition positiveEmotions : list EmotionLabel := [happy; confident; excited; calm].

(** [half.filter(e => positiveEmotions.includes(e.emotion)).length / half.length] *)
Definition positiveShare (half : list EmotionData) : Q :=
  Qnat (List.length (filter (fun e => isOneOf positiveEmotions (emotion e)) half))
  / Qnat (List.length half).

Definition calculateEmotionalTrend (emotions : list EmotionData) : Trend :=
  if (List.length emotions <? 3)%nat then stable
  else
    let firstHalf := firstn (List.length emotions / 2) emotions in
    let secondHalf := skipn (List.length emotions / 2) emotions in
    let firstHalfPositive := positiveShare firstHalf in
    let secondHalfPositive := positiveShare secondHalf in
    let improvement := secondHalfPositive - firstHalfPositive in
    if Js.ltb 0.1 improvement then improving
    else if Js.ltb improvement (-0.1) then declining
    else stable.

(* ################################################################# *)
(** * Streaming and transcript entry points
      ([processStreamingMessage], [analyzeCompleteTranscript]) *)

(** A message of a call transcript, as far as the service reads it:
    [role], [message], [time] and [duration]; a field that is absent is
    [None]. *)
Module Msg.

Record t : Type := {
  role : string;
  message : option string;
  time : option Q;
  duration : option Q
}.

End Msg.

Record EmotionAnalysisResult : Type := {
  emotions : list EmotionData;
  dominantEmotion : EmotionLabel;
  emotionalTrend : Trend;
  summary : EmotionSummary
}.

(** [msg.role === 'user' && msg.message && msg.message.trim().length > 0] *)
Definition isCandidateResponse (msg : Msg.t) : bool :=
  String.eqb (Msg.role msg) "user"
  && Js.truthy (Msg.message msg)
  && (0 <? String.length (Js.trim (Js.valueOr (Msg.message msg) "")))%nat.

Section Transcript.

Variable numberToString : Q -> string.

Definition processStreamingMessage (penv : ProcessEnv) (env : Env)
    (message : string) (timestamp : Q) (isPartial : bool)
  : Async (option EmotionData) :=
  if isPartial || (String.length (Js.trim message) <? 10)%nat then ret None
  else
    emotionData <- analyzeTextEmotion numberToString penv env message timestamp 0 ;;
    ret (Some emotionData).

(** The [for ... of] loop over the user messages; [message.time || Date.now()]
    reads the clock when the message carries no time. *)
Fixpoint analyzeEach (penv : ProcessEnv) (env : Env) (userMessages : list Msg.t)
  : Async (list EmotionData) :=
  match userMessages with
  | [] => ret []
  | message :: rest =>
      w <- getWorld ;;
      emotionData <- analyzeTextEmotion numberToString penv env
                       (Js.valueOr (Msg.message message) "")
                       (Js.numberOr (Msg.time message) (now w))
                       (Js.numberOr (Msg.duration message) 0) ;;
      emotions <- analyzeEach penv env rest ;;
      ret (emotionData :: emotions)
  end.

Definition analyzeCompleteTranscript (penv : ProcessEnv) (env : Env)
    (messages : list Msg.t) : Async EmotionAnalysisResult :=
  let userMessages := filter isCandidateResponse messages in
  emotions <- analyzeEach penv env userMessages ;;
  match calculateEmotionSummary emotions with
  | None => throw (newError "Cannot read properties of undefined (reading '0')")
  | Some summary =>
      ret {| emotions := emotions;
             dominantEmotion := mostFrequentEmotion summary;
             emotionalTrend := calculateEmotionalTrend emotions;
             summary := summary |}
  end.

End Transcript.

(* ################################################################# *)
(** * Colours ([getEmotionColor]) *)

Definition colorMap : list (EmotionLabel * string) :=
  [ (happy, "#10B981"); (confident, "#3B82F6"); (excited, "#F59E0B");
    (calm, "#6366F1"); (neutral, "#6B7280"); (nervous, "#EF4444");
    (stressed, "#DC2626"); (frustrated, "#B91C1C"); (disappointed, "#7C2D12");
    (uncertain, "#D97706") ].

(** [colorMap[emotion]] *)
Fixpoint colorOf (emotion : EmotionLabel) (map : list (EmotionLabel * string))
  : option string :=
  match map with
  | [] => None
  | (l, c) :: map' => if EmotionLabel_eqb emotion l then Some c else colorOf emotion map'
  end.

(** [colorMap[emotion] || '#6B7280'] *)
Definition getEmotionColor (emotion : EmotionLabel) : string :=
  Js.valueOr (Js.stringOr (colorOf emotion colorMap) (Some "#6B7280")) "".

(* ################################################################# *)
(** * Timeline segments ([EmotionTimeline] of components/EmotionVisualization.tsx) *)




(* ################################################################# *)
(** * Reference formulations taken from the specification *)

(** "The first label that reached the running maximum during the scan of the
    list": the records are scanned once with a count per label; a label takes
    the lead when its count rises above the highest count seen so far. *)
Definition runningMaximumStep (st : (EmotionLabel -> nat) * nat * EmotionLabel)
    (e : EmotionData) : (EmotionLabel -> nat) * nat * EmotionLabel :=
  let '(count, best, leader) := st in
  let c := S (count (emotion e)) in
  let count' := fun l => if EmotionLabel_eqb l (emotion e) then c else count l in
  if (best <? c)%nat then (count', c, emotion e) else (count', best, leader).

Definition firstToReachRunningMaximum (emotions : list EmotionData) : EmotionLabel :=
  snd (fold_left runningMaximumStep emotions (fun _ => 0%nat, 0%nat, neutral)).

(** Number of records of a list that carry a label. *)
Definition occurrences (label : EmotionLabel) (emotions : list EmotionData) : nat :=
  count_occ EmotionLabel_eq_dec (map emotion emotions) label.

(** The score of a category of [emotionPatterns] for a text. *)
Definition categoryScore (text : string) (entry : EmotionLabel * list string) : nat :=
  keywordScore (Js.toLowerCase text) (snd entry).

(** "The text contains at least two consecutive uppercase letters." *)
Definition hasUppercaseRun (text : string) : Prop :=
  exists pre a b post,
    text = (pre ++ String a (String b post))%string
    /\ (65 <= nat_of_ascii a <= 90)%nat /\ (65 <= nat_of_ascii b <= 90)%nat.

(** "The text contains [sub]." *)
Definition containsText (sub text : string) : Prop :=
  exists pre post, text = (pre ++ sub ++ post)%string.

(** The condition under which the specification sets the intensity to high. *)
Definition highIntensitySigns (text : string) (maxCount : nat) : Prop :=
  hasUppercaseRun text \/ containsText "!" text \/ (2 < maxCount)%nat.

(** "base(2000ms) x 2^(attempt-1) + jitter": the delay after the failed
    attempt number [attempt] of a request that starts in [w], the jitter being
    the next value of [Math.random()] times 1000. *)
Definition backoffDelay (env : Env) (w : World) (attempt : nat) : Q :=
  2000 * Js.Math_pow 2 (attempt - 1) + random env (randomCalls w + (attempt - 1)) * 1000.

(** The dispatcher takes the live path: a credential is configured and the
    fallback-only flag is off. *)
Definition liveModeEnabled (penv : ProcessEnv) : bool :=
  negb (fallbackOnlyOf penv || negb (Js.truthy (apiKeyOf penv))).

(** The world with another cache. *)
Definition withCache (c : JsMap.t CachedEmotion) (w : World) : World :=
  snd (setCache c w).

(** "Each half's ratio of labels in {happy, confident, excited, calm}." *)
Definition positiveRatio (half : list EmotionData) : Q :=
  Qnat (occurrences happy half + occurrences confident half
        + occurrences excited half + occurrences calm half)
  / Qnat (List.length half).

(** The count table of a list of labels, and what the table holds for a
    label (0 when it has no entry). *)
Definition countsOf (labels : list EmotionLabel) : list (EmotionLabel * nat) :=
  fold_left (fun acc l => countUp l acc) labels [].

Fixpoint lookupCount (label : EmotionLabel) (acc : list (EmotionLabel * nat)) : nat :=
  match acc with
  | [] => 0%nat
  | (l, n) :: acc' => if EmotionLabel_eqb label l then n else lookupCount label acc'
  end.

(** The first entry of a table that carries the highest count. *)
Fixpoint firstMaximum (entries : list (EmotionLabel * nat)) : option (EmotionLabel * nat) :=
  match entries with
  | [] => None
  | x :: rest =>
      match firstMaximum rest with
      | None => Some x
      | Some y => if (snd x <? snd y)%nat then Some y else Some x
      end
  end.

(** An event of the rate limiter, as opposed to an attempt or a backoff. *)
Definition isRateLimitWait (ev : Event) : Prop :=
  match ev with RateLimitWait _ => True | _ => False end.

(** A cache key made by the dispatcher on its live path: the key of a text
    whose trimmed length is 10 or more. *)
Definition keyOfLongText (numberToString : Q -> string) (key : string) : Prop :=
  exists text speakingDuration,
    key = cacheKeyOf numberToString text speakingDuration
    /\ (10 <= String.length (Js.trim text))%nat.

(** What holds of the cache in every state of the service. *)
Definition cacheInvariant (numberToString : Q -> string)
    (cache : JsMap.t CachedEmotion) : Prop :=
  NoDup (JsMap.keys cache)
  /\ (JsMap.size cache <= 100)%nat
  /\ Forall (keyOfLongText numberToString) (JsMap.keys cache).

(* ################################################################# *)
(** * An instance of the number rendering

    The decimal numeral of a number with an integral value, which is what a
    template literal prints for it (below 10^21). It instantiates
    [numberToString] where a statement is evaluated at concrete durations. *)

Definition integralToString (q : Q) : string :=
  DecimalString.NilZero.string_of_int (Z.to_int (Qfloor q)).

(* ################################################################# *)
(** * Sample configurations, replies and sessions

    Concrete inputs at which statements below are evaluated. *)

(** A credential is configured and the fallback-only flag is not set. *)
Definition liveConfiguration : ProcessEnv :=
  {| GOOGLE_AI_API_KEY := Some "AIza-sample-key";
     NEXT_PUBLIC_GOOGLE_AI_API_KEY := None;
     EMOTION_DETECTION_FALLBACK_ONLY := None |}.

(** A live service that settles every call the same way, after 200 ms; the
    jitter source always yields one half. *)
Definition serviceAlways (outcome : LiveOutcome) : Env :=
  {| liveOutcome := fun _ => outcome;
     liveLatency := fun _ => 200;
     random := fun _ => 0.5 |}.

(** The reply
    [{"emotion":"stressed","confidence":0.9,"stress_level":5,
      "energy_level":0.4,"voice_stability":0.6}]. *)
Definition replyWithStressFive : Analysis :=
  {| reply_emotion := stressed;
     reply_confidence := Some 0.9;
     reply_intensity := None;
     reply_stress_level := Some 5;
     reply_energy_level := Some 0.4;
     reply_speaking_pace := None;
     reply_voice_stability := Some 0.6 |}.

(** The reply
    [{"emotion":"nervous","confidence":-1,"stress_level":0,
      "energy_level":0,"voice_stability":0}]. *)
Definition replyWithNegativeConfidence : Analysis :=
  {| reply_emotion := nervous;
     reply_confidence := Some (-1);
     reply_intensity := None;
     reply_stress_level := Some 0;
     reply_energy_level := Some 0;
     reply_speaking_pace := None;
     reply_voice_stability := Some 0 |}.

Definition sampleUtterance : string :=
  "Let me walk through the approach I would take here.".

(** A record that carries a label, as the fallback classifier shapes it. *)
Definition recordOf (label : EmotionLabel) : EmotionData :=
  {| emotion := label;
     confidence := 0.5;
     timestamp := 0;
     secondsFromStart := 0;
     duration := 0;
     intensity := medium;
     additionalMetrics :=
       {| stress_level := 0.3;
          energy_level := 0.5;
          speaking_pace := normal;
          voice_stability := 0.5 |} |}.


(** A live service that rejects every call as throttled. *)
Definition throttledService : Env :=
  serviceAlways (Rejects (newError "[429 Too Many Requests] quota exceeded")).

(** The service after it has answered [sampleUtterance] from the live model. *)
Definition worldAfterOneLiveCall : World :=
  snd (analyzeTextEmotion integralToString liveConfiguration
         (serviceAlways (Resolves (JsonObject replyWithStressFive)))
         sampleUtterance 1000 3000 (initialWorld 0)).

(** The n-th of a series of distinct utterances, and the service after the
    live model has answered the first [n] of them. *)
Definition utterance (n : nat) : string :=
  ("I would start with test case number " ++ integralToString (Qnat n))%string.

Fixpoint worldAfterUtterances (n : nat) : World :=
  match n with
  | O => initialWorld 0
  | S k =>
      snd (analyzeTextEmotion integralToString liveConfiguration
             (serviceAlways (Resolves (JsonObject replyWithStressFive)))
             (utterance k) 1000 3000 (worldAfterUtterances k))
  end.

(** A live service that is throttled twice and then answers. *)
Definition recoveringService : Env :=
  {| liveOutcome := fun n =>
       if (n <? 2)%nat
       then Rejects (newError "[429 Too Many Requests] quota exceeded")
       else Resolves (JsonObject replyWithStressFive);
     liveLatency := fun _ => 200;
     random := fun _ => 0.5 |}.

(** No credential at all, the fallback-only flag absent. *)
Definition offlineConfiguration : ProcessEnv :=
  {| GOOGLE_AI_API_KEY := None;
     NEXT_PUBLIC_GOOGLE_AI_API_KEY := Some "";
     EMOTION_DETECTION_FALLBACK_ONLY := Some "TRUE" |}.

(** A transcript: the assistant speaks, the candidate answers twice, and two
    entries carry no words. *)
Definition sampleTranscript : list Msg.t :=
  [ {| Msg.role := "assistant";
       Msg.message := Some "Great! Let's start with a coding problem.";
       Msg.time := Some 1000; Msg.duration := Some 2500 |};
    {| Msg.role := "user";
       Msg.message := Some "Um, this looks a bit challenging... let me think about it.";
       Msg.time := Some 5000; Msg.duration := None |};
    {| Msg.role := "user"; Msg.message := Some "   ";
       Msg.time := Some 9000; Msg.duration := None |};
    {| Msg.role := "user"; Msg.message := None;
       Msg.time := Some 9500; Msg.duration := None |};
    {| Msg.role := "user";
       Msg.message := Some "I'm excited to implement it!";
       Msg.time := None; Msg.duration := Some 1800 |} ].

(** The entries of [sampleTranscript] that are no candidate responses. *)
Definition silentTranscript : list Msg.t :=
  filter (fun msg => negb (isCandidateResponse msg)) sampleTranscript.

(** The trend read backwards. *)
Definition oppositeTrend (t : Trend) : Trend :=
  match t with
  | improving => declining
  | declining => improving
  | stable => stable
  end.

(** Every keyword of [emotionPatterns]. *)
Definition allKeywords : list string := flat_map snd emotionPatterns.

(** How a record answers a message: it carries the time of the message when
    the message has one that is not 0, and its seconds are its timestamp
    divided by 1000. *)
Definition answersMessage (msg : Msg.t) (r : EmotionData) : Prop :=
  (forall t, Msg.time msg = Some t -> ~ t == 0 -> timestamp r = t)
  /\ secondsFromStart r = timestamp r / 1000.

(** The ten labels of the type [EmotionData['emotion']]. *)
Definition allLabels : list EmotionLabel :=
  [happy; neutral; nervous; confident; stressed;
   excited; disappointed; frustrated; calm; uncertain].

(* ################################################################# *)
(** * Placeholder transcript of the hook ([useEmotionDetection] of
      hooks/useEmotionDetection.ts)

    When the history of readings changes, the hook has the service analyse a
    transcript with one message per reading: the text of the message is
    [`Emotion reading ${index + 1}`], its time the timestamp of the reading. *)

(** [`${n}`] for an array index: its decimal digits. *)
Definition indexToString (n : nat) : string :=
  DecimalString.NilEmpty.string_of_uint (Nat.to_uint n).

Fixpoint mockMessagesFrom (index : nat) (emotionHistory : list EmotionData)
  : list Msg.t :=
  match emotionHistory with
  | [] => []
  | emotion :: rest =>
      {| Msg.role := "user";
         Msg.message := Some ("Emotion reading " ++ indexToString (index + 1))%string;
         Msg.time := Some (timestamp emotion);
         Msg.duration := None |} :: mockMessagesFrom (index + 1) rest
  end.

(** [emotionHistory.map((emotion, index) => ({ role: 'user', ... }))] *)
Definition mockMessages (emotionHistory : list EmotionData) : list Msg.t :=
  mockMessagesFrom 0 emotionHistory.

(** Decimal digits, and strings all of whose characters pass a test. *)
Definition isDigit (c : ascii) : bool :=
  ((48 <=? nat_of_ascii c) && (nat_of_ascii c <=? 57))%nat.

Fixpoint allChars (p : ascii -> bool) (s : string) : bool :=
  match s with
  | EmptyString => true
  | String c s' => p c && allChars p s'
  end.

Definition noDigit (s : string) : bool := allChars (fun c => negb (isDigit c)) s.


(* ################################################################# *)
(** * Properties *)

(** ** Labels *)

Lemma EmotionLabel_eqb_spec (a b : EmotionLabel) :
  reflect (a = b) (EmotionLabel_eqb a b).
Proof. destruct a, b; simpl; constructor; congruence. Qed.

Lemma EmotionLabel_eqb_refl (a : EmotionLabel) : EmotionLabel_eqb a a = true.
Proof. now destruct a. Qed.

Lemma EmotionLabel_eqb_eq (a b : EmotionLabel) :
  EmotionLabel_eqb a b = true <-> a = b.
Proof. destruct (EmotionLabel_eqb_spec a b); intuition congruence. Qed.

Lemma EmotionLabel_eqb_neq (a b : EmotionLabel) :
  EmotionLabel_eqb a b = false <-> a <> b.
Proof. destruct (EmotionLabel_eqb_spec a b); intuition congruence. Qed.


(** ** Strings *)

Lemma prefix_app (sub s : string) :
  prefix sub s = true <-> exists post, s = (sub ++ post)%string.
Proof.
  revert s; induction sub as [|c sub IH]; intros s.
  - split; [intros _; now exists s | intros _; now destruct s].
  - destruct s as [|d s]; simpl.
    + split; [discriminate | intros [post H]; discriminate].
    + destruct (ascii_dec c d) as [->|Hcd].
      * rewrite IH. split; intros [post H]; exists post.
        -- now rewrite H.
        -- now inversion H.
      * split; [discriminate | intros [post H]; inversion H; congruence].
Qed.

Lemma includes_app (sub s : string) :
  Js.includes sub s = true <-> exists pre post, s = (pre ++ sub ++ post)%string.
Proof.
  induction s as [|c s IH].
  - change (Js.includes sub EmptyString) with (prefix sub EmptyString || false).
    rewrite orb_false_r, prefix_app. split.
    + intros [post H]. now exists EmptyString, post.
    + intros [pre [post H]]. destruct pre; simpl in H.
      * now exists post.
      * discriminate.
  - change (Js.includes sub (String c s))
      with (prefix sub (String c s) || Js.includes sub s).
    rewrite orb_true_iff, prefix_app, IH. split.
    + intros [[post H]|[pre [post H]]].
      * now exists EmptyString, post.
      * exists (String c pre), post. simpl. now rewrite H.
    + intros [pre [post H]]. destruct pre as [|d pre]; simpl in H.
      * left. now exists post.
      * right. inversion H. now exists pre, post.
Qed.

Lemma testUpperRun_app (s : string) :
  Js.testUpperRun s = true <->
  exists pre a b post,
    s = (pre ++ String a (String b post))%string
    /\ Js.isUpperAZ a = true /\ Js.isUpperAZ b = true.
Proof.
  induction s as [|c s IH].
  - simpl. split; [discriminate|].
    intros (pre & a & b & post & H & _). destruct pre; discriminate.
  - destruct s as [|d s].
    + simpl. split; [discriminate|].
      intros (pre & a & b & post & H & _).
      destruct pre as [|x pre]; [discriminate|].
      destruct pre; discriminate.
    + change (Js.testUpperRun (String c (String d s)))
        with ((Js.isUpperAZ c && Js.isUpperAZ d) || Js.testUpperRun (String d s)).
      rewrite orb_true_iff, andb_true_iff, IH. split.
      * intros [[Hc Hd]|(pre & a & b & post & H & Ha & Hb)].
        -- now exists EmptyString, c, d, s.
        -- exists (String c pre), a, b, post. simpl. now rewrite H.
      * intros (pre & a & b & post & H & Ha & Hb).
        destruct pre as [|x pre]; simpl in H; inversion H; subst.
        -- now left.
        -- right. now exists pre, a, b, post.
Qed.


Lemma wordCountOf_positive (text : string) : (1 <= wordCountOf text)%nat.
Proof. unfold wordCountOf, Js.splitLength. lia. Qed.

(** ** Fallback classifier: the scan over the categories *)

Section ScoreScan.

Variable lowerText : string.

Let score (entry : EmotionLabel * list string) : nat :=
  keywordScore lowerText (snd entry).

(** The scan either never sees a score above the one it starts with and keeps
    its state, or stops at the first entry that carries the highest score. *)
Lemma scoreScan_first_maximum (entries : list (EmotionLabel * list string)) :
  forall (m0 : nat) (l0 : EmotionLabel),
    let r := fold_left (scoreStep lowerText) entries (m0, l0) in
    (Forall (fun e => score e <= m0)%nat entries /\ r = (m0, l0))
    \/ (exists earlier winner later,
          entries = (earlier ++ winner :: later)%list
          /\ r = (score winner, fst winner)
          /\ (m0 < score winner)%nat
          /\ Forall (fun e => score e < score winner)%nat earlier
          /\ Forall (fun e => score e <= score winner)%nat later).
Proof.
  induction entries as [|e rest IH]; intros m0 l0; simpl.
  - left. split; [constructor | reflexivity].
  - assert (Hstep : scoreStep lowerText (m0, l0) e
                   = if (m0 <? score e)%nat then (score e, fst e) else (m0, l0))
      by reflexivity.
    rewrite Hstep. clear Hstep.
    destruct (Nat.ltb_spec m0 (score e)) as [Hlt|Hge].
    + right. destruct (IH (score e) (fst e)) as [[Hall Hr]|Hex].
      * exists [], e, rest. simpl. repeat split; auto.
      * destruct Hex as (earlier & winner & later & -> & Hr & Hw & He & Hl).
        exists (e :: earlier), winner, later. simpl. repeat split; auto.
        lia.
    + destruct (IH m0 l0) as [[Hall Hr]|Hex].
      * left. split; auto.
      * right. destruct Hex as (earlier & winner & later & -> & Hr & Hw & He & Hl).
        exists (e :: earlier), winner, later. simpl. repeat split; auto.
        constructor; auto. lia.
Qed.

End ScoreScan.

Lemma detectEmotion_cases (text : string) :
  (Forall (fun e => categoryScore text e = 0%nat) emotionPatterns
   /\ detectEmotion text = (0%nat, neutral))
  \/ (exists earlier winner later,
        emotionPatterns = (earlier ++ winner :: later)%list
        /\ detectEmotion text = (categoryScore text winner, fst winner)
        /\ (0 < categoryScore text winner)%nat
        /\ Forall (fun e => categoryScore text e < categoryScore text winner)%nat earlier
        /\ Forall (fun e => categoryScore text e <= categoryScore text winner)%nat later).
Proof.
  unfold detectEmotion, categoryScore.
  destruct (scoreScan_first_maximum (Js.toLowerCase text) emotionPatterns 0 neutral)
    as [[Hall Hr]|Hex].
  - left. split; auto.
    eapply Forall_impl; [|exact Hall]. simpl. intros; lia.
  - right. exact Hex.
Qed.

Lemma maxScoreOf_bounds (text : string) :
  Forall (fun e => categoryScore text e <= maxScoreOf text)%nat emotionPatterns
  /\ (maxScoreOf text = 0%nat
      \/ exists e, In e emotionPatterns /\ categoryScore text e = maxScoreOf text).
Proof.
  unfold maxScoreOf.
  destruct (detectEmotion_cases text) as [[Hall ->]|Hex].
  - simpl. split; [|now left].
    eapply Forall_impl; [|exact Hall]. simpl. intros; lia.
  - destruct Hex as (earlier & winner & later & Hsplit & -> & Hpos & He & Hl).
    simpl fst. split.
    + rewrite Hsplit. apply Forall_app. split.
      * eapply Forall_impl; [|exact He]. simpl. intros; lia.
      * constructor; auto.
    + right. exists winner. split; auto.
      rewrite Hsplit. apply in_or_app. right. now left.
Qed.

Lemma isUpperAZ_range (c : ascii) :
  Js.isUpperAZ c = true <-> (65 <= nat_of_ascii c <= 90)%nat.
Proof.
  unfold Js.isUpperAZ, Js.charCode.
  rewrite andb_true_iff, !Nat.leb_le. tauto.
Qed.

Lemma testUpperRun_hasUppercaseRun (text : string) :
  Js.testUpperRun text = true <-> hasUppercaseRun text.
Proof.
  rewrite testUpperRun_app. unfold hasUppercaseRun.
  split; intros (pre & a & b & post & H & Ha & Hb); exists pre, a, b, post;
    (split; [exact H|]); rewrite !isUpperAZ_range in *; tauto.
Qed.

Lemma splitLength_count_occ (sep : ascii) (s : string) :
  Js.splitLength sep s = S (count_occ ascii_dec (list_ascii_of_string s) sep).
Proof.
  unfold Js.splitLength. f_equal.
  induction s as [|c s IH]; simpl; [reflexivity|].
  destruct (Ascii.eqb_spec c sep) as [->|Hne].
  - destruct (ascii_dec sep sep); [lia | contradiction].
  - destruct (ascii_dec c sep); [contradiction | lia].
Qed.

Lemma highIntensitySigns_dec (text : string) :
  (Js.testUpperRun text || Js.includes "!" text || (2 <? maxScoreOf text)%nat) = true
  <-> highIntensitySigns text (maxScoreOf text).
Proof.
  unfold highIntensitySigns, containsText.
  rewrite !orb_true_iff, testUpperRun_hasUppercaseRun, includes_app, Nat.ltb_lt.
  tauto.
Qed.

Lemma Qnat_nonneg (n : nat) : 0 <= Qnat n.
Proof.
  unfold Qnat, Qle. simpl. lia.
Qed.

Lemma Qnat_positive (n : nat) : (0 < n)%nat -> 0 < Qnat n.
Proof.
  unfold Qnat, Qlt. simpl. lia.
Qed.

Lemma fallbackConfidence_range (text : string) :
  0.3 <= fallbackConfidence text <= 0.85.
Proof.
  unfold fallbackConfidence, Js.Math_min.
  assert (Hratio : 0 <= Qnat (maxScoreOf text) / Qnat (wordCountOf text)).
  { apply Qle_shift_div_l.
    - apply Qnat_positive. apply wordCountOf_positive.
    - rewrite Qmult_0_l. apply Qnat_nonneg. }
  set (x := Qnat (maxScoreOf text) / Qnat (wordCountOf text)) in *.
  split.
  - apply Q.min_glb; lra.
  - apply Q.le_min_r.
Qed.

(** ** C3: label of the fallback classifier *)

(** C3. For every text the label of the fallback classifier is the first
    category, in the order confident, nervous, excited, stressed, frustrated,
    calm, happy, disappointed, whose keyword count is the highest of the eight
    (every category before it counts strictly less, every category after it
    at most as much), and neutral when every count is 0; the two utterances of
    the specification are labelled confident and nervous. *)
Theorem C3_fallback_label (text : string) (timestamp speakingDuration : Q) :
  let label := emotion (fallbackTextAnalysis text timestamp speakingDuration) in
  map fst emotionPatterns
    = [confident; nervous; excited; stressed; frustrated; calm; happy; disappointed]
  /\ ((Forall (fun e => categoryScore text e = 0%nat) emotionPatterns
       /\ label = neutral)
      \/ (exists earlier winner later,
            emotionPatterns = (earlier ++ winner :: later)%list
            /\ label = fst winner
            /\ (0 < categoryScore text winner)%nat
            /\ Forall (fun e => categoryScore text e < categoryScore text winner)%nat earlier
            /\ Forall (fun e => categoryScore text e <= categoryScore text winner)%nat later))
  /\ emotion (fallbackTextAnalysis
       "I'm absolutely confident about this algorithm, I've implemented binary search many times before."
       timestamp speakingDuration) = confident
  /\ emotion (fallbackTextAnalysis
       "Um, I'm not really sure about this... maybe I could try a different approach?"
       timestamp speakingDuration) = nervous.
Proof.
  cbv zeta. simpl emotion. unfold detectedEmotionOf.
  split; [reflexivity|]. split; [|split; vm_compute; reflexivity].
  destruct (detectEmotion_cases text) as [[Hall ->]|Hex].
  - left. split; auto.
  - right. destruct Hex as (earlier & winner & later & Hsplit & -> & Hrest).
    exists earlier, winner, later. split; auto.
Qed.

(** ** C8: numeric and categorical outputs of the fallback classifier *)

Lemma fallbackIntensity_cases (text : string) :
  (highIntensitySigns text (maxScoreOf text) /\ fallbackIntensity text = high)
  \/ (~ highIntensitySigns text (maxScoreOf text)
      /\ (maxScoreOf text = 0%nat \/ (String.length text < 20)%nat)
      /\ fallbackIntensity text = low)
  \/ (~ highIntensitySigns text (maxScoreOf text)
      /\ maxScoreOf text <> 0%nat /\ (20 <= String.length text)%nat
      /\ fallbackIntensity text = medium).
Proof.
  pose proof (highIntensitySigns_dec text) as Hhigh.
  unfold fallbackIntensity.
  destruct (Js.testUpperRun text || Js.includes "!" text || (2 <? maxScoreOf text)%nat).
  - left. split; [now apply Hhigh | reflexivity].
  - assert (Hnot : ~ highIntensitySigns text (maxScoreOf text)).
    { intros H. apply Hhigh in H. discriminate. }
    destruct (Nat.eqb_spec (maxScoreOf text) 0) as [Hzero|Hpos]; simpl.
    + right. left. auto.
    + destruct (Nat.ltb_spec (String.length text) 20) as [Hshort|Hlong].
      * right. left. auto.
      * right. right. auto.
Qed.

Lemma fallback_speaking_pace (text : string) (timestamp speakingDuration : Q) :
  let pace := speaking_pace (additionalMetrics
                (fallbackTextAnalysis text timestamp speakingDuration)) in
  ((50 < wordCountOf text)%nat -> pace = fast)
  /\ ((wordCountOf text < 20)%nat -> pace = slow)
  /\ ((20 <= wordCountOf text <= 50)%nat -> pace = normal).
Proof.
  simpl.
  destruct (Nat.ltb_spec 50 (wordCountOf text));
    destruct (Nat.ltb_spec (wordCountOf text) 20);
    repeat split; intros; try reflexivity; lia.
Qed.

(** C8. For every text the record of the fallback classifier follows the
    reference formulas: maxCount is the highest category count and wordCount
    the number of pieces between single spaces; confidence is
    min(0.3 + (maxCount / wordCount) * 2, 0.85) and lies in [0.3, 0.85];
    intensity is high exactly when the text has two consecutive uppercase
    letters, contains "!" or maxCount > 2, low exactly when it is not high and
    maxCount is 0 or the text is shorter than 20, medium otherwise; stress
    level is 0.7 for nervous and stressed and 0.3 otherwise; energy level is
    0.8 for excited and confident and 0.5 otherwise; speaking pace is fast
    above 50 words, slow below 20, normal in between; voice stability is the
    confidence. *)
Theorem C8_fallback_formulas (text : string) (timestamp speakingDuration : Q) :
  let r := fallbackTextAnalysis text timestamp speakingDuration in
  let label := emotion r in
  let maxCount := maxScoreOf text in
  let wordCount := wordCountOf text in
  (Forall (fun e => categoryScore text e <= maxCount)%nat emotionPatterns
   /\ (maxCount = 0%nat
       \/ exists e, In e emotionPatterns /\ categoryScore text e = maxCount))
  /\ wordCount = S (count_occ ascii_dec (list_ascii_of_string text) " "%char)
  /\ confidence r = Qmin (0.3 + (Qnat maxCount / Qnat wordCount) * 2) 0.85
  /\ 0.3 <= confidence r <= 0.85
  /\ (intensity r = high <-> highIntensitySigns text maxCount)
  /\ (intensity r = low <->
      ~ highIntensitySigns text maxCount
      /\ (maxCount = 0%nat \/ (String.length text < 20)%nat))
  /\ (intensity r = medium <->
      ~ highIntensitySigns text maxCount
      /\ maxCount <> 0%nat /\ (20 <= String.length text)%nat)
  /\ stress_level (additionalMetrics r)
     = (if EmotionLabel_eq_dec label nervous then 0.7
        else if EmotionLabel_eq_dec label stressed then 0.7 else 0.3)
  /\ energy_level (additionalMetrics r)
     = (if EmotionLabel_eq_dec label excited then 0.8
        else if EmotionLabel_eq_dec label confident then 0.8 else 0.5)
  /\ ((50 < wordCount)%nat -> speaking_pace (additionalMetrics r) = fast)
  /\ ((wordCount < 20)%nat -> speaking_pace (additionalMetrics r) = slow)
  /\ ((20 <= wordCount <= 50)%nat -> speaking_pace (additionalMetrics r) = normal)
  /\ voice_stability (additionalMetrics r) = confidence r.
Proof.
  cbv zeta.
  split; [apply maxScoreOf_bounds|].
  split; [apply splitLength_count_occ|].
  split; [reflexivity|].
  split; [apply fallbackConfidence_range|].
  assert (Hintensity :
    (intensity (fallbackTextAnalysis text timestamp speakingDuration) = high
     <-> highIntensitySigns text (maxScoreOf text))
    /\ (intensity (fallbackTextAnalysis text timestamp speakingDuration) = low
        <-> ~ highIntensitySigns text (maxScoreOf text)
            /\ (maxScoreOf text = 0%nat \/ (String.length text < 20)%nat))
    /\ (intensity (fallbackTextAnalysis text timestamp speakingDuration) = medium
        <-> ~ highIntensitySigns text (maxScoreOf text)
            /\ maxScoreOf text <> 0%nat /\ (20 <= String.length text)%nat)).
  { simpl intensity.
    destruct (fallbackIntensity_cases text)
      as [[Hh ->]|[(Hn & Hl & ->)|(Hn & Hz & Hlen & ->)]];
      repeat split; intros; try discriminate; try tauto; lia. }
  destruct Hintensity as (Hhigh & Hlow & Hmedium).
  do 3 (split; [assumption|]).
  split; [simpl; destruct (detectedEmotionOf text); reflexivity|].
  split; [simpl; destruct (detectedEmotionOf text); reflexivity|].
  destruct (fallback_speaking_pace text timestamp speakingDuration)
    as (Hfast & Hslow & Hnormal).
  repeat split; auto.
Qed.

(** ** Retry executor: what the three possible courses of a call leave behind *)

Lemma retry_first_attempt_resolves (env : Env) (w : World) (r : Reply) :
  liveOutcome env (liveCalls w) = Resolves r ->
  exists w',
    retryWithBackoff env (generateContent env) MAX_RETRIES 2000 w = (Return r, w')
    /\ emotionCache w' = emotionCache w
    /\ liveCalls w' = S (liveCalls w)
    /\ trace w' = (trace w ++ [LiveAttempt])%list.
Proof.
  intros H.
  unfold retryWithBackoff, MAX_RETRIES, retryLoop, tryCatch, generateContent.
  rewrite H. eexists. split; [reflexivity|]. simpl. auto.
Qed.

Lemma retry_first_attempt_not_throttled (env : Env) (w : World) (e : JsError) :
  liveOutcome env (liveCalls w) = Rejects e ->
  isRateLimitError e = false ->
  exists w',
    retryWithBackoff env (generateContent env) MAX_RETRIES 2000 w = (Throw e, w')
    /\ emotionCache w' = emotionCache w
    /\ liveCalls w' = S (liveCalls w)
    /\ trace w' = (trace w ++ [LiveAttempt])%list.
Proof.
  intros H Hrl.
  unfold retryWithBackoff, MAX_RETRIES, retryLoop, tryCatch, generateContent.
  rewrite H. simpl. rewrite Hrl. unfold throw.
  eexists. split; [reflexivity|]. simpl. auto.
Qed.

Lemma retry_all_throttled (env : Env) (w : World) (e1 e2 e3 : JsError) :
  liveOutcome env (liveCalls w) = Rejects e1 ->
  liveOutcome env (S (liveCalls w)) = Rejects e2 ->
  liveOutcome env (S (S (liveCalls w))) = Rejects e3 ->
  isRateLimitError e1 = true ->
  isRateLimitError e2 = true ->
  exists w',
    retryWithBackoff env (generateContent env) MAX_RETRIES 2000 w = (Throw e3, w')
    /\ emotionCache w' = emotionCache w
    /\ liveCalls w' = S (S (S (liveCalls w)))
    /\ trace w' = (trace w ++ [LiveAttempt; BackoffSleep (backoffDelay env w 1);
                               LiveAttempt; BackoffSleep (backoffDelay env w 2);
                               LiveAttempt])%list.
Proof.
  intros H1 H2 H3 Hrl1 Hrl2.
  unfold retryWithBackoff, MAX_RETRIES, retryLoop, tryCatch, generateContent.
  rewrite H1. simpl. rewrite Hrl1.
  unfold bind, Math_random, sleep. simpl.
  rewrite H2. simpl. rewrite Hrl2. simpl.
  rewrite H3. unfold throw.
  eexists. split; [reflexivity|]. simpl.
  repeat split.
  unfold backoffDelay. simpl Nat.sub.
  rewrite Nat.add_0_r, Nat.add_1_r.
  rewrite <- !app_assoc. reflexivity.
Qed.

(** ** Rate limiter *)

(** The limiter runs the request in a world that differs from the one it was
    called in by at most one wait, and afterwards notes the request served. *)
Lemma makeRateLimitedRequest_run {A : Type} (requestFn : Async A) (w : World) :
  exists waits w0,
    Forall isRateLimitWait waits
    /\ emotionCache w0 = emotionCache w
    /\ liveCalls w0 = liveCalls w
    /\ randomCalls w0 = randomCalls w
    /\ trace w0 = (trace w ++ waits)%list
    /\ makeRateLimitedRequest requestFn w
       = (fst (requestFn w0), snd (requestServed (snd (requestFn w0)))).
Proof.
  unfold makeRateLimitedRequest, bind, getWorld.
  destruct (Js.ltb (now w - lastRequestTime w) RATE_LIMIT_DELAY).
  - set (waitTime := RATE_LIMIT_DELAY - (now w - lastRequestTime w)).
    exists [RateLimitWait waitTime],
           (snd (sleep (RateLimitWait waitTime) waitTime w)).
    split; [repeat constructor|]. simpl.
    do 4 (split; [reflexivity|]).
    destruct (requestFn _) as [settled w2]. reflexivity.
  - exists [], w. unfold ret. rewrite app_nil_r.
    split; [constructor|]. do 4 (split; [reflexivity|]).
    destruct (requestFn w) as [settled w2]. reflexivity.
Qed.

(** ** Dispatcher: the four ways through [analyzeTextEmotion] *)

Section DispatcherPaths.

Variable numberToString : Q -> string.
Variables (penv : ProcessEnv) (env : Env).
Variables (text : string) (timestamp speakingDuration : Q).
Variable w : World.

Let cacheKey := cacheKeyOf numberToString text speakingDuration.
Let run := analyzeTextEmotion numberToString penv env text timestamp speakingDuration w.

Lemma analyzeTextEmotion_fallback_mode :
  liveModeEnabled penv = false ->
  run = (Return (fallbackTextAnalysis text timestamp speakingDuration), w).
Proof.
  unfold liveModeEnabled, run, analyzeTextEmotion. intros H.
  apply negb_false_iff in H. rewrite H. reflexivity.
Qed.

Lemma analyzeTextEmotion_cache_hit (cachedResult : CachedEmotion) :
  liveModeEnabled penv = true ->
  JsMap.get cacheKey (emotionCache w) = Some cachedResult ->
  run = (Return (fromCache cachedResult timestamp), w).
Proof.
  unfold liveModeEnabled, run, analyzeTextEmotion, cacheKey. intros H Hget.
  apply negb_true_iff in H. rewrite H.
  unfold bind, getWorld. rewrite Hget. reflexivity.
Qed.

Lemma analyzeTextEmotion_short_text :
  JsMap.get cacheKey (emotionCache w) = None ->
  (String.length (Js.trim text) < 10)%nat ->
  run = (Return (fallbackTextAnalysis text timestamp speakingDuration), w).
Proof.
  unfold run, analyzeTextEmotion, cacheKey. intros Hget Hlen.
  destruct (fallbackOnlyOf penv || negb (Js.truthy (apiKeyOf penv))); [reflexivity|].
  unfold bind, getWorld. rewrite Hget.
  apply Nat.ltb_lt in Hlen. rewrite Hlen. reflexivity.
Qed.

Lemma analyzeTextEmotion_live :
  liveModeEnabled penv = true ->
  JsMap.get cacheKey (emotionCache w) = None ->
  (10 <= String.length (Js.trim text))%nat ->
  run =
    match liveRequest env w with
    | (Return (JsonObject analysis), w1) =>
        let emotionData := liveEmotionData analysis timestamp speakingDuration in
        (Return emotionData,
         withCache (cacheStore cacheKey (cacheableData emotionData) (emotionCache w1)) w1)
    | (_, w1) => (Return (fallbackTextAnalysis text timestamp speakingDuration), w1)
    end.
Proof.
  unfold liveModeEnabled, run, analyzeTextEmotion, cacheKey. intros H Hget Hlen.
  apply negb_true_iff in H. rewrite H.
  unfold bind at 1. unfold getWorld at 1. rewrite Hget.
  apply Nat.ltb_ge in Hlen. rewrite Hlen.
  unfold tryCatch, bind.
  destruct (liveRequest env w) as [[[| |analysis]|e] w1]; reflexivity.
Qed.

(** Every call takes one of the paths above. *)
Lemma analyzeTextEmotion_cases :
  run = (Return (fallbackTextAnalysis text timestamp speakingDuration), w)
  \/ (exists cachedResult,
        liveModeEnabled penv = true
        /\ JsMap.get cacheKey (emotionCache w) = Some cachedResult
        /\ run = (Return (fromCache cachedResult timestamp), w))
  \/ (liveModeEnabled penv = true
      /\ JsMap.get cacheKey (emotionCache w) = None
      /\ (10 <= String.length (Js.trim text))%nat
      /\ run =
           match liveRequest env w with
           | (Return (JsonObject analysis), w1) =>
               let emotionData := liveEmotionData analysis timestamp speakingDuration in
               (Return emotionData,
                withCache (cacheStore cacheKey (cacheableData emotionData) (emotionCache w1)) w1)
           | (_, w1) => (Return (fallbackTextAnalysis text timestamp speakingDuration), w1)
           end).
Proof.
  destruct (liveModeEnabled penv) eqn:Hmode.
  - destruct (JsMap.get cacheKey (emotionCache w)) as [cachedResult|] eqn:Hget.
    + right. left. exists cachedResult. split; [reflexivity|]. split; [reflexivity|].
      now apply analyzeTextEmotion_cache_hit.
    + destruct (Nat.lt_ge_cases (String.length (Js.trim text)) 10) as [Hlen|Hlen].
      * left. now apply analyzeTextEmotion_short_text.
      * right. right. repeat split; auto. now apply analyzeTextEmotion_live.
  - left. now apply analyzeTextEmotion_fallback_mode.
Qed.

(** Without a cached record for the text, a call ends in the fallback record
    unless the live request returns a reply that parses. *)
Lemma analyzeTextEmotion_miss_fallback :
  JsMap.get cacheKey (emotionCache w) = None ->
  (forall analysis, fst (liveRequest env w) <> Return (JsonObject analysis)) ->
  fst run = Return (fallbackTextAnalysis text timestamp speakingDuration).
Proof.
  intros Hget Hlive.
  destruct analyzeTextEmotion_cases as [H|[(c & _ & Hc & _)|(_ & _ & _ & H)]].
  - now rewrite H.
  - congruence.
  - rewrite H. destruct (liveRequest env w) as [[[| |analysis]|e] w1]; try reflexivity.
    now destruct (Hlive analysis).
Qed.

End DispatcherPaths.

(** The outcome of the live request in the three courses of the retried call. *)

(** Steps through the rate limiter: the retried call runs in a world [w0] that
    has made as many live calls as [w]. *)
Ltac through_rate_limiter env w w0 Hcalls :=
  unfold liveRequest;
  destruct (makeRateLimitedRequest_run
              (retryWithBackoff env (generateContent env) MAX_RETRIES 2000) w)
    as (? & w0 & _ & _ & Hcalls & _ & _ & ->).

Lemma liveRequest_first_attempt_resolves (env : Env) (w : World) (r : Reply) :
  liveOutcome env (liveCalls w) = Resolves r ->
  fst (liveRequest env w) = Return r.
Proof.
  intros H. through_rate_limiter env w w0 Hcalls.
  rewrite <- Hcalls in H.
  destruct (retry_first_attempt_resolves env w0 H) as (w' & -> & _).
  reflexivity.
Qed.

Lemma liveRequest_first_attempt_not_throttled (env : Env) (w : World) (e : JsError) :
  liveOutcome env (liveCalls w) = Rejects e ->
  isRateLimitError e = false ->
  fst (liveRequest env w) = Throw e.
Proof.
  intros H Hrl. through_rate_limiter env w w0 Hcalls.
  rewrite <- Hcalls in H.
  destruct (retry_first_attempt_not_throttled env w0 H Hrl) as (w' & -> & _).
  reflexivity.
Qed.

Lemma liveRequest_all_throttled (env : Env) (w : World) (e1 e2 e3 : JsError) :
  liveOutcome env (liveCalls w) = Rejects e1 ->
  liveOutcome env (S (liveCalls w)) = Rejects e2 ->
  liveOutcome env (S (S (liveCalls w))) = Rejects e3 ->
  isRateLimitError e1 = true ->
  isRateLimitError e2 = true ->
  fst (liveRequest env w) = Throw e3.
Proof.
  intros H1 H2 H3 Hrl1 Hrl2. through_rate_limiter env w w0 Hcalls.
  rewrite <- Hcalls in H1, H2, H3.
  destruct (retry_all_throttled env w0 H1 H2 H3 Hrl1 Hrl2) as (w' & -> & _).
  reflexivity.
Qed.

(** ** C2: the dispatcher never throws *)

(** C2. [analyzeTextEmotion] returns a record for every input, state and
    behaviour of the live service, and never throws. When no record is cached
    for the text, every failure of the live call ends in the record of the
    fallback classifier for the same text, timestamp and duration: a request
    that throws whatever error and a reply that does not parse into a JSON
    object, after however many attempts; in particular three throttled
    attempts in a row, a first attempt that fails with an error that is not a
    throttling one (authentication, network), and a first reply that does not
    parse. *)
Theorem C2_never_throws (numberToString : Q -> string)
    (penv : ProcessEnv) (env : Env)
    (text : string) (timestamp speakingDuration : Q) (w : World) :
  let run := analyzeTextEmotion numberToString penv env text timestamp speakingDuration w in
  let fallback := fallbackTextAnalysis text timestamp speakingDuration in
  (exists record w', run = (Return record, w'))
  /\ (JsMap.get (cacheKeyOf numberToString text speakingDuration) (emotionCache w) = None ->
      (forall e, fst (liveRequest env w) = Throw e -> fst run = Return fallback)
      /\ (forall r,
            fst (liveRequest env w) = Return r ->
            r = NoJsonObject \/ r = MalformedJson ->
            fst run = Return fallback)
      /\ (forall e1 e2 e3,
            liveOutcome env (liveCalls w) = Rejects e1 ->
            liveOutcome env (S (liveCalls w)) = Rejects e2 ->
            liveOutcome env (S (S (liveCalls w))) = Rejects e3 ->
            isRateLimitError e1 = true ->
            isRateLimitError e2 = true ->
            isRateLimitError e3 = true ->
            fst run = Return fallback)
      /\ (forall e,
            liveOutcome env (liveCalls w) = Rejects e ->
            isRateLimitError e = false ->
            fst run = Return fallback)
      /\ (forall r,
            liveOutcome env (liveCalls w) = Resolves r ->
            r = NoJsonObject \/ r = MalformedJson ->
            fst run = Return fallback)).
Proof.
  cbv zeta. split.
  - destruct (analyzeTextEmotion_cases numberToString penv env text timestamp
                speakingDuration w) as [H|[(c & _ & _ & H)|(_ & _ & _ & H)]];
      rewrite H.
    + eauto.
    + eauto.
    + destruct (liveRequest env w) as [[[| |analysis]|e] w1]; eauto.
  - intros Hget.
    assert (Hfail : forall c, fst (liveRequest env w) = c ->
                    (forall analysis, c <> Return (JsonObject analysis)) ->
                    fst (analyzeTextEmotion numberToString penv env text timestamp
                           speakingDuration w)
                    = Return (fallbackTextAnalysis text timestamp speakingDuration)).
    { intros c Hc Hno. apply analyzeTextEmotion_miss_fallback; auto.
      intros analysis. rewrite Hc. apply Hno. }
    repeat split.
    + intros e He. apply (Hfail _ He). discriminate.
    + intros r Hr Hkind. apply (Hfail _ Hr).
      destruct Hkind as [-> | ->]; discriminate.
    + intros e1 e2 e3 H1 H2 H3 Hrl1 Hrl2 _.
      apply (Hfail _ (liveRequest_all_throttled env w H1 H2 H3 Hrl1 Hrl2)).
      discriminate.
    + intros e H Hrl.
      apply (Hfail _ (liveRequest_first_attempt_not_throttled env w H Hrl)).
      discriminate.
    + intros r H Hr.
      apply (Hfail _ (liveRequest_first_attempt_resolves env w H)).
      destruct Hr as [-> | ->]; discriminate.
Qed.

(** ** C5: attempts and backoff delays *)

Lemma backoffDelay_first (env : Env) (w : World) :
  (forall k, 0 <= random env k < 1) ->
  2000 <= backoffDelay env w 1 < 3000.
Proof.
  intros Hrandom. unfold backoffDelay, Js.Math_pow. simpl.
  destruct (Hrandom (randomCalls w + 0)%nat). split; lra.
Qed.

Lemma backoffDelay_second (env : Env) (w : World) :
  (forall k, 0 <= random env k < 1) ->
  4000 <= backoffDelay env w 2 < 5000.
Proof.
  intros Hrandom. unfold backoffDelay, Js.Math_pow. simpl.
  destruct (Hrandom (randomCalls w + 1)%nat). split; lra.
Qed.

Lemma backoffDelay_same_random (env : Env) (w w0 : World) (attempt : nat) :
  randomCalls w0 = randomCalls w ->
  backoffDelay env w0 attempt = backoffDelay env w attempt.
Proof. unfold backoffDelay. now intros ->. Qed.

(** C5. On the live path of the dispatcher (live mode on, nothing cached for
    the text, trimmed text of 10 characters or more), with [Math.random()] in
    [0,1): when the three attempts fail with a throttling error (message
    containing '429' or 'quota'), exactly three attempts are made, separated
    by the sleeps 2000 * 2^0 + jitter and 2000 * 2^1 + jitter with jitter in
    [0,1000), the second strictly longer than the first, and the fallback
    record is returned; when the first attempt fails with another error, or
    returns a reply that does not parse, exactly one attempt is made, no
    backoff sleep occurs and the fallback record is returned. The only other
    events of such a call are waits of the rate limiter before the first
    attempt. *)
Theorem C5_retry_attempts (numberToString : Q -> string)
    (penv : ProcessEnv) (env : Env)
    (text : string) (timestamp speakingDuration : Q) (w : World) :
  (forall k, 0 <= random env k < 1) ->
  liveModeEnabled penv = true ->
  JsMap.get (cacheKeyOf numberToString text speakingDuration) (emotionCache w) = None ->
  (10 <= String.length (Js.trim text))%nat ->
  let run := analyzeTextEmotion numberToString penv env text timestamp speakingDuration w in
  let fallback := fallbackTextAnalysis text timestamp speakingDuration in
  MAX_RETRIES = 3%nat
  /\ (forall e1 e2 e3,
        liveOutcome env (liveCalls w) = Rejects e1 ->
        liveOutcome env (S (liveCalls w)) = Rejects e2 ->
        liveOutcome env (S (S (liveCalls w))) = Rejects e3 ->
        isRateLimitError e1 = true ->
        isRateLimitError e2 = true ->
        isRateLimitError e3 = true ->
        exists waits delay1 delay2 jitter1 jitter2,
          fst run = Return fallback
          /\ liveCalls (snd run) = (liveCalls w + 3)%nat
          /\ Forall isRateLimitWait waits
          /\ trace (snd run)
             = (trace w ++ waits ++
                [LiveAttempt; BackoffSleep delay1;
                 LiveAttempt; BackoffSleep delay2; LiveAttempt])%list
          /\ delay1 = 2000 * Js.Math_pow 2 (1 - 1) + jitter1
          /\ delay2 = 2000 * Js.Math_pow 2 (2 - 1) + jitter2
          /\ 0 <= jitter1 < 1000 /\ 0 <= jitter2 < 1000
          /\ delay1 < delay2)
  /\ (forall outcome,
        liveOutcome env (liveCalls w) = outcome ->
        (exists e, outcome = Rejects e /\ isRateLimitError e = false)
        \/ outcome = Resolves NoJsonObject \/ outcome = Resolves MalformedJson ->
        exists waits,
          fst run = Return fallback
          /\ liveCalls (snd run) = (liveCalls w + 1)%nat
          /\ Forall isRateLimitWait waits
          /\ trace (snd run) = (trace w ++ waits ++ [LiveAttempt])%list).
Proof.
  intros Hrandom Hmode Hget Hlen. cbv zeta.
  rewrite (analyzeTextEmotion_live numberToString penv env text timestamp
             speakingDuration w Hmode Hget Hlen).
  unfold liveRequest.
  destruct (makeRateLimitedRequest_run
              (retryWithBackoff env (generateContent env) MAX_RETRIES 2000) w)
    as (waits & w0 & Hwaits & _ & Hcalls & Hrand & Htrace & ->).
  split; [reflexivity|]. split.
  - intros e1 e2 e3 H1 H2 H3 Hrl1 Hrl2 _.
    rewrite <- Hcalls in H1, H2, H3.
    destruct (retry_all_throttled env w0 H1 H2 H3 Hrl1 Hrl2)
      as (w' & -> & _ & Hcalls' & Htrace').
    exists waits, (backoffDelay env w 1), (backoffDelay env w 2),
      (random env (randomCalls w + (1 - 1)) * 1000),
      (random env (randomCalls w + (2 - 1)) * 1000).
    simpl fst. simpl snd.
    split; [reflexivity|].
    split; [simpl; rewrite Hcalls', Hcalls; lia|].
    split; [exact Hwaits|].
    split.
    { simpl. rewrite Htrace', Htrace, <- app_assoc.
      now rewrite !(backoffDelay_same_random env w w0 _ Hrand). }
    split; [reflexivity|]. split; [reflexivity|].
    pose proof (Hrandom (randomCalls w + (1 - 1))%nat) as Hj1.
    pose proof (Hrandom (randomCalls w + (2 - 1))%nat) as Hj2.
    pose proof (backoffDelay_first env w Hrandom) as Hd1.
    pose proof (backoffDelay_second env w Hrandom) as Hd2.
    repeat split; lra.
  - intros outcome Hout Hkind. rewrite <- Hcalls in Hout.
    exists waits.
    assert (Hone : exists c w',
               retryWithBackoff env (generateContent env) MAX_RETRIES 2000 w0 = (c, w')
               /\ (forall analysis, c <> Return (JsonObject analysis))
               /\ liveCalls w' = S (liveCalls w0)
               /\ trace w' = (trace w0 ++ [LiveAttempt])%list).
    { destruct Hkind as [(e & -> & Hrl)|[-> | ->]].
      - destruct (retry_first_attempt_not_throttled env w0 Hout Hrl)
          as (w' & Hr & _ & Hc' & Ht').
        exists (Throw e), w'. repeat split; auto. discriminate.
      - destruct (retry_first_attempt_resolves env w0 Hout)
          as (w' & Hr & _ & Hc' & Ht').
        exists (Return NoJsonObject), w'. repeat split; auto. discriminate.
      - destruct (retry_first_attempt_resolves env w0 Hout)
          as (w' & Hr & _ & Hc' & Ht').
        exists (Return MalformedJson), w'. repeat split; auto. discriminate. }
    destruct Hone as (c & w' & -> & Hno & Hcalls' & Htrace').
    destruct c as [[| |analysis]|e]; try (now destruct (Hno analysis)); simpl;
      (split; [reflexivity|]);
      (split; [rewrite Hcalls', Hcalls; lia|]);
      (split; [exact Hwaits|]);
      now rewrite Htrace', Htrace, <- app_assoc.
Qed.

(** ** The map behind the cache *)

Section JsMapFacts.

Variable V : Type.
Implicit Types (m : JsMap.t V) (k : string) (v : V).

Lemma JsMap_get_None k m : JsMap.get k m = None <-> ~ In k (JsMap.keys m).
Proof.
  induction m as [|[k' v'] m IH]; simpl.
  - tauto.
  - destruct (String.eqb_spec k k') as [->|Hne].
    + split; [discriminate | intros H; exfalso; apply H; now left].
    + rewrite IH. split.
      * intros H [Heq|Hin]; [congruence | contradiction].
      * intros H Hin. apply H. now right.
Qed.

Lemma JsMap_set_new k v m :
  JsMap.get k m = None -> JsMap.set k v m = (m ++ [(k, v)])%list.
Proof. unfold JsMap.set, JsMap.has. now intros ->. Qed.

Lemma JsMap_keys_app m1 m2 :
  JsMap.keys (m1 ++ m2)%list = (JsMap.keys m1 ++ JsMap.keys m2)%list.
Proof. apply map_app. Qed.

Lemma JsMap_delete_first k v m : JsMap.delete k ((k, v) :: m) = m.
Proof. simpl. now rewrite String.eqb_refl. Qed.

End JsMapFacts.

(** ** Cache keys *)

Lemma cacheKeyOf_truthy (numberToString : Q -> string) (text : string) (d : Q) :
  Js.truthy (Some (cacheKeyOf numberToString text d)) = true.
Proof.
  unfold cacheKeyOf. now destruct (Js.toLowerCase (Js.trim text)).
Qed.

Lemma keyOfLongText_truthy (numberToString : Q -> string) (key : string) :
  keyOfLongText numberToString key -> Js.truthy (Some key) = true.
Proof. intros (text & d & -> & _). apply cacheKeyOf_truthy. Qed.




(** ** The cache under [cacheStore] *)

Lemma cacheStore_below_capacity (key : string) (data : CachedEmotion)
    (cache : JsMap.t CachedEmotion) :
  JsMap.get key cache = None ->
  (JsMap.size cache < 100)%nat ->
  cacheStore key data cache = (cache ++ [(key, data)])%list.
Proof.
  intros Hget Hsize. unfold cacheStore. rewrite JsMap_set_new by exact Hget.
  unfold JsMap.size in *. rewrite length_app. simpl.
  destruct (Nat.ltb_spec 100 (List.length cache + 1)); [lia | reflexivity].
Qed.

Lemma cacheStore_at_capacity (key : string) (data : CachedEmotion)
    (cache : JsMap.t CachedEmotion) :
  JsMap.get key cache = None ->
  JsMap.size cache = 100%nat ->
  (forall oldest, JsMap.firstKey cache = Some oldest -> Js.truthy (Some oldest) = true) ->
  cacheStore key data cache = (tl cache ++ [(key, data)])%list.
Proof.
  intros Hget Hsize Htruthy. unfold cacheStore. rewrite JsMap_set_new by exact Hget.
  unfold JsMap.size in *. rewrite length_app, Hsize. simpl Nat.ltb.
  destruct cache as [|[oldest v] rest]; [discriminate|].
  cbn [app JsMap.firstKey tl].
  rewrite (Htruthy oldest eq_refl).
  change ((oldest, v) :: (rest ++ [(key, data)])%list)
    with ((oldest, v) :: (rest ++ [(key, data)]))%list.
  apply JsMap_delete_first.
Qed.

Lemma cacheStore_invariant (numberToString : Q -> string) (key : string)
    (data : CachedEmotion) (cache : JsMap.t CachedEmotion) :
  cacheInvariant numberToString cache ->
  keyOfLongText numberToString key ->
  JsMap.get key cache = None ->
  cacheInvariant numberToString (cacheStore key data cache).
Proof.
  intros (Hnodup & Hsize & Hkeys) Hkey Hget.
  assert (Hnew : ~ In key (JsMap.keys cache)) by (now apply JsMap_get_None).
  assert (Hall : NoDup (JsMap.keys (cache ++ [(key, data)])%list)
                 /\ Forall (keyOfLongText numberToString)
                      (JsMap.keys (cache ++ [(key, data)])%list)).
  { rewrite JsMap_keys_app. simpl. split.
    - apply NoDup_app; auto.
      + repeat constructor. simpl. tauto.
      + intros x Hx [<-|[]]. contradiction.
    - apply Forall_app. split; auto. }
  destruct (Nat.lt_ge_cases (JsMap.size cache) 100) as [Hlt|Hge].
  - rewrite cacheStore_below_capacity by assumption.
    destruct Hall as [H1 H2]. repeat split; auto.
    unfold JsMap.size in *. rewrite length_app. simpl. lia.
  - assert (Hfull : JsMap.size cache = 100%nat) by lia.
    rewrite cacheStore_at_capacity; auto.
    + destruct cache as [|[oldest v] rest]; [discriminate|].
      destruct Hall as [H1 H2]. simpl in *.
      inversion H1; subst. inversion H2; subst.
      repeat split; auto.
      unfold JsMap.size in *. rewrite length_app. simpl in *. lia.
    + intros oldest Hfirst. destruct cache as [|[k v] rest]; [discriminate|].
      inversion Hfirst; subst. inversion Hkeys; subst.
      now apply keyOfLongText_truthy with numberToString.
Qed.

(** ** The cache is written by [cacheStore] only *)

Lemma retryLoop_keeps_cache (env : Env) (maxRetries : nat) (baseDelay : Q)
    (iterations : nat) :
  forall (attempt : nat) (w : World),
    emotionCache
      (snd (retryLoop env (generateContent env) maxRetries baseDelay iterations attempt w))
    = emotionCache w.
Proof.
  induction iterations as [|n IH]; intros attempt w; simpl.
  - reflexivity.
  - unfold tryCatch, generateContent.
    destruct (liveOutcome env (liveCalls w)) as [e|r]; simpl; [|reflexivity].
    destruct (attempt =? maxRetries)%nat; [reflexivity|].
    destruct (isRateLimitError e); [|reflexivity].
    unfold bind, Math_random, sleep. simpl. now rewrite IH.
Qed.

Lemma liveRequest_keeps_cache (env : Env) (w : World) :
  emotionCache (snd (liveRequest env w)) = emotionCache w.
Proof.
  unfold liveRequest.
  destruct (makeRateLimitedRequest_run
              (retryWithBackoff env (generateContent env) MAX_RETRIES 2000) w)
    as (waits & w0 & _ & Hcache & _ & _ & _ & ->).
  simpl. unfold retryWithBackoff. now rewrite retryLoop_keeps_cache.
Qed.

Section CacheOfTheService.

Variable numberToString : Q -> string.

(** After a call the cache is the one before, or the one before with the
    record of the parsed reply stored under the key of the text. *)
Lemma analyzeTextEmotion_cache penv env text timestamp speakingDuration (w : World) :
  let w' := snd (analyzeTextEmotion numberToString penv env text timestamp
                   speakingDuration w) in
  let cacheKey := cacheKeyOf numberToString text speakingDuration in
  emotionCache w' = emotionCache w
  \/ (exists analysis,
        JsMap.get cacheKey (emotionCache w) = None
        /\ (10 <= String.length (Js.trim text))%nat
        /\ emotionCache w'
           = cacheStore cacheKey
               (cacheableData (liveEmotionData analysis timestamp speakingDuration))
               (emotionCache w)).
Proof.
  cbv zeta.
  destruct (analyzeTextEmotion_cases numberToString penv env text timestamp
              speakingDuration w) as [H|[(c & _ & _ & H)|(_ & Hget & Hlen & H)]];
    rewrite H; clear H.
  - now left.
  - now left.
  - pose proof (liveRequest_keeps_cache env w) as Hkeep.
    destruct (liveRequest env w) as [[[| |analysis]|e] w1]; simpl in *; auto.
    right. exists analysis. now rewrite Hkeep.
Qed.

Lemma reachable_cacheInvariant (w : World) :
  reachable numberToString w -> cacheInvariant numberToString (emotionCache w).
Proof.
  induction 1 as [startTime|w penv env text timestamp speakingDuration Hw IH|w ms Hw IH].
  - simpl. repeat split; simpl; auto using NoDup_nil. lia.
  - destruct (analyzeTextEmotion_cache penv env text timestamp speakingDuration w)
      as [->|(analysis & Hget & Hlen & ->)]; auto.
    apply cacheStore_invariant; auto.
    now exists text, speakingDuration.
  - exact IH.
Qed.

End CacheOfTheService.

(** ** C6: capacity and eviction order of the cache *)

(** C6. In every state of the service the cache holds at most 100 entries. A
    call that finds its key in the cache leaves the cache as it is, order
    included. When the cache holds 100 entries, storing a record under a key
    that is not in it removes the entry inserted first and no other: what is
    left are the other 99 entries in their order, followed by the new one; a
    live call whose reply parses does exactly this with the key of its
    text. *)
Theorem C6_cache_fifo (numberToString : Q -> string) :
  (forall w, reachable numberToString w -> (JsMap.size (emotionCache w) <= 100)%nat)
  /\ (forall w penv env text timestamp speakingDuration cachedResult,
        JsMap.get (cacheKeyOf numberToString text speakingDuration) (emotionCache w)
        = Some cachedResult ->
        emotionCache
          (snd (analyzeTextEmotion numberToString penv env text timestamp
                  speakingDuration w))
        = emotionCache w)
  /\ (forall w key data,
        reachable numberToString w ->
        JsMap.size (emotionCache w) = 100%nat ->
        ~ In key (JsMap.keys (emotionCache w)) ->
        cacheStore key data (emotionCache w)
        = (tl (emotionCache w) ++ [(key, data)])%list
        /\ JsMap.size (cacheStore key data (emotionCache w)) = 100%nat)
  /\ (forall w penv env text timestamp speakingDuration analysis,
        reachable numberToString w ->
        JsMap.size (emotionCache w) = 100%nat ->
        liveModeEnabled penv = true ->
        JsMap.get (cacheKeyOf numberToString text speakingDuration) (emotionCache w) = None ->
        (10 <= String.length (Js.trim text))%nat ->
        fst (liveRequest env w) = Return (JsonObject analysis) ->
        emotionCache
          (snd (analyzeTextEmotion numberToString penv env text timestamp
                  speakingDuration w))
        = (tl (emotionCache w)
           ++ [(cacheKeyOf numberToString text speakingDuration,
                cacheableData (liveEmotionData analysis timestamp speakingDuration))])%list).
Proof.
  assert (Hevict : forall w key data,
             reachable numberToString w ->
             JsMap.size (emotionCache w) = 100%nat ->
             JsMap.get key (emotionCache w) = None ->
             cacheStore key data (emotionCache w)
             = (tl (emotionCache w) ++ [(key, data)])%list).
  { intros w key data Hw Hsize Hget.
    destruct (reachable_cacheInvariant Hw) as (_ & _ & Hkeys).
    apply cacheStore_at_capacity; auto.
    intros oldest Hfirst.
    destruct (emotionCache w) as [|[k v] rest]; [discriminate|].
    inversion Hfirst; subst. inversion Hkeys; subst.
    now apply keyOfLongText_truthy with numberToString. }
  split; [|split; [|split]].
  - intros w Hw. now destruct (reachable_cacheInvariant Hw) as (_ & Hsize & _).
  - intros w penv env text timestamp speakingDuration cachedResult Hget.
    destruct (analyzeTextEmotion_cases numberToString penv env text timestamp
                speakingDuration w) as [H|[(c & _ & _ & H)|(_ & Hnone & _)]].
    + now rewrite H.
    + now rewrite H.
    + congruence.
  - intros w key data Hw Hsize Hnew.
    apply JsMap_get_None in Hnew.
    rewrite (Hevict w key data Hw Hsize Hnew). split; [reflexivity|].
    unfold JsMap.size in *. rewrite length_app.
    destruct (emotionCache w); simpl in *; lia.
  - intros w penv env text timestamp speakingDuration analysis
      Hw Hsize Hmode Hget Hlen Hlive.
    rewrite (analyzeTextEmotion_live numberToString penv env text timestamp
               speakingDuration w Hmode Hget Hlen).
    pose proof (liveRequest_keeps_cache env w) as Hkeep.
    destruct (liveRequest env w) as [c w1]. simpl in Hlive, Hkeep. subst c.
    simpl. rewrite Hkeep. now apply Hevict.
Qed.

(** ** C9: texts shorter than 10 characters *)


(** ** Record builder of the live path *)

Lemma numberOr_zero (q d : Q) : q == 0 -> Js.numberOr (Some q) d = d.
Proof.
  intros H. unfold Js.numberOr.
  apply Qeq_bool_iff in H. now rewrite H.
Qed.

Lemma numberOr_nonzero (x : option Q) (d : Q) : ~ d == 0 -> ~ Js.numberOr x d == 0.
Proof.
  intros Hd. destruct x as [q|]; simpl; auto.
  destruct (Qeq_bool q 0) eqn:E; auto.
  now apply Qeq_bool_neq.
Qed.

Lemma numberOr_negative (x : option Q) (d : Q) :
  0 < d -> (Js.numberOr x d < 0 <-> exists q, x = Some q /\ q < 0).
Proof.
  intros Hd. destruct x as [q|]; simpl.
  - destruct (Qeq_bool q 0) eqn:E.
    + apply Qeq_bool_iff in E. split.
      * intros H. lra.
      * intros (q' & Hq & Hneg). inversion Hq; subst. lra.
    + split.
      * intros H. now exists q.
      * intros (q' & Hq & Hneg). now inversion Hq; subst.
  - split.
    + intros H. lra.
    + intros (q' & Hq & _). discriminate.
Qed.

Lemma clamp_unit_range (x : Q) :
  0 <= Js.Math_min (Js.Math_max x 0) 1 <= 1.
Proof.
  unfold Js.Math_min, Js.Math_max. split.
  - apply Q.min_glb; [apply Q.le_max_r | lra].
  - apply Q.le_min_r.
Qed.

Lemma clamp_unit_zero (x : Q) :
  Js.Math_min (Js.Math_max x 0) 1 == 0 <-> x <= 0.
Proof.
  unfold Js.Math_min, Js.Math_max.
  destruct (Q.max_spec x 0) as [[Hlt Hmax]|[Hle Hmax]];
    destruct (Q.min_spec (Qmax x 0) 1) as [[Hlt' Hmin]|[Hle' Hmin]];
    rewrite Hmin; try rewrite Hmax; split; intros; lra.
Qed.

(** ** C1: range of the floats of a returned record *)



(** C1, evaluated at an input where it fails. With a credential configured, an
    empty cache and a live service that answers
    {"emotion":"stressed","confidence":0.9,"stress_level":5,...}, the record
    returned for an utterance of more than 10 characters is the one built
    from the reply; its confidence lies in [0,1], but its stress level is 5:
    the live path clamps the confidence only. *)
Theorem C1_live_metrics_not_clamped :
  fst (analyzeTextEmotion integralToString liveConfiguration
         (serviceAlways (Resolves (JsonObject replyWithStressFive)))
         sampleUtterance 1000 3000 (initialWorld 0))
  = Return (liveEmotionData replyWithStressFive 1000 3000)
  /\ 0 <= confidence (liveEmotionData replyWithStressFive 1000 3000) <= 1
  /\ stress_level (additionalMetrics (liveEmotionData replyWithStressFive 1000 3000)) == 5
  /\ ~ stress_level (additionalMetrics (liveEmotionData replyWithStressFive 1000 3000)) <= 1.
Proof.
  split; [vm_compute; reflexivity|].
  split; [apply clamp_unit_range|].
  split; [reflexivity|].
  vm_compute. intros H. now apply H.
Qed.

(** ** C10: defaults by falsiness on the live path *)

(** C10, counterexample to "no live-path record has a confidence of exactly
    0": the reply {"emotion":"nervous","confidence":-1,"stress_level":0,...}
    makes the live path return a record whose confidence is 0. *)
Lemma C10_confidence_can_be_zero :
  fst (analyzeTextEmotion integralToString liveConfiguration
         (serviceAlways (Resolves (JsonObject replyWithNegativeConfidence)))
         sampleUtterance 1000 3000 (initialWorld 0))
  = Return (liveEmotionData replyWithNegativeConfidence 1000 3000)
  /\ confidence (liveEmotionData replyWithNegativeConfidence 1000 3000) == 0.
Proof. split; vm_compute; reflexivity. Qed.

(** C10, amended. The record the live path builds from a parsed reply takes
    0.5 for each of confidence, stress_level, energy_level and
    voice_stability that the reply gives as 0 (as for one it does not give);
    its three metric floats are never 0; its confidence is 0 exactly when the
    reply gives a negative confidence. That record is what the dispatcher
    returns when the live request yields the reply. *)
Theorem C10_falsy_defaults (analysis : Analysis) (timestamp speakingDuration : Q) :
  let r := liveEmotionData analysis timestamp speakingDuration in
  ((forall q, reply_confidence analysis = Some q -> q == 0 -> confidence r = 0.5)
   /\ (forall q, reply_stress_level analysis = Some q -> q == 0 ->
         stress_level (additionalMetrics r) = 0.5)
   /\ (forall q, reply_energy_level analysis = Some q -> q == 0 ->
         energy_level (additionalMetrics r) = 0.5)
   /\ (forall q, reply_voice_stability analysis = Some q -> q == 0 ->
         voice_stability (additionalMetrics r) = 0.5))
  /\ (~ stress_level (additionalMetrics r) == 0
      /\ ~ energy_level (additionalMetrics r) == 0
      /\ ~ voice_stability (additionalMetrics r) == 0)
  /\ (confidence r == 0 <-> exists q, reply_confidence analysis = Some q /\ q < 0)
  /\ (forall numberToString penv env text w,
        liveModeEnabled penv = true ->
        JsMap.get (cacheKeyOf numberToString text speakingDuration) (emotionCache w) = None ->
        (10 <= String.length (Js.trim text))%nat ->
        fst (liveRequest env w) = Return (JsonObject analysis) ->
        fst (analyzeTextEmotion numberToString penv env text timestamp speakingDuration w)
        = Return r).
Proof.
  cbv zeta. simpl. repeat split.
  - intros q -> Hq. now rewrite numberOr_zero.
  - intros q -> Hq. now rewrite numberOr_zero.
  - intros q -> Hq. now rewrite numberOr_zero.
  - intros q -> Hq. now rewrite numberOr_zero.
  - apply numberOr_nonzero. lra.
  - apply numberOr_nonzero. lra.
  - apply numberOr_nonzero. lra.
  - intros H. apply clamp_unit_zero in H.
    assert (Hnz : ~ Js.numberOr (reply_confidence analysis) 0.5 == 0)
      by (apply numberOr_nonzero; lra).
    destruct (numberOr_negative (reply_confidence analysis) (d:=0.5)) as [Hneg _];
      [lra|].
    apply Hneg. lra.
  - intros H. apply clamp_unit_zero.
    destruct (numberOr_negative (reply_confidence analysis) (d:=0.5)) as [_ Hneg];
      [lra|].
    apply Hneg in H. lra.
  - intros numberToString penv env text w Hmode Hget Hlen Hlive.
    rewrite (analyzeTextEmotion_live numberToString penv env text timestamp
               speakingDuration w Hmode Hget Hlen).
    destruct (liveRequest env w) as [c w1]. simpl in Hlive. now subst c.
Qed.

(** ** C7: emotional trend *)

Lemma ltb_lt (a b : Q) : Js.ltb a b = true <-> a < b.
Proof.
  unfold Js.ltb. rewrite negb_true_iff. split.
  - intros H. apply Qnot_le_lt. intros Hle.
    apply Qle_bool_iff in Hle. congruence.
  - intros H. destruct (Qle_bool b a) eqn:E; auto.
    apply Qle_bool_iff in E. lra.
Qed.

Lemma ltb_ge (a b : Q) : Js.ltb a b = false <-> b <= a.
Proof.
  unfold Js.ltb. rewrite negb_false_iff. apply Qle_bool_iff.
Qed.



(** In a list of five records the halves have 2 and 3 records, so the first
    ratio is 0, 1/2 or 1 there and never 2/3. *)
Lemma five_records_halves (emotions : list EmotionData) :
  List.length emotions = 5%nat ->
  List.length (firstn (List.length emotions / 2) emotions) = 2%nat
  /\ List.length (skipn (List.length emotions / 2) emotions) = 3%nat
  /\ ~ positiveRatio (firstn (List.length emotions / 2) emotions) == 2 # 3.
Proof.
  intros Hlen.
  destruct emotions as [|a [|b [|c [|d [|e [|f rest]]]]]]; try discriminate.
  split; [reflexivity|]. split; [reflexivity|].
  unfold positiveRatio, occurrences. simpl.
  destruct (emotion a), (emotion b); vm_compute; discriminate.
Qed.


(** ** Count table of the aggregator *)

Lemma emotionCounts_countsOf (emotions : list EmotionData) :
  emotionCounts emotions = countsOf (map emotion emotions).
Proof.
  unfold emotionCounts, countsOf. generalize (@nil (EmotionLabel * nat)).
  induction emotions as [|e emotions IH]; intros acc; simpl; auto.
Qed.

Lemma countsOf_snoc (labels : list EmotionLabel) (l : EmotionLabel) :
  countsOf (labels ++ [l]) = countUp l (countsOf labels).
Proof. unfold countsOf. now rewrite fold_left_app. Qed.

Lemma lookupCount_countUp (l l' : EmotionLabel) (acc : list (EmotionLabel * nat)) :
  lookupCount l' (countUp l acc)
  = if EmotionLabel_eqb l' l then S (lookupCount l acc) else lookupCount l' acc.
Proof.
  induction acc as [|[k n] acc IH]; simpl.
  - reflexivity.
  - destruct (EmotionLabel_eqb_spec l k) as [->|Hlk]; simpl.
    + destruct (EmotionLabel_eqb_spec l' k); reflexivity.
    + rewrite IH.
      destruct (EmotionLabel_eqb_spec l' k) as [Hl'k|Hl'k];
        destruct (EmotionLabel_eqb_spec l' l) as [Hl'l|Hl'l];
        try reflexivity; congruence.
Qed.

Lemma lookupCount_countsOf (labels : list EmotionLabel) (l : EmotionLabel) :
  lookupCount l (countsOf labels) = count_occ EmotionLabel_eq_dec labels l.
Proof.
  induction labels as [|x labels IH] using rev_ind.
  - reflexivity.
  - rewrite countsOf_snoc, lookupCount_countUp, count_occ_app, IH. simpl.
    destruct (EmotionLabel_eqb_spec l x) as [->|Hne].
    + destruct (EmotionLabel_eq_dec x x); [lia | contradiction].
    + destruct (EmotionLabel_eq_dec x l); [congruence | lia].
Qed.

Lemma keys_countUp_present (l : EmotionLabel) (acc : list (EmotionLabel * nat)) :
  In l (map fst acc) -> map fst (countUp l acc) = map fst acc.
Proof.
  induction acc as [|[k n] acc IH]; simpl; [tauto|].
  destruct (EmotionLabel_eqb_spec l k) as [->|Hne]; simpl; [reflexivity|].
  intros [Heq|Hin]; [congruence|]. now rewrite IH.
Qed.

Lemma keys_countUp_new (l : EmotionLabel) (acc : list (EmotionLabel * nat)) :
  ~ In l (map fst acc) -> map fst (countUp l acc) = (map fst acc ++ [l])%list.
Proof.
  induction acc as [|[k n] acc IH]; simpl; [reflexivity|].
  intros Hnot.
  destruct (EmotionLabel_eqb_spec l k) as [->|Hne]; simpl.
  - exfalso. apply Hnot. now left.
  - rewrite IH; [reflexivity|]. intros Hin. apply Hnot. now right.
Qed.

Lemma keys_countUp_extend (l : EmotionLabel) (acc : list (EmotionLabel * nat)) :
  exists rest, map fst (countUp l acc) = (map fst acc ++ rest)%list.
Proof.
  destruct (in_dec EmotionLabel_eq_dec l (map fst acc)) as [Hin|Hnot].
  - exists []. now rewrite app_nil_r, keys_countUp_present.
  - exists [l]. now apply keys_countUp_new.
Qed.

Lemma keys_fold_extend (labels : list EmotionLabel) :
  forall acc, exists rest,
    map fst (fold_left (fun acc l => countUp l acc) labels acc)
    = (map fst acc ++ rest)%list.
Proof.
  induction labels as [|l labels IH]; intros acc; simpl.
  - exists []. now rewrite app_nil_r.
  - destruct (IH (countUp l acc)) as [rest Hrest].
    destruct (keys_countUp_extend l acc) as [rest' Hrest'].
    exists (rest' ++ rest)%list. now rewrite Hrest, Hrest', app_assoc.
Qed.

Lemma keys_countsOf_In (labels : list EmotionLabel) (l : EmotionLabel) :
  In l (map fst (countsOf labels)) <-> In l labels.
Proof.
  induction labels as [|x labels IH] using rev_ind.
  - simpl. tauto.
  - rewrite countsOf_snoc, in_app_iff. simpl.
    destruct (in_dec EmotionLabel_eq_dec x (map fst (countsOf labels))) as [Hin|Hnot].
    + rewrite keys_countUp_present by assumption. rewrite IH.
      split; [tauto|]. intros [H|[<-|[]]]; auto. now apply IH.
    + rewrite keys_countUp_new by assumption. rewrite in_app_iff, IH. simpl. tauto.
Qed.

Lemma keys_countsOf_NoDup (labels : list EmotionLabel) :
  NoDup (map fst (countsOf labels)).
Proof.
  induction labels as [|x labels IH] using rev_ind.
  - constructor.
  - rewrite countsOf_snoc.
    destruct (in_dec EmotionLabel_eq_dec x (map fst (countsOf labels))) as [Hin|Hnot].
    + now rewrite keys_countUp_present.
    + rewrite keys_countUp_new by assumption.
      apply NoDup_app; auto.
      * repeat constructor. simpl. tauto.
      * intros y Hy [<-|[]]. contradiction.
Qed.

(** The entries of the table stand in the order in which their labels first
    occur. *)
Lemma keys_countsOf_first_occurrence (before after : list EmotionLabel)
    (m : EmotionLabel) :
  ~ In m before ->
  exists rest,
    map fst (countsOf (before ++ m :: after))
    = (map fst (countsOf before) ++ m :: rest)%list.
Proof.
  intros Hnot. unfold countsOf at 1. rewrite fold_left_app. simpl.
  fold (countsOf before).
  destruct (keys_fold_extend after (countUp m (countsOf before))) as [rest ->].
  rewrite keys_countUp_new.
  - exists rest. now rewrite <- app_assoc.
  - now rewrite keys_countsOf_In.
Qed.

Lemma lookupCount_In (l : EmotionLabel) (c : nat) (acc : list (EmotionLabel * nat)) :
  NoDup (map fst acc) -> In (l, c) acc -> lookupCount l acc = c.
Proof.
  induction acc as [|[k n] acc IH]; simpl; [tauto|].
  intros Hnodup [Heq|Hin].
  - inversion Heq; subst. now rewrite EmotionLabel_eqb_refl.
  - inversion Hnodup as [|? ? Hk Hrest]; subst.
    destruct (EmotionLabel_eqb_spec l k) as [->|Hne].
    + exfalso. apply Hk. now apply (in_map fst) in Hin.
    + now apply IH.
Qed.

Lemma lookupCount_bound (l : EmotionLabel) (n : nat) (acc : list (EmotionLabel * nat)) :
  Forall (fun e => snd e <= n)%nat acc -> (lookupCount l acc <= n)%nat.
Proof.
  induction 1 as [|[k c] acc Hc Hrest IH]; simpl; [lia|].
  destruct (EmotionLabel_eqb l k); auto.
Qed.

(** ** The sort picks the first entry with the highest count *)

Lemma sort_head_firstMaximum (entries : list (EmotionLabel * nat)) :
  hd_error (Js.sort byCountDescending entries) = firstMaximum entries.
Proof.
  induction entries as [|x rest IH]; simpl; [reflexivity|].
  rewrite <- IH. fold (Js.sort byCountDescending rest).
  destruct (Js.sort byCountDescending rest) as [|y sorted]; simpl; [reflexivity|].
  unfold byCountDescending.
  destruct (Z.ltb_spec 0 (Z.of_nat (snd y) - Z.of_nat (snd x)));
    destruct (Nat.ltb_spec (snd x) (snd y)); simpl; auto; lia.
Qed.

Lemma firstMaximum_split (entries : list (EmotionLabel * nat)) (y : EmotionLabel * nat) :
  firstMaximum entries = Some y ->
  exists pre post,
    entries = (pre ++ y :: post)%list
    /\ Forall (fun e => snd e < snd y)%nat pre
    /\ Forall (fun e => snd e <= snd y)%nat post.
Proof.
  revert y. induction entries as [|x rest IH]; intros y; simpl; [discriminate|].
  destruct (firstMaximum rest) as [z|] eqn:Hrest.
  - destruct (IH z eq_refl) as (pre & post & -> & Hpre & Hpost).
    destruct (Nat.ltb_spec (snd x) (snd z)) as [Hlt|Hge]; intros Hy;
      inversion Hy; subst.
    + exists (x :: pre), post. repeat split; auto.
    + exists [], (pre ++ z :: post)%list. repeat split; auto.
      apply Forall_app. split.
      * eapply Forall_impl; [|exact Hpre]. simpl. intros; lia.
      * constructor; [lia|].
        eapply Forall_impl; [|exact Hpost]. simpl. intros; lia.
  - intros Hy. inversion Hy; subst.
    destruct rest as [|r rest].
    + exists [], []. repeat split; constructor.
    + exfalso. simpl in Hrest. destruct (firstMaximum rest) as [p|];
        [destruct (snd r <? snd p)%nat|]; discriminate.
Qed.

Lemma first_occurrence_split (m : EmotionLabel) (labels : list EmotionLabel) :
  In m labels ->
  exists before after, labels = (before ++ m :: after)%list /\ ~ In m before.
Proof.
  induction labels as [|x labels IH]; simpl; [tauto|].
  intros Hin. destruct (EmotionLabel_eq_dec x m) as [->|Hne].
  - exists [], labels. split; auto.
  - destruct Hin as [Heq|Hin]; [contradiction|].
    destruct (IH Hin) as (before & after & -> & Hnot).
    exists (x :: before), after. split; [reflexivity|].
    simpl. tauto.
Qed.

Lemma NoDup_split_unique (a a' b b' : list EmotionLabel) (x : EmotionLabel) :
  NoDup (a ++ x :: b) ->
  (a ++ x :: b)%list = (a' ++ x :: b')%list ->
  a = a'.
Proof.
  revert a'. induction a as [|y a IH]; intros [|y' a'] Hnodup Heq; simpl in *.
  - reflexivity.
  - exfalso. inversion Heq; subst. inversion Hnodup as [|? ? Hx _]; subst.
    apply Hx. apply in_or_app. right. now left.
  - exfalso. inversion Heq; subst. inversion Hnodup as [|? ? Hx _]; subst.
    apply Hx. apply in_or_app. right. now left.
  - inversion Heq; subst. inversion Hnodup; subst. f_equal. now apply IH.
Qed.

(** ** C4: most frequent emotion *)

Lemma firstMaximum_None (entries : list (EmotionLabel * nat)) :
  firstMaximum entries = None -> entries = [].
Proof.
  destruct entries as [|x rest]; simpl; [reflexivity|].
  destruct (firstMaximum rest) as [y|]; [destruct (snd x <? snd y)%nat|]; discriminate.
Qed.

Lemma mostFrequentOf_first_seen (emotions : list EmotionData) :
  emotions <> [] ->
  exists m,
    mostFrequentOf emotions = Some m
    /\ (forall l, occurrences l emotions <= occurrences m emotions)%nat
    /\ exists before after,
         map emotion emotions = (before ++ m :: after)%list
         /\ ~ In m before
         /\ forall l, In l before -> (occurrences l emotions < occurrences m emotions)%nat.
Proof.
  intros Hne. unfold mostFrequentOf, occurrences.
  rewrite emotionCounts_countsOf.
  set (labels := map emotion emotions).
  pose proof (sort_head_firstMaximum (countsOf labels)) as Hhead.
  destruct (firstMaximum (countsOf labels)) as [[m n]|] eqn:Hmax.
  - destruct (Js.sort byCountDescending (countsOf labels)) as [|[m' n'] sorted];
      [discriminate|].
    simpl in Hhead. inversion Hhead; subst m' n'. clear Hhead.
    exists m. split; [reflexivity|].
    destruct (@firstMaximum_split _ _ Hmax) as (pre & post & Hsplit & Hpre & Hpost).
    simpl in Hpre, Hpost.
    pose proof (keys_countsOf_NoDup labels) as Hnodup.
    assert (Hn : count_occ EmotionLabel_eq_dec labels m = n).
    { rewrite <- lookupCount_countsOf. apply lookupCount_In; auto.
      rewrite Hsplit. apply in_or_app. right. now left. }
    rewrite Hn. split.
    + intros l. rewrite <- lookupCount_countsOf. apply lookupCount_bound.
      rewrite Hsplit. apply Forall_app. split.
      * eapply Forall_impl; [|exact Hpre]. simpl. intros; lia.
      * constructor; [simpl; lia | exact Hpost].
    + assert (Hin : In m labels).
      { apply keys_countsOf_In. rewrite Hsplit, map_app. simpl.
        apply in_or_app. right. now left. }
      destruct (@first_occurrence_split _ _ Hin) as (before & after & Hlabels & Hnot).
      exists before, after. split; [exact Hlabels|]. split; [exact Hnot|].
      intros l Hl.
      destruct (@keys_countsOf_first_occurrence before after m Hnot) as [rest Hkeys].
      rewrite <- Hlabels in Hkeys.
      assert (Hpre_keys : map fst pre = map fst (countsOf before)).
      { apply NoDup_split_unique with (b := map fst post) (b' := rest) (x := m).
        - rewrite Hsplit, map_app in Hnodup. exact Hnodup.
        - rewrite <- Hkeys, Hsplit, map_app. reflexivity. }
      assert (Hl_pre : In l (map fst pre)).
      { rewrite Hpre_keys. now apply keys_countsOf_In. }
      apply in_map_iff in Hl_pre. destruct Hl_pre as ([l' c] & Heq & Hentry).
      simpl in Heq. subst l'.
      rewrite <- lookupCount_countsOf.
      rewrite (@lookupCount_In l c); auto.
      * rewrite Forall_forall in Hpre. apply (Hpre _ Hentry).
      * rewrite Hsplit. apply in_or_app. now left.
  - exfalso. apply firstMaximum_None in Hmax.
    destruct emotions as [|e emotions]; [now apply Hne|].
    assert (Hin : In (emotion e) (map fst (countsOf labels))).
    { apply keys_countsOf_In. now left. }
    rewrite Hmax in Hin. exact Hin.
Qed.

(** C4, counterexample to "ties go to the first label that reached the running
    maximum during the scan of the list": in the session happy, calm, calm,
    happy both labels occur twice; calm is the first to reach the count 2
    during the scan, but the summary names happy. *)
Lemma C4_first_to_reach_maximum_differs :
  option_map mostFrequentEmotion
    (calculateEmotionSummary (map recordOf [happy; calm; calm; happy]))
  = Some happy
  /\ firstToReachRunningMaximum (map recordOf [happy; calm; calm; happy]) = calm
  /\ occurrences happy (map recordOf [happy; calm; calm; happy]) = 2%nat
  /\ occurrences calm (map recordOf [happy; calm; calm; happy]) = 2%nat.
Proof. repeat split; vm_compute; reflexivity. Qed.

(** C4, amended. For every non-empty record list the summary exists and its
    mostFrequentEmotion is a label with the highest occurrence count; when
    several labels share that count it is the one among them that occurs
    first in the list: every label that occurs before its first occurrence
    has a strictly lower count. *)
Theorem C4_most_frequent_emotion (emotions : list EmotionData) :
  emotions <> [] ->
  exists summary,
    calculateEmotionSummary emotions = Some summary
    /\ (forall l,
          occurrences l emotions <= occurrences (mostFrequentEmotion summary) emotions)%nat
    /\ exists before after,
         map emotion emotions = (before ++ mostFrequentEmotion summary :: after)%list
         /\ ~ In (mostFrequentEmotion summary) before
         /\ forall l, In l before ->
              (occurrences l emotions < occurrences (mostFrequentEmotion summary) emotions)%nat.
Proof.
  intros Hne.
  destruct (@mostFrequentOf_first_seen emotions Hne) as (m & Hm & Hmax & Hfirst).
  destruct emotions as [|e emotions]; [now destruct Hne|].
  unfold calculateEmotionSummary. rewrite Hm.
  eexists. split; [reflexivity|]. simpl mostFrequentEmotion. auto.
Qed.

Lemma C4_most_frequent_emotion_witness :
  exists summary,
    calculateEmotionSummary (map recordOf [happy; calm; calm; happy]) = Some summary
    /\ (forall l,
          occurrences l (map recordOf [happy; calm; calm; happy])
          <= occurrences (mostFrequentEmotion summary)
               (map recordOf [happy; calm; calm; happy]))%nat
    /\ exists before after,
         map emotion (map recordOf [happy; calm; calm; happy])
         = (before ++ mostFrequentEmotion summary :: after)%list
         /\ ~ In (mostFrequentEmotion summary) before
         /\ forall l, In l before ->
              (occurrences l (map recordOf [happy; calm; calm; happy])
               < occurrences (mostFrequentEmotion summary)
                   (map recordOf [happy; calm; calm; happy]))%nat.
Proof.
  apply (@C4_most_frequent_emotion (map recordOf [happy; calm; calm; happy])).
  simpl. discriminate.
Defined.

(** ** The statements at sample inputs *)

Lemma worldAfterUtterances_reachable (n : nat) :
  reachable integralToString (worldAfterUtterances n).
Proof.
  induction n as [|n IH]; simpl.
  - apply reachable_initial.
  - now apply reachable_call.
Qed.

Lemma sample_random_range (outcome : LiveOutcome) (k : nat) :
  0 <= random (serviceAlways outcome) k < 1.
Proof. simpl. split; [discriminate | reflexivity]. Qed.

(** Under a throttled service the dispatcher returns the fallback record. *)
Lemma C2_never_throws_witness :
  fst (analyzeTextEmotion integralToString liveConfiguration throttledService
         sampleUtterance 1000 3000 (initialWorld 0))
  = Return (fallbackTextAnalysis sampleUtterance 1000 3000).
Proof.
  destruct (C2_never_throws integralToString liveConfiguration throttledService
              sampleUtterance 1000 3000 (initialWorld 0)) as [_ H].
  destruct (H eq_refl) as (_ & _ & Hthrottled & _).
  apply (Hthrottled (newError "[429 Too Many Requests] quota exceeded")
                    (newError "[429 Too Many Requests] quota exceeded")
                    (newError "[429 Too Many Requests] quota exceeded"));
    reflexivity.
Defined.

(** Under a throttled service three attempts are made, with two backoff
    sleeps of increasing length between them, before the fallback record is
    returned. *)
Lemma C5_retry_attempts_witness :
  exists waits delay1 delay2,
    fst (analyzeTextEmotion integralToString liveConfiguration throttledService
           sampleUtterance 1000 3000 (initialWorld 0))
    = Return (fallbackTextAnalysis sampleUtterance 1000 3000)
    /\ trace (snd (analyzeTextEmotion integralToString liveConfiguration throttledService
                     sampleUtterance 1000 3000 (initialWorld 0)))
       = (waits ++ [LiveAttempt; BackoffSleep delay1;
                    LiveAttempt; BackoffSleep delay2; LiveAttempt])%list
    /\ Forall isRateLimitWait waits
    /\ delay1 < delay2.
Proof.
  destruct (@C5_retry_attempts integralToString liveConfiguration throttledService
              sampleUtterance 1000 3000 (initialWorld 0)) as (_ & Hthrottled & _).
  - apply sample_random_range.
  - reflexivity.
  - reflexivity.
  - vm_compute. lia.
  - destruct (Hthrottled (newError "[429 Too Many Requests] quota exceeded")
                         (newError "[429 Too Many Requests] quota exceeded")
                         (newError "[429 Too Many Requests] quota exceeded"))
      as (waits & d1 & d2 & j1 & j2 & Hfst & _ & Hwaits & Htrace & _ & _ & _ & _ & Hlt);
      try reflexivity.
    exists waits, d1, d2. auto.
Defined.

(** After 100 distinct utterances the cache is full; the next one evicts the
    entry of the first utterance and nothing else. *)
Lemma C6_cache_fifo_witness :
  JsMap.size (emotionCache (worldAfterUtterances 100)) = 100%nat
  /\ JsMap.firstKey (emotionCache (worldAfterUtterances 100))
     = Some (cacheKeyOf integralToString (utterance 0) 3000)
  /\ emotionCache
       (snd (analyzeTextEmotion integralToString liveConfiguration
               (serviceAlways (Resolves (JsonObject replyWithStressFive)))
               (utterance 100) 1000 3000 (worldAfterUtterances 100)))
     = (tl (emotionCache (worldAfterUtterances 100))
        ++ [(cacheKeyOf integralToString (utterance 100) 3000,
             cacheableData (liveEmotionData replyWithStressFive 1000 3000))])%list.
Proof.
  assert (Hsize : JsMap.size (emotionCache (worldAfterUtterances 100)) = 100%nat)
    by (vm_compute; reflexivity).
  assert (Hmiss : JsMap.get (cacheKeyOf integralToString (utterance 100) 3000)
                    (emotionCache (worldAfterUtterances 100)) = None)
    by (vm_compute; reflexivity).
  assert (Hlong : (10 <= String.length (Js.trim (utterance 100)))%nat)
    by (vm_compute; lia).
  assert (Hreply :
            fst (liveRequest (serviceAlways (Resolves (JsonObject replyWithStressFive)))
                   (worldAfterUtterances 100))
            = Return (JsonObject replyWithStressFive))
    by (apply liveRequest_first_attempt_resolves; reflexivity).
  split; [exact Hsize|]. split; [vm_compute; reflexivity|].
  destruct (C6_cache_fifo integralToString) as (_ & _ & _ & Hlive).
  exact (Hlive (worldAfterUtterances 100) liveConfiguration
           (serviceAlways (Resolves (JsonObject replyWithStressFive)))
           (utterance 100) 1000 3000 replyWithStressFive
           (worldAfterUtterances_reachable 100) Hsize eq_refl Hmiss Hlong Hreply).
Defined.


(** The reply with 0 in every metric and a negative confidence yields 0.5 in
    every metric and 0 as confidence. *)
Lemma C10_falsy_defaults_witness :
  stress_level (additionalMetrics (liveEmotionData replyWithNegativeConfidence 1000 3000))
  = 0.5
  /\ confidence (liveEmotionData replyWithNegativeConfidence 1000 3000) == 0.
Proof.
  destruct (C10_falsy_defaults replyWithNegativeConfidence 1000 3000)
    as ((_ & Hstress & _) & _ & Hconfidence & _).
  split.
  - apply (Hstress 0); reflexivity.
  - apply Hconfidence. exists (-1). split; reflexivity.
Defined.

(* ################################################################# *)
(** * Further properties of the service *)

(** ** Retry executor, for any number of retries *)

(** After [k] throttled failures that it retries, the loop is at its
    [(k+1)]-th attempt with [k] values of [Math.random()] used. *)
Lemma retryLoop_after_throttling (env : Env) (maxRetries : nat) (baseDelay : Q) (k : nat) :
  forall (iterations attempt : nat) (w : World),
    (k < iterations)%nat ->
    (attempt + k <= maxRetries)%nat ->
    (forall j, (j < k)%nat ->
       exists e, liveOutcome env (liveCalls w + j) = Rejects e
                 /\ isRateLimitError e = true) ->
    exists w0,
      retryLoop env (generateContent env) maxRetries baseDelay iterations attempt w
      = retryLoop env (generateContent env) maxRetries baseDelay
          (iterations - k) (attempt + k) w0
      /\ liveCalls w0 = (liveCalls w + k)%nat
      /\ randomCalls w0 = (randomCalls w + k)%nat
      /\ emotionCache w0 = emotionCache w
      /\ requestCount w0 = requestCount w.
Proof.
  induction k as [|k IH]; intros iterations attempt w Hiter Hattempt Hthrottled.
  - exists w. rewrite Nat.sub_0_r, !Nat.add_0_r. auto.
  - destruct iterations as [|iterations]; [lia|].
    destruct (Hthrottled 0%nat) as (e & He & Hrl); [lia|].
    rewrite Nat.add_0_r in He.
    assert (Hstep : exists w1,
      retryLoop env (generateContent env) maxRetries baseDelay (S iterations) attempt w
      = retryLoop env (generateContent env) maxRetries baseDelay iterations (S attempt) w1
      /\ liveCalls w1 = S (liveCalls w)
      /\ randomCalls w1 = S (randomCalls w)
      /\ emotionCache w1 = emotionCache w
      /\ requestCount w1 = requestCount w).
    { simpl. unfold tryCatch at 1. unfold generateContent at 1. rewrite He.
      destruct (Nat.eqb_spec attempt maxRetries) as [Heq|_]; [lia|].
      rewrite Hrl. unfold bind, Math_random, sleep. simpl.
      eexists. split; [reflexivity|]. simpl. auto. }
    destruct Hstep as (w1 & Hstep & Hcalls1 & Hrand1 & Hcache1 & Hcount1).
    destruct (IH iterations (S attempt) w1) as (w0 & Hrun & Hcalls & Hrand & Hcache & Hcount).
    + lia.
    + lia.
    + intros j Hj. destruct (Hthrottled (S j)) as (e' & He' & Hrl'); [lia|].
      exists e'. split; [|exact Hrl'].
      rewrite <- He'. f_equal. lia.
    + exists w0. rewrite Hstep, Hrun.
      replace (S iterations - S k)%nat with (iterations - k)%nat by lia.
      replace (attempt + S k)%nat with (S attempt + k)%nat by lia.
      split; [reflexivity|].
      repeat split; try congruence; lia.
Qed.

Lemma generateContent_counts (env : Env) (w : World) :
  liveCalls (snd (generateContent env w)) = S (liveCalls w)
  /\ randomCalls (snd (generateContent env w)) = randomCalls w.
Proof.
  unfold generateContent. destruct (liveOutcome env (liveCalls w)); simpl; auto.
Qed.

Lemma retryLoop_attempt_resolves (env : Env) (maxRetries : nat) (baseDelay : Q)
    (iterations attempt : nat) (w : World) (r : Reply) :
  liveOutcome env (liveCalls w) = Resolves r ->
  retryLoop env (generateContent env) maxRetries baseDelay (S iterations) attempt w
  = (Return r, snd (generateContent env w)).
Proof.
  intros H. simpl. unfold tryCatch, generateContent. now rewrite H.
Qed.

Lemma retryLoop_attempt_rethrows (env : Env) (maxRetries : nat) (baseDelay : Q)
    (iterations attempt : nat) (w : World) (e : JsError) :
  liveOutcome env (liveCalls w) = Rejects e ->
  attempt = maxRetries \/ isRateLimitError e = false ->
  retryLoop env (generateContent env) maxRetries baseDelay (S iterations) attempt w
  = (Throw e, snd (generateContent env w)).
Proof.
  intros H Hlast. simpl. unfold tryCatch, generateContent. rewrite H.
  destruct (Nat.eqb_spec attempt maxRetries) as [Heq|Hne].
  - reflexivity.
  - destruct Hlast as [Heq|Hrl]; [contradiction|]. now rewrite Hrl.
Qed.

Lemma retryLoop_attempt_retries (env : Env) (maxRetries : nat) (baseDelay : Q)
    (iterations attempt : nat) (w : World) (e : JsError) :
  liveOutcome env (liveCalls w) = Rejects e ->
  attempt <> maxRetries ->
  isRateLimitError e = true ->
  exists w1,
    retryLoop env (generateContent env) maxRetries baseDelay (S iterations) attempt w
    = retryLoop env (generateContent env) maxRetries baseDelay iterations (S attempt) w1
    /\ liveCalls w1 = S (liveCalls w)
    /\ randomCalls w1 = S (randomCalls w)
    /\ emotionCache w1 = emotionCache w
    /\ requestCount w1 = requestCount w.
Proof.
  intros He Hne Hrl.
  simpl. unfold tryCatch at 1. unfold generateContent at 1. rewrite He.
  destruct (Nat.eqb_spec attempt maxRetries) as [Heq|_]; [contradiction|].
  rewrite Hrl. unfold bind, Math_random, sleep. simpl.
  eexists. split; [reflexivity|]. simpl. auto.
Qed.

(** X1: contract of [retryWithBackoff] for every [maxRetries]. With 0 retries
    allowed it throws 'Max retries exceeded' without calling the function.
    Otherwise, after [k] throttled failures ([k < maxRetries]) the next
    outcome decides: a result is returned; an error is rethrown when it is not
    a throttling error or when it is the error of the last attempt allowed.
    In each case exactly [k + 1] calls were made and [k] backoff delays
    drawn. *)
Theorem retryWithBackoff_contract (env : Env) (maxRetries : nat) (baseDelay : Q)
    (w : World) :
  (maxRetries = 0%nat ->
   retryWithBackoff env (generateContent env) maxRetries baseDelay w
   = (Throw (newError "Max retries exceeded"), w))
  /\ (forall k r,
        (k < maxRetries)%nat ->
        (forall j, (j < k)%nat ->
           exists e, liveOutcome env (liveCalls w + j) = Rejects e
                     /\ isRateLimitError e = true) ->
        liveOutcome env (liveCalls w + k) = Resolves r ->
        exists w',
          retryWithBackoff env (generateContent env) maxRetries baseDelay w = (Return r, w')
          /\ liveCalls w' = (liveCalls w + k + 1)%nat
          /\ randomCalls w' = (randomCalls w + k)%nat)
  /\ (forall k e,
        (k < maxRetries)%nat ->
        (forall j, (j < k)%nat ->
           exists e', liveOutcome env (liveCalls w + j) = Rejects e'
                      /\ isRateLimitError e' = true) ->
        liveOutcome env (liveCalls w + k) = Rejects e ->
        isRateLimitError e = false \/ S k = maxRetries ->
        exists w',
          retryWithBackoff env (generateContent env) maxRetries baseDelay w = (Throw e, w')
          /\ liveCalls w' = (liveCalls w + k + 1)%nat
          /\ randomCalls w' = (randomCalls w + k)%nat).
Proof.
  split; [intros ->; reflexivity|].
  split.
  - intros k r Hk Hthrottled Hout. unfold retryWithBackoff.
    destruct (@retryLoop_after_throttling env maxRetries baseDelay k maxRetries 1%nat w)
      as (w0 & -> & Hcalls & Hrand & _); try lia; try assumption.
    destruct (maxRetries - k)%nat as [|rest] eqn:Hrest; [lia|].
    rewrite <- Hcalls in Hout.
    rewrite (@retryLoop_attempt_resolves env maxRetries baseDelay rest (1 + k)%nat w0 r Hout).
    destruct (generateContent_counts env w0) as [Hc Hr].
    eexists. split; [reflexivity|]. rewrite Hc, Hr. lia.
  - intros k e Hk Hthrottled Hout Hlast. unfold retryWithBackoff.
    destruct (@retryLoop_after_throttling env maxRetries baseDelay k maxRetries 1%nat w)
      as (w0 & -> & Hcalls & Hrand & _); try lia; try assumption.
    destruct (maxRetries - k)%nat as [|rest] eqn:Hrest; [lia|].
    rewrite <- Hcalls in Hout.
    rewrite (@retryLoop_attempt_rethrows env maxRetries baseDelay rest (1 + k)%nat w0 e Hout).
    + destruct (generateContent_counts env w0) as [Hc Hr].
      eexists. split; [reflexivity|]. rewrite Hc, Hr. lia.
    + destruct Hlast as [Hrl|Heq]; [now right | left; simpl; exact Heq].
Qed.

Lemma retryWithBackoff_contract_witness :
  exists w',
    retryWithBackoff recoveringService (generateContent recoveringService)
      MAX_RETRIES 2000 (initialWorld 0)
    = (Return (JsonObject replyWithStressFive), w')
    /\ liveCalls w' = 3%nat /\ randomCalls w' = 2%nat.
Proof.
  destruct (@retryWithBackoff_contract recoveringService MAX_RETRIES 2000 (initialWorld 0))
    as (_ & Hreturns & _).
  apply (Hreturns 2%nat (JsonObject replyWithStressFive)).
  - unfold MAX_RETRIES. lia.
  - intros j Hj. exists (newError "[429 Too Many Requests] quota exceeded").
    destruct j as [|[|j]]; [split; reflexivity | split; reflexivity | lia].
  - reflexivity.
Defined.

(** ** Rate limiter: spacing of the requests *)

Lemma makeRateLimitedRequest_spacing {A : Type} (requestFn : Async A) (w : World) :
  exists w0,
    makeRateLimitedRequest requestFn w
    = (fst (requestFn w0), snd (requestServed (snd (requestFn w0))))
    /\ lastRequestTime w + RATE_LIMIT_DELAY <= now w0
    /\ now w <= now w0
    /\ (lastRequestTime w + RATE_LIMIT_DELAY <= now w -> w0 = w)
    /\ emotionCache w0 = emotionCache w
    /\ requestCount w0 = requestCount w
    /\ liveCalls w0 = liveCalls w
    /\ randomCalls w0 = randomCalls w
    /\ lastRequestTime (snd (makeRateLimitedRequest requestFn w))
       = now (snd (requestFn w0))
    /\ now (snd (makeRateLimitedRequest requestFn w)) = now (snd (requestFn w0))
    /\ requestCount (snd (makeRateLimitedRequest requestFn w))
       = S (requestCount (snd (requestFn w0))).
Proof.
  unfold makeRateLimitedRequest, bind, getWorld.
  destruct (Js.ltb (now w - lastRequestTime w) RATE_LIMIT_DELAY) eqn:Hsoon.
  - apply ltb_lt in Hsoon. unfold RATE_LIMIT_DELAY in *.
    set (waitTime := 3000 - (now w - lastRequestTime w)).
    exists (snd (sleep (RateLimitWait waitTime) waitTime w)).
    unfold sleep at 1. cbn [fst snd].
    split; [destruct (requestFn _) as [settled w2]; reflexivity|].
    simpl. subst waitTime.
    split; [lra|]. split; [lra|]. split; [intros H; lra|].
    do 4 (split; [reflexivity|]).
    destruct (requestFn _) as [settled w2]. simpl. auto.
  - apply ltb_ge in Hsoon. unfold RATE_LIMIT_DELAY in *.
    exists w. unfold ret. cbn [fst snd].
    split; [destruct (requestFn w) as [settled w2]; reflexivity|].
    split; [lra|]. split; [lra|]. split; [reflexivity|].
    do 4 (split; [reflexivity|]).
    destruct (requestFn w) as [settled w2]. simpl. auto.
Qed.

(** X2: [makeRateLimitedRequest] starts the request no sooner than
    [RATE_LIMIT_DELAY] after the request before ended, and without waiting
    when that much time has passed already; it never moves the clock back.
    When the request has settled, whatever its outcome, [lastRequestTime] is
    the time of its end and [requestCount] has grown by one. *)
Theorem rate_limiter_spacing {A : Type} (requestFn : Async A) (w : World) :
  exists w0,
    makeRateLimitedRequest requestFn w
    = (fst (requestFn w0), snd (requestServed (snd (requestFn w0))))
    /\ lastRequestTime w + RATE_LIMIT_DELAY <= now w0
    /\ now w <= now w0
    /\ (lastRequestTime w + RATE_LIMIT_DELAY <= now w -> w0 = w)
    /\ emotionCache w0 = emotionCache w
    /\ requestCount w0 = requestCount w
    /\ liveCalls w0 = liveCalls w
    /\ randomCalls w0 = randomCalls w
    /\ lastRequestTime (snd (makeRateLimitedRequest requestFn w))
       = now (snd (requestFn w0))
    /\ now (snd (makeRateLimitedRequest requestFn w)) = now (snd (requestFn w0))
    /\ requestCount (snd (makeRateLimitedRequest requestFn w))
       = S (requestCount (snd (requestFn w0))).
Proof.
  apply makeRateLimitedRequest_spacing.
Qed.

(** ** Use of the live model *)

Lemma retryLoop_counts (env : Env) (maxRetries : nat) (baseDelay : Q)
    (iterations : nat) :
  forall (attempt : nat) (w : World),
    let w' := snd (retryLoop env (generateContent env) maxRetries baseDelay
                     iterations attempt w) in
    requestCount w' = requestCount w
    /\ (liveCalls w <= liveCalls w' <= liveCalls w + iterations)%nat
    /\ (1 <= iterations -> liveCalls w + 1 <= liveCalls w')%nat.
Proof.
  induction iterations as [|n IH]; intros attempt w; cbv zeta.
  - simpl. repeat split; lia.
  - assert (Honce : requestCount (snd (generateContent env w)) = requestCount w
                    /\ liveCalls (snd (generateContent env w)) = S (liveCalls w)).
    { unfold generateContent. destruct (liveOutcome env (liveCalls w)); simpl; auto. }
    destruct Honce as [Hcount1 Hcalls1].
    destruct (liveOutcome env (liveCalls w)) as [e|r] eqn:Hout.
    + destruct (Nat.eq_dec attempt maxRetries) as [Heq|Hne].
      * rewrite (@retryLoop_attempt_rethrows env maxRetries baseDelay n attempt w e Hout)
          by now left.
        simpl snd. rewrite Hcount1, Hcalls1. repeat split; lia.
      * destruct (isRateLimitError e) eqn:Hrl.
        -- destruct (@retryLoop_attempt_retries env maxRetries baseDelay n attempt w e
                       Hout Hne Hrl) as (w1 & -> & Hcalls & _ & _ & Hcount).
           destruct (IH (S attempt) w1) as (Hcount' & Hcalls' & _).
           rewrite Hcount', Hcount. repeat split; lia.
        -- rewrite (@retryLoop_attempt_rethrows env maxRetries baseDelay n attempt w e Hout)
             by now right.
           simpl snd. rewrite Hcount1, Hcalls1. repeat split; lia.
    + rewrite (@retryLoop_attempt_resolves env maxRetries baseDelay n attempt w r Hout).
      simpl snd. rewrite Hcount1, Hcalls1. repeat split; lia.
Qed.

Lemma requestServed_counts (w : World) :
  requestCount (snd (requestServed w)) = S (requestCount w)
  /\ liveCalls (snd (requestServed w)) = liveCalls w.
Proof. split; reflexivity. Qed.

Lemma liveRequest_counts (env : Env) (w : World) :
  requestCount (snd (liveRequest env w)) = S (requestCount w)
  /\ (liveCalls w + 1 <= liveCalls (snd (liveRequest env w)) <= liveCalls w + 3)%nat.
Proof.
  unfold liveRequest.
  destruct (makeRateLimitedRequest_spacing
              (retryWithBackoff env (generateContent env) MAX_RETRIES 2000) w)
    as (w0 & -> & _ & _ & _ & _ & Hcount & Hcalls & _).
  cbn [snd].
  destruct (requestServed_counts
              (snd (retryWithBackoff env (generateContent env) MAX_RETRIES 2000 w0)))
    as [-> ->].
  unfold retryWithBackoff.
  destruct (retryLoop_counts env MAX_RETRIES 2000 MAX_RETRIES 1 w0)
    as (Hcount' & Hcalls' & Hone).
  rewrite Hcount', Hcount.
  split; [reflexivity|]. unfold MAX_RETRIES in *. specialize (Hone ltac:(lia)). lia.
Qed.

Section UseOfTheLiveModel.

Variable numberToString : Q -> string.

(** A call leaves the service as it found it, or serves one request with one
    to three calls of the model. *)
Lemma analyzeTextEmotion_usage penv env text timestamp speakingDuration (w : World) :
  let w' := snd (analyzeTextEmotion numberToString penv env text timestamp
                   speakingDuration w) in
  w' = w
  \/ (requestCount w' = S (requestCount w)
      /\ (liveCalls w + 1 <= liveCalls w' <= liveCalls w + 3)%nat).
Proof.
  cbv zeta.
  destruct (analyzeTextEmotion_cases numberToString penv env text timestamp
              speakingDuration w) as [H|[(c & _ & _ & H)|(_ & _ & _ & H)]];
    rewrite H; clear H.
  - now left.
  - now left.
  - right. pose proof (liveRequest_counts env w) as Hcounts.
    destruct (liveRequest env w) as [[[| |analysis]|e] w1]; simpl in *; exact Hcounts.
Qed.

(** X3: in every state of the service the model has been called at least once
    and at most three times per request served:
    [requestCount <= liveCalls <= 3 * requestCount]. *)
Theorem live_calls_per_request (w : World) :
  reachable numberToString w ->
  (requestCount w <= liveCalls w <= 3 * requestCount w)%nat.
Proof.
  induction 1 as [startTime|w penv env text timestamp speakingDuration Hw IH|w ms Hw IH].
  - simpl. lia.
  - destruct (analyzeTextEmotion_usage penv env text timestamp speakingDuration w)
      as [->|(Hcount & Hcalls)]; [exact IH|].
    rewrite Hcount. lia.
  - simpl. exact IH.
Qed.

End UseOfTheLiveModel.

Lemma live_calls_per_request_witness :
  (requestCount (worldAfterUtterances 3) <= liveCalls (worldAfterUtterances 3)
   <= 3 * requestCount (worldAfterUtterances 3))%nat.
Proof.
  apply (@live_calls_per_request integralToString (worldAfterUtterances 3)).
  apply worldAfterUtterances_reachable.
Defined.

(** ** Cache: what a stored record gives back *)




Section CacheRoundTrip.

Variable numberToString : Q -> string.


(** X5: only a reply that parses changes the cache. A call after which the
    cache differs was made in live mode for a text of 10 characters or more,
    and returned the record built from the parsed reply of the live request;
    no fallback record is ever stored. *)
Theorem cache_changes_only_on_parsed_reply (penv : ProcessEnv) (env : Env)
    (text : string) (timestamp speakingDuration : Q) (w : World) :
  emotionCache (snd (analyzeTextEmotion numberToString penv env text timestamp
                       speakingDuration w))
  <> emotionCache w ->
  exists analysis,
    fst (liveRequest env w) = Return (JsonObject analysis)
    /\ fst (analyzeTextEmotion numberToString penv env text timestamp speakingDuration w)
       = Return (liveEmotionData analysis timestamp speakingDuration)
    /\ liveModeEnabled penv = true
    /\ (10 <= String.length (Js.trim text))%nat.
Proof.
  intros Hchanged.
  destruct (analyzeTextEmotion_cases numberToString penv env text timestamp
              speakingDuration w) as [H|[(c & _ & _ & H)|(Hmode & _ & Hlen & H)]].
  - rewrite H in Hchanged. now destruct Hchanged.
  - rewrite H in Hchanged. now destruct Hchanged.
  - rewrite H in *. pose proof (liveRequest_keeps_cache env w) as Hkeep.
    destruct (liveRequest env w) as [[[| |analysis]|e] w1]; simpl in *;
      try (now destruct Hchanged).
    now exists analysis.
Qed.

End CacheRoundTrip.


Lemma cache_changes_only_on_parsed_reply_witness :
  exists analysis,
    fst (liveRequest (serviceAlways (Resolves (JsonObject replyWithStressFive)))
           (initialWorld 0))
    = Return (JsonObject analysis)
    /\ fst (analyzeTextEmotion integralToString liveConfiguration
              (serviceAlways (Resolves (JsonObject replyWithStressFive)))
              sampleUtterance 1000 3000 (initialWorld 0))
       = Return (liveEmotionData analysis 1000 3000)
    /\ liveModeEnabled liveConfiguration = true
    /\ (10 <= String.length (Js.trim sampleUtterance))%nat.
Proof.
  apply (@cache_changes_only_on_parsed_reply integralToString).
  vm_compute. discriminate.
Defined.

(** ** Fallback mode *)

Lemma liveModeEnabled_false (penv : ProcessEnv) :
  liveModeEnabled penv = false
  <-> EMOTION_DETECTION_FALLBACK_ONLY penv = Some "true"%string
      \/ (Js.truthy (GOOGLE_AI_API_KEY penv) = false
          /\ Js.truthy (NEXT_PUBLIC_GOOGLE_AI_API_KEY penv) = false).
Proof.
  unfold liveModeEnabled, fallbackOnlyOf, apiKeyOf, Js.stringOr.
  rewrite negb_false_iff, orb_true_iff, negb_true_iff.
  split.
  - intros [Hflag|Hkey].
    + left. destruct (EMOTION_DETECTION_FALLBACK_ONLY penv) as [v|]; [|discriminate].
      apply String.eqb_eq in Hflag. now subst.
    + right. destruct (Js.truthy (GOOGLE_AI_API_KEY penv)) eqn:E; auto.
      congruence.
  - intros [Hflag|[Hk1 Hk2]].
    + left. rewrite Hflag. reflexivity.
    + right. now rewrite Hk1.
Qed.

Section FallbackMode.

Variable numberToString : Q -> string.

(** X6: when the environment variable EMOTION_DETECTION_FALLBACK_ONLY is
    exactly 'true', or when neither key variable holds a non-empty string,
    a call returns the record of the fallback classifier and leaves the
    service, its cache and its counters as they are, whatever the cache holds
    and whatever the live service would answer; two such calls for the same
    text and duration agree on every field but the two that carry the
    time. *)
Theorem fallback_mode_is_offline (penv : ProcessEnv) (env env' : Env)
    (text : string) (timestamp timestamp' speakingDuration : Q) (w w' : World) :
  EMOTION_DETECTION_FALLBACK_ONLY penv = Some "true"%string
  \/ (Js.truthy (GOOGLE_AI_API_KEY penv) = false
      /\ Js.truthy (NEXT_PUBLIC_GOOGLE_AI_API_KEY penv) = false) ->
  exists r r',
    analyzeTextEmotion numberToString penv env text timestamp speakingDuration w
    = (Return r, w)
    /\ analyzeTextEmotion numberToString penv env' text timestamp' speakingDuration w'
       = (Return r', w')
    /\ r = fallbackTextAnalysis text timestamp speakingDuration
    /\ emotion r = emotion r'
    /\ confidence r = confidence r'
    /\ duration r = duration r'
    /\ intensity r = intensity r'
    /\ additionalMetrics r = additionalMetrics r'.
Proof.
  intros Hoff. apply liveModeEnabled_false in Hoff.
  exists (fallbackTextAnalysis text timestamp speakingDuration),
         (fallbackTextAnalysis text timestamp' speakingDuration).
  rewrite !analyzeTextEmotion_fallback_mode by assumption.
  repeat split; reflexivity.
Qed.

End FallbackMode.

(** An upper-case 'TRUE' in the flag does not switch the fallback mode on; an
    empty key does count as no key. *)
Lemma fallback_mode_is_offline_witness :
  analyzeTextEmotion integralToString offlineConfiguration
    (serviceAlways (Resolves (JsonObject replyWithStressFive)))
    sampleUtterance 1000 3000 worldAfterOneLiveCall
  = (Return (fallbackTextAnalysis sampleUtterance 1000 3000), worldAfterOneLiveCall).
Proof.
  destruct (@fallback_mode_is_offline integralToString offlineConfiguration
              (serviceAlways (Resolves (JsonObject replyWithStressFive)))
              (serviceAlways (Resolves (JsonObject replyWithStressFive)))
              sampleUtterance 1000 1000 3000 worldAfterOneLiveCall worldAfterOneLiveCall)
    as (r & r' & Hrun & _ & Hr & _).
  - right. split; reflexivity.
  - rewrite Hrun, Hr. reflexivity.
Defined.

(** ** Streaming entry point *)

Section Streaming.

Variable numberToString : Q -> string.

(** Every call returns a record that carries the timestamp it was given. *)
Lemma analyzeTextEmotion_returns penv env text (ts speakingDuration : Q) (w : World) :
  exists r w',
    analyzeTextEmotion numberToString penv env text ts speakingDuration w = (Return r, w')
    /\ timestamp r = ts
    /\ secondsFromStart r = ts / 1000.
Proof.
  destruct (analyzeTextEmotion_cases numberToString penv env text ts
              speakingDuration w) as [H|[(c & _ & _ & H)|(_ & _ & _ & H)]];
    rewrite H; clear H.
  - eexists _, _. split; [reflexivity|]. split; reflexivity.
  - eexists _, _. split; [reflexivity|]. split; reflexivity.
  - destruct (liveRequest env w) as [[[| |analysis]|e] w1];
      eexists _, _; (split; [reflexivity|]); split; reflexivity.
Qed.

(** X7: [processStreamingMessage] answers [null] for a partial transcript and
    for a message whose trimmed length is below 10, and then leaves the
    service untouched (no cache lookup, no request, no call of the model). For
    every other message it never answers [null] and never throws: it returns
    the record [analyzeTextEmotion] gives for the message with duration 0,
    carrying the timestamp of the message. *)
Theorem processStreamingMessage_gate (penv : ProcessEnv) (env : Env)
    (message : string) (ts : Q) (isPartial : bool) (w : World) :
  (isPartial = true \/ (String.length (Js.trim message) < 10)%nat ->
   processStreamingMessage numberToString penv env message ts isPartial w
   = (Return None, w))
  /\ (isPartial = false ->
      (10 <= String.length (Js.trim message))%nat ->
      exists r w',
        processStreamingMessage numberToString penv env message ts isPartial w
        = (Return (Some r), w')
        /\ analyzeTextEmotion numberToString penv env message ts 0 w = (Return r, w')
        /\ timestamp r = ts
        /\ secondsFromStart r = ts / 1000).
Proof.
  unfold processStreamingMessage. split.
  - intros [-> | Hshort]; [reflexivity|].
    apply Nat.ltb_lt in Hshort. rewrite Hshort, orb_true_r. reflexivity.
  - intros -> Hlong. apply Nat.ltb_ge in Hlong. rewrite Hlong. simpl.
    destruct (analyzeTextEmotion_returns penv env message ts 0 w)
      as (r & w' & Hrun & Hts & Hsec).
    exists r, w'. unfold bind. rewrite Hrun. auto.
Qed.

End Streaming.

Lemma processStreamingMessage_gate_witness :
  processStreamingMessage integralToString liveConfiguration
    (serviceAlways (Resolves (JsonObject replyWithStressFive)))
    sampleUtterance 1000 true (initialWorld 0)
  = (Return None, initialWorld 0)
  /\ exists r w',
       processStreamingMessage integralToString liveConfiguration
         (serviceAlways (Resolves (JsonObject replyWithStressFive)))
         sampleUtterance 1000 false (initialWorld 0)
       = (Return (Some r), w').
Proof.
  destruct (@processStreamingMessage_gate integralToString liveConfiguration
              (serviceAlways (Resolves (JsonObject replyWithStressFive)))
              sampleUtterance 1000 true (initialWorld 0)) as [Hnull _].
  destruct (@processStreamingMessage_gate integralToString liveConfiguration
              (serviceAlways (Resolves (JsonObject replyWithStressFive)))
              sampleUtterance 1000 false (initialWorld 0)) as [_ Hrecord].
  split.
  - apply Hnull. now left.
  - destruct Hrecord as (r & w' & Hrun & _); [reflexivity | vm_compute; lia |].
    now exists r, w'.
Defined.

(** ** Transcript entry point *)

Lemma calculateEmotionSummary_total (records : list EmotionData) :
  exists s,
    calculateEmotionSummary records = Some s
    /\ forall l, (occurrences l records <= occurrences (mostFrequentEmotion s) records)%nat.
Proof.
  destruct records as [|e records].
  - eexists. split; [reflexivity|]. intros l. unfold occurrences. simpl. lia.
  - destruct (@mostFrequentOf_first_seen (e :: records)) as (m & Hm & Hmax & _);
      [discriminate|].
    unfold calculateEmotionSummary. rewrite Hm.
    eexists. split; [reflexivity|]. exact Hmax.
Qed.

Section Transcripts.

Variable numberToString : Q -> string.

Lemma analyzeEach_returns penv env (userMessages : list Msg.t) :
  forall w, exists records w',
    analyzeEach numberToString penv env userMessages w = (Return records, w')
    /\ Forall2 answersMessage userMessages records.
Proof.
  induction userMessages as [|msg rest IH]; intros w; simpl.
  - exists [], w. split; [reflexivity | constructor].
  - unfold bind at 1. unfold getWorld at 1.
    destruct (analyzeTextEmotion_returns numberToString penv env
                (Js.valueOr (Msg.message msg) "")
                (Js.numberOr (Msg.time msg) (now w))
                (Js.numberOr (Msg.duration msg) 0) w)
      as (r & w1 & Hrun & Hts & Hsec).
    unfold bind at 1. rewrite Hrun.
    destruct (IH w1) as (records & w' & Hrest & Hall).
    unfold bind. rewrite Hrest.
    exists (r :: records), w'. split; [reflexivity|].
    constructor; [|exact Hall].
    split.
    + intros t Ht Hnz. rewrite Hts, Ht. simpl.
      destruct (Qeq_bool t 0) eqn:E; [|reflexivity].
      apply Qeq_bool_iff in E. contradiction.
    + now rewrite Hsec, Hts.
Qed.

(** X8: [analyzeCompleteTranscript] never throws. Its result holds one record
    for each message with role 'user' and a text that is not blank, in the
    order of the transcript and with the times of the messages; its summary
    is the one of these records, its trend their trend, and its dominant
    emotion a label that no other label outnumbers among them. *)
Theorem analyzeCompleteTranscript_returns (penv : ProcessEnv) (env : Env)
    (messages : list Msg.t) (w : World) :
  exists result w',
    analyzeCompleteTranscript numberToString penv env messages w = (Return result, w')
    /\ Forall2 answersMessage (filter isCandidateResponse messages) (emotions result)
    /\ calculateEmotionSummary (emotions result) = Some (summary result)
    /\ dominantEmotion result = mostFrequentEmotion (summary result)
    /\ emotionalTrend result = calculateEmotionalTrend (emotions result)
    /\ forall l,
         (occurrences l (emotions result)
          <= occurrences (dominantEmotion result) (emotions result))%nat.
Proof.
  unfold analyzeCompleteTranscript.
  destruct (analyzeEach_returns penv env (filter isCandidateResponse messages) w)
    as (records & w' & Hrun & Hall).
  unfold bind. rewrite Hrun.
  destruct (calculateEmotionSummary_total records) as (s & Hs & Hmax).
  rewrite Hs. eexists _, w'. split; [reflexivity|]. simpl. auto.
Qed.

(** X9: for a transcript without any message with role 'user' and a text that
    is not blank (an empty transcript among them), the result is the empty
    analysis: no records, dominant emotion neutral, trend stable, average
    confidence and stability 0, no stress indicator; the service is left
    untouched. *)
Theorem analyzeCompleteTranscript_without_candidates (penv : ProcessEnv) (env : Env)
    (messages : list Msg.t) (w : World) :
  Forall (fun msg => isCandidateResponse msg = false) messages ->
  analyzeCompleteTranscript numberToString penv env messages w
  = (Return {| emotions := [];
               dominantEmotion := neutral;
               emotionalTrend := stable;
               summary := {| averageConfidence := 0;
                             mostFrequentEmotion := neutral;
                             emotionalStability := 0;
                             stressIndicators := [] |} |}, w).
Proof.
  intros Hnone. unfold analyzeCompleteTranscript.
  assert (Hfilter : filter isCandidateResponse messages = []).
  { induction Hnone as [|msg rest Hmsg _ IH]; simpl; [reflexivity|].
    now rewrite Hmsg. }
  rewrite Hfilter. reflexivity.
Qed.

Lemma analyzeEach_fallback_mode (penv : ProcessEnv) (env : Env)
    (userMessages : list Msg.t) (w : World) :
  liveModeEnabled penv = false ->
  analyzeEach numberToString penv env userMessages w
  = (Return (map (fun msg =>
                    fallbackTextAnalysis (Js.valueOr (Msg.message msg) "")
                      (Js.numberOr (Msg.time msg) (now w))
                      (Js.numberOr (Msg.duration msg) 0)) userMessages), w).
Proof.
  intros Hmode.
  induction userMessages as [|msg rest IH]; simpl; [reflexivity|].
  unfold bind at 1. unfold getWorld at 1.
  unfold bind at 1. rewrite analyzeTextEmotion_fallback_mode by assumption.
  unfold bind. now rewrite IH.
Qed.

(** X10: in fallback mode the analysis of a transcript is computed without the
    live service and without touching the cache or the counters: its records
    are the fallback records of the candidate responses, each at the time of
    its message, or at the time of the call when the message has none. *)
Theorem analyzeCompleteTranscript_fallback_mode (penv : ProcessEnv) (env : Env)
    (messages : list Msg.t) (w : World) :
  liveModeEnabled penv = false ->
  exists result,
    analyzeCompleteTranscript numberToString penv env messages w = (Return result, w)
    /\ emotions result
       = map (fun msg =>
                fallbackTextAnalysis (Js.valueOr (Msg.message msg) "")
                  (Js.numberOr (Msg.time msg) (now w))
                  (Js.numberOr (Msg.duration msg) 0))
             (filter isCandidateResponse messages).
Proof.
  intros Hmode. unfold analyzeCompleteTranscript.
  unfold bind. rewrite analyzeEach_fallback_mode by assumption.
  destruct (calculateEmotionSummary_total
              (map (fun msg =>
                      fallbackTextAnalysis (Js.valueOr (Msg.message msg) "")
                        (Js.numberOr (Msg.time msg) (now w))
                        (Js.numberOr (Msg.duration msg) 0))
                   (filter isCandidateResponse messages))) as (s & Hs & _).
  rewrite Hs. eexists. split; reflexivity.
Qed.

End Transcripts.

Lemma analyzeCompleteTranscript_without_candidates_witness :
  analyzeCompleteTranscript integralToString liveConfiguration throttledService
    silentTranscript (initialWorld 0)
  = (Return {| emotions := [];
               dominantEmotion := neutral;
               emotionalTrend := stable;
               summary := {| averageConfidence := 0;
                             mostFrequentEmotion := neutral;
                             emotionalStability := 0;
                             stressIndicators := [] |} |}, initialWorld 0).
Proof.
  apply (@analyzeCompleteTranscript_without_candidates integralToString).
  vm_compute. repeat constructor.
Defined.

Lemma analyzeCompleteTranscript_fallback_mode_witness :
  exists result,
    analyzeCompleteTranscript integralToString offlineConfiguration throttledService
      sampleTranscript (initialWorld 42000)
    = (Return result, initialWorld 42000)
    /\ map emotion (emotions result) = [nervous; excited]
    /\ map timestamp (emotions result) = [5000; 42000].
Proof.
  destruct (@analyzeCompleteTranscript_fallback_mode integralToString
              offlineConfiguration throttledService sampleTranscript
              (initialWorld 42000)) as (result & Hrun & Hrecords).
  - reflexivity.
  - exists result. split; [exact Hrun|]. rewrite Hrecords.
    split; vm_compute; reflexivity.
Defined.

(** ** Summary: stability, volatility, average confidence *)


Lemma Qnat_le (a b : nat) : (a <= b)%nat -> Qnat a <= Qnat b.
Proof. intros H. unfold Qnat, Qle. simpl. lia. Qed.

Lemma Qnat_lt (a b : nat) : (a < b)%nat -> Qnat a < Qnat b.
Proof. intros H. unfold Qnat, Qlt. simpl. lia. Qed.

Lemma uniqueEmotionsOf_bounds (records : list EmotionData) :
  records <> [] ->
  (1 <= uniqueEmotionsOf records <= List.length records)%nat
  /\ (uniqueEmotionsOf records <= 10)%nat.
Proof.
  intros Hne. unfold uniqueEmotionsOf.
  set (labels := map emotion records).
  assert (Hlen : List.length labels = List.length records) by apply length_map.
  repeat split.
  - destruct records as [|e rest]; [contradiction|].
    assert (Hin : In (emotion e) (nodup EmotionLabel_eq_dec labels)).
    { apply nodup_In. now left. }
    destruct (nodup EmotionLabel_eq_dec labels); [destruct Hin | simpl; lia].
  - rewrite <- Hlen. clearbody labels. clear.
    induction labels as [|x labels IH]; simpl; [lia|].
    destruct (in_dec EmotionLabel_eq_dec x labels); simpl; lia.
  - change 10%nat with (List.length allLabels).
    apply NoDup_incl_length; [apply NoDup_nodup|].
    intros l _. destruct l; simpl; tauto.
Qed.

(** The fields of the summary of a list that is not empty. *)
Lemma calculateEmotionSummary_fields (records : list EmotionData) :
  records <> [] ->
  exists s,
    calculateEmotionSummary records = Some s
    /\ averageConfidence s
       = sumQ (map confidence records) / Qnat (List.length records)
    /\ emotionalStability s
       = Js.Math_max 0 (1 - Qnat (uniqueEmotionsOf records) / Qnat (List.length records))
    /\ (In "High emotional volatility"%string (stressIndicators s)
        <-> Js.ltb (emotionalStability s) 0.5 = true).
Proof.
  intros Hne.
  destruct (@mostFrequentOf_first_seen records Hne) as (m & Hm & _).
  destruct records as [|e rest]; [contradiction|].
  unfold calculateEmotionSummary. rewrite Hm.
  eexists. split; [reflexivity|]. cbn [averageConfidence emotionalStability stressIndicators].
  split; [reflexivity|]. split; [reflexivity|].
  rewrite !in_app_iff.
  match goal with
  | |- context [if ?a then ["High frequency of stressed/nervous responses"%string] else []] =>
      destruct a
  end;
  match goal with
  | |- context [if ?b then ["Elevated stress levels detected"%string] else []] =>
      destruct b
  end;
  match goal with
  | |- context [if ?c then ["High emotional volatility"%string] else []] =>
      destruct c
  end; simpl; intuition discriminate.
Qed.

(** X11: for a list of records that is not empty, emotionalStability is
    1 - (number of distinct labels) / (number of records); it lies in [0,1)
    and never reaches 1, and it is 0 exactly when no label occurs twice. *)
Theorem emotionalStability_range (records : list EmotionData) :
  records <> [] ->
  exists s,
    calculateEmotionSummary records = Some s
    /\ emotionalStability s
       == 1 - Qnat (uniqueEmotionsOf records) / Qnat (List.length records)
    /\ 0 <= emotionalStability s < 1
    /\ (emotionalStability s == 0 <-> NoDup (map emotion records)).
Proof.
  intros Hne.
  destruct (calculateEmotionSummary_fields Hne) as (s & Hs & _ & Hstab & _).
  destruct (uniqueEmotionsOf_bounds Hne) as ((Hone & Hle) & _).
  exists s. split; [exact Hs|]. rewrite Hstab. unfold Js.Math_max.
  set (u := uniqueEmotionsOf records) in *.
  set (n := List.length records) in *.
  assert (Hn : 0 < Qnat n) by (apply Qnat_positive; lia).
  assert (Hratio_le : Qnat u / Qnat n <= 1).
  { apply Qle_shift_div_r; [exact Hn|]. rewrite Qmult_1_l. now apply Qnat_le. }
  assert (Hratio_pos : 0 < Qnat u / Qnat n).
  { apply Qlt_shift_div_l; [exact Hn|]. rewrite Qmult_0_l. apply Qnat_positive. lia. }
  assert (Hmax : Qmax 0 (1 - Qnat u / Qnat n) == 1 - Qnat u / Qnat n).
  { apply Q.max_r. lra. }
  split; [exact Hmax|]. split; [rewrite Hmax; split; lra|].
  rewrite Hmax. split.
  - intros Hzero.
    assert (Hfull : Qnat u / Qnat n == 1) by lra.
    assert (Hun : Qnat u == Qnat n).
    { assert (Hsplit : Qnat u == (Qnat u / Qnat n) * Qnat n) by (field; lra).
      rewrite Hfull in Hsplit. lra. }
    assert (Heq : u = n).
    { unfold Qnat, Qeq in Hun. simpl in Hun. lia. }
    subst u n. unfold uniqueEmotionsOf in Heq.
    rewrite <- (length_map emotion records) in Heq.
    clear - Heq. induction (map emotion records) as [|x labels IH]; [constructor|].
    simpl in Heq. destruct (in_dec EmotionLabel_eq_dec x labels) as [Hin|Hnot].
    + exfalso.
      assert (Hle : (List.length (nodup EmotionLabel_eq_dec labels)
                     <= List.length labels)%nat).
      { clear. induction labels as [|y labels IH]; simpl; [lia|].
        destruct (in_dec EmotionLabel_eq_dec y labels); simpl; lia. }
      lia.
    + constructor; [exact Hnot|]. apply IH. simpl in Heq. lia.
  - intros Hnodup.
    assert (Heq : u = n).
    { subst u n. unfold uniqueEmotionsOf.
      rewrite nodup_fixed_point by assumption. apply length_map. }
    rewrite Heq. field. lra.
Qed.

Lemma emotionalStability_range_witness :
  exists s,
    calculateEmotionSummary (map recordOf [happy; calm; calm; happy]) = Some s
    /\ emotionalStability s == 1 # 2.
Proof.
  destruct (@emotionalStability_range (map recordOf [happy; calm; calm; happy]))
    as (s & Hs & Hstab & _).
  - discriminate.
  - exists s. split; [exact Hs|]. rewrite Hstab. vm_compute. reflexivity.
Defined.

(** X12: the flag 'High emotional volatility' is raised exactly when more than
    half as many distinct labels occur as there are records. So a list of one
    record always carries it, whatever the record, and a list of 20 records or
    more never does, there being ten labels only. *)
Theorem volatility_flag (records : list EmotionData) :
  records <> [] ->
  exists s,
    calculateEmotionSummary records = Some s
    /\ (In "High emotional volatility"%string (stressIndicators s)
        <-> (List.length records < 2 * uniqueEmotionsOf records)%nat)
    /\ (List.length records = 1%nat ->
        In "High emotional volatility"%string (stressIndicators s))
    /\ ((20 <= List.length records)%nat ->
        ~ In "High emotional volatility"%string (stressIndicators s)).
Proof.
  intros Hne.
  destruct (calculateEmotionSummary_fields Hne) as (s & Hs & _ & Hstab & Hflag).
  destruct (uniqueEmotionsOf_bounds Hne) as ((Hone & Hle) & Hten).
  exists s. split; [exact Hs|].
  assert (Hiff : In "High emotional volatility"%string (stressIndicators s)
                 <-> (List.length records < 2 * uniqueEmotionsOf records)%nat).
  { rewrite Hflag, ltb_lt, Hstab. unfold Js.Math_max.
    set (u := uniqueEmotionsOf records) in *.
    set (n := List.length records) in *.
    assert (Hn : 0 < Qnat n) by (apply Qnat_positive; lia).
    assert (Hratio_le : Qnat u / Qnat n <= 1).
    { apply Qle_shift_div_r; [exact Hn|]. rewrite Qmult_1_l. now apply Qnat_le. }
    assert (Hmax : Qmax 0 (1 - Qnat u / Qnat n) == 1 - Qnat u / Qnat n).
    { apply Q.max_r. lra. }
    rewrite Hmax.
    destruct (Nat.lt_ge_cases n (2 * u)) as [Hlt|Hge].
    - split; [intros _; exact Hlt|]. intros _.
      assert (Hhalf : 0.5 < Qnat u / Qnat n).
      { apply Qlt_shift_div_l; [exact Hn|].
        unfold Qnat, Qlt, Qmult, inject_Z. cbn [Qnum Qden]. lia. }
      lra.
    - split; [|intros; lia]. intros Hlow. exfalso.
      assert (Hhalf : Qnat u / Qnat n <= 0.5).
      { apply Qle_shift_div_r; [exact Hn|].
        unfold Qnat, Qle, Qmult, inject_Z. cbn [Qnum Qden]. lia. }
      lra. }
  split; [exact Hiff|]. split.
  - intros Hlen. apply Hiff. lia.
  - intros Hlen Hin. apply Hiff in Hin. lia.
Qed.

Lemma volatility_flag_witness :
  exists s,
    calculateEmotionSummary [recordOf confident] = Some s
    /\ In "High emotional volatility"%string (stressIndicators s).
Proof.
  destruct (@volatility_flag [recordOf confident]) as (s & Hs & _ & Hone & _).
  - discriminate.
  - exists s. split; [exact Hs|]. now apply Hone.
Defined.





(** ** Count table *)

Lemma list_sum_countUp (l : EmotionLabel) (acc : list (EmotionLabel * nat)) :
  list_sum (map snd (countUp l acc)) = S (list_sum (map snd acc)).
Proof.
  induction acc as [|[k n] acc IH]; simpl; [reflexivity|].
  destruct (EmotionLabel_eqb l k); simpl; [reflexivity|].
  rewrite IH. lia.
Qed.

(** X14: the count table that [calculateEmotionSummary] builds holds one entry
    for each label that occurs among the records and none for the others;
    each entry carries the number of records with its label, and the counts
    add up to the number of records. *)
Theorem emotionCounts_exact (records : list EmotionData) :
  NoDup (map fst (emotionCounts records))
  /\ (forall l n,
        In (l, n) (emotionCounts records)
        <-> n = occurrences l records /\ (0 < n)%nat)
  /\ list_sum (map snd (emotionCounts records)) = List.length records.
Proof.
  rewrite emotionCounts_countsOf. unfold occurrences.
  set (labels := map emotion records).
  pose proof (keys_countsOf_NoDup labels) as Hnodup.
  split; [exact Hnodup|]. split.
  - intros l n. split.
    + intros Hin.
      assert (Hn : n = count_occ EmotionLabel_eq_dec labels l).
      { rewrite <- lookupCount_countsOf. symmetry. now apply lookupCount_In. }
      split; [exact Hn|]. rewrite Hn.
      apply count_occ_In, keys_countsOf_In.
      change l with (fst (l, n)). now apply in_map.
    + intros [Hn Hpos]. subst n.
      apply count_occ_In, keys_countsOf_In, in_map_iff in Hpos.
      destruct Hpos as ([l' c] & Heq & Hentry). simpl in Heq. subst l'.
      rewrite <- lookupCount_countsOf.
      now rewrite (@lookupCount_In l c (countsOf labels) Hnodup Hentry).
  - rewrite <- (length_map emotion records). fold labels. clearbody labels.
    clear. induction labels as [|x labels IH] using rev_ind; [reflexivity|].
    rewrite countsOf_snoc, list_sum_countUp, IH, length_app. simpl. lia.
Qed.

(** ** Trend *)

Lemma firstn_skipn_halves (A : Type) (a b : list A) :
  List.length a = List.length b ->
  firstn (List.length (a ++ b) / 2) (a ++ b) = a
  /\ skipn (List.length (a ++ b) / 2) (a ++ b) = b.
Proof.
  intros Hlen.
  assert (Hhalf : (List.length (a ++ b) / 2 = List.length a)%nat).
  { rewrite length_app, <- Hlen.
    replace (List.length a + List.length a)%nat with (List.length a * 2)%nat by lia.
    now apply Nat.div_mul. }
  rewrite Hhalf. split.
  - rewrite firstn_app, Nat.sub_diag, firstn_all. simpl. apply app_nil_r.
  - rewrite skipn_app, Nat.sub_diag, skipn_all. reflexivity.
Qed.

(** X15: exchanging the two halves of a session of even length turns an
    improving trend into a declining one and back, and keeps a stable one. *)
Theorem trend_of_exchanged_halves (a b : list EmotionData) :
  List.length a = List.length b ->
  calculateEmotionalTrend (b ++ a) = oppositeTrend (calculateEmotionalTrend (a ++ b)).
Proof.
  intros Hlen. unfold calculateEmotionalTrend.
  destruct (@firstn_skipn_halves _ a b Hlen) as [Hfirst Hsecond].
  destruct (@firstn_skipn_halves _ b a (eq_sym Hlen)) as [Hfirst' Hsecond'].
  rewrite Hfirst, Hsecond, Hfirst', Hsecond'.
  assert (Hsame : List.length (b ++ a) = List.length (a ++ b)).
  { rewrite !length_app. lia. }
  rewrite Hsame.
  destruct (List.length (a ++ b) <? 3)%nat; [reflexivity|].
  set (x := positiveShare a). set (y := positiveShare b).
  destruct (Js.ltb 0.1 (y - x)) eqn:E1; destruct (Js.ltb (y - x) (-0.1)) eqn:E2;
    destruct (Js.ltb 0.1 (x - y)) eqn:E3; destruct (Js.ltb (x - y) (-0.1)) eqn:E4;
    try reflexivity;
    repeat match goal with
           | H : Js.ltb _ _ = true |- _ => apply ltb_lt in H
           | H : Js.ltb _ _ = false |- _ => apply ltb_ge in H
           end; lra.
Qed.

Lemma trend_of_exchanged_halves_witness :
  calculateEmotionalTrend
    (map recordOf [happy; calm; confident] ++ map recordOf [nervous; stressed; happy])
  = oppositeTrend
      (calculateEmotionalTrend
         (map recordOf [nervous; stressed; happy] ++ map recordOf [happy; calm; confident])).
Proof.
  apply (@trend_of_exchanged_halves (map recordOf [nervous; stressed; happy])
           (map recordOf [happy; calm; confident])).
  reflexivity.
Defined.

Lemma positiveShare_all (half : list EmotionData) (positive : bool) :
  half <> [] ->
  Forall (fun e => isOneOf positiveEmotions (emotion e) = positive) half ->
  positiveShare half == if positive then 1 else 0.
Proof.
  intros Hne Hall. unfold positiveShare.
  assert (Hn : 0 < Qnat (List.length half)).
  { apply Qnat_positive. destruct half; [contradiction | simpl; lia]. }
  assert (Hfilter :
    List.length (filter (fun e => isOneOf positiveEmotions (emotion e)) half)
    = if positive then List.length half else 0%nat).
  { clear Hne Hn. induction Hall as [|e half He _ IH]; [now destruct positive|].
    cbn [filter]. rewrite He. destruct positive; cbn [List.length]; now rewrite IH. }
  rewrite Hfilter. destruct positive.
  - field. lra.
  - change (Qnat 0) with 0. field. lra.
Qed.

Lemma calculateEmotionalTrend_uniform (records : list EmotionData) (positive : bool) :
  Forall (fun e => isOneOf positiveEmotions (emotion e) = positive) records ->
  calculateEmotionalTrend records = stable.
Proof.
  intros Hall. unfold calculateEmotionalTrend.
  destruct (Nat.ltb_spec (List.length records) 3) as [Hshort|Hlong]; [reflexivity|].
  set (half := (List.length records / 2)%nat).
  assert (Hhalf : (1 <= half < List.length records)%nat).
  { subst half.
    pose proof (Nat.div_mod_eq (List.length records) 2) as Hdiv.
    pose proof (Nat.mod_upper_bound (List.length records) 2) as Hmod.
    lia. }
  rewrite <- (firstn_skipn half records) in Hall.
  apply Forall_app in Hall. destruct Hall as [Hfirst Hsecond].
  assert (H1 : positiveShare (firstn half records) == if positive then 1 else 0).
  { apply positiveShare_all; [|exact Hfirst].
    intros Hnil. apply (f_equal (@List.length _)) in Hnil.
    rewrite length_firstn in Hnil. simpl in Hnil. lia. }
  assert (H2 : positiveShare (skipn half records) == if positive then 1 else 0).
  { apply positiveShare_all; [|exact Hsecond].
    intros Hnil. apply (f_equal (@List.length _)) in Hnil.
    rewrite length_skipn in Hnil. simpl in Hnil. lia. }
  destruct (Js.ltb 0.1 _) eqn:E1; [apply ltb_lt in E1; rewrite H1, H2 in E1; lra|].
  destruct (Js.ltb _ (-0.1)) eqn:E2; [apply ltb_lt in E2; rewrite H1, H2 in E2; lra|].
  reflexivity.
Qed.

(** X16: a session in which every record carries a label of the positive set
    (happy, confident, excited, calm), and one in which none does, has a
    stable trend, however long it is. *)
Theorem trend_of_uniform_session (records : list EmotionData) (positive : bool) :
  Forall (fun e => isOneOf positiveEmotions (emotion e) = positive) records ->
  calculateEmotionalTrend records = stable.
Proof.
  apply calculateEmotionalTrend_uniform.
Qed.

Lemma trend_of_uniform_session_witness :
  calculateEmotionalTrend (map recordOf [nervous; neutral; stressed; uncertain; nervous])
  = stable.
Proof.
  apply (@trend_of_uniform_session
           (map recordOf [nervous; neutral; stressed; uncertain; nervous]) false).
  repeat constructor.
Defined.

(** ** Fallback classifier: labels it can give, and letter case *)

Lemma keywordScore_zero (lowerText : string) (keywords : list string) :
  keywordScore lowerText keywords = 0%nat
  <-> Forall (fun kw => Js.matchCount kw lowerText = 0%nat) keywords.
Proof.
  unfold keywordScore.
  assert (Hgen : forall a,
            fold_left (fun acc kw => (acc + Js.matchCount kw lowerText)%nat) keywords a
            = 0%nat
            <-> a = 0%nat
                /\ Forall (fun kw => Js.matchCount kw lowerText = 0%nat) keywords).
  { induction keywords as [|kw rest IH]; intros a; simpl.
    - split; [intros ->; split; [reflexivity | constructor] | tauto].
    - rewrite IH. split.
      + intros [Hsum Hrest]. split; [lia|]. constructor; [lia | exact Hrest].
      + intros [-> Hall]. inversion Hall; subst. split; [lia | assumption]. }
  rewrite Hgen. tauto.
Qed.

Lemma matchCount_zero (kw s : string) :
  kw <> EmptyString ->
  (Js.matchCount kw s = 0%nat <-> Js.includes kw s = false).
Proof.
  intros Hkw. unfold Js.matchCount.
  induction s as [|c s IH].
  - simpl. destruct kw; [contradiction | tauto].
  - change (Js.includes kw (String c s))
      with (prefix kw (String c s) || Js.includes kw s).
    cbn [Js.matchCountFrom].
    destruct (prefix kw (String c s)); simpl.
    + split; discriminate.
    + exact IH.
Qed.

(** X17: the fallback classifier never answers 'uncertain'; it answers
    'neutral' exactly when the lower-cased text contains none of the keywords,
    and one of the eight categories otherwise. *)
Theorem fallback_label_range (text : string) (ts speakingDuration : Q) :
  let label := emotion (fallbackTextAnalysis text ts speakingDuration) in
  label <> uncertain
  /\ (label = neutral
      <-> Forall (fun kw => Js.includes kw (Js.toLowerCase text) = false) allKeywords)
  /\ (label <> neutral -> In label (map fst emotionPatterns)).
Proof.
  cbv zeta. simpl emotion. unfold detectedEmotionOf.
  assert (Hzero : Forall (fun e => categoryScore text e = 0%nat) emotionPatterns
                  <-> Forall (fun kw => Js.includes kw (Js.toLowerCase text) = false)
                        allKeywords).
  { unfold allKeywords, categoryScore.
    assert (Hnonempty : Forall (fun kw => kw <> EmptyString) (flat_map snd emotionPatterns))
      by (vm_compute; repeat constructor; discriminate).
    revert Hnonempty.
    induction emotionPatterns as [|entry rest IH]; simpl; intros Hnonempty.
    - split; constructor.
    - apply Forall_app in Hnonempty. destruct Hnonempty as [Hentry Hrest].
      rewrite Forall_app, <- (IH Hrest). split.
      + intros Hall. inversion Hall as [|? ? Hscore Hothers]; subst.
        split; [|exact Hothers].
        apply keywordScore_zero in Hscore.
        rewrite Forall_forall in *. intros kw Hin.
        apply matchCount_zero; auto.
      + intros [Hkws Hothers]. constructor; [|exact Hothers].
        apply keywordScore_zero.
        rewrite Forall_forall in *. intros kw Hin.
        apply matchCount_zero; auto. }
  destruct (detectEmotion_cases text) as [[Hall ->]|Hex].
  - simpl. split; [discriminate|]. split; [|intros H; now destruct H].
    split; [intros _; now apply Hzero | reflexivity].
  - destruct Hex as (earlier & winner & later & Hsplit & -> & Hpos & _).
    simpl snd.
    assert (Hin : In (fst winner) (map fst emotionPatterns)).
    { rewrite Hsplit, map_app. apply in_or_app. right. now left. }
    assert (Hlabels : forall l, In l (map fst emotionPatterns) ->
                      l <> uncertain /\ l <> neutral).
    { intros l Hl. simpl in Hl. intuition (subst; discriminate). }
    destruct (Hlabels _ Hin) as [Hnu Hnn].
    split; [exact Hnu|]. split; [|intros _; exact Hin].
    split; [intros Heq; contradiction|].
    intros Hnone. apply Hzero in Hnone. exfalso.
    rewrite Hsplit in Hnone. apply Forall_app in Hnone. destruct Hnone as [_ Hw].
    inversion Hw; subst. lia.
Qed.

Lemma toLowerChar_idempotent (c : ascii) :
  Js.toLowerChar (Js.toLowerChar c) = Js.toLowerChar c.
Proof. destruct c as [[] [] [] [] [] [] [] []]; reflexivity. Qed.

Lemma toLowerChar_space (c : ascii) :
  Ascii.eqb (Js.toLowerChar c) " " = Ascii.eqb c " ".
Proof. destruct c as [[] [] [] [] [] [] [] []]; reflexivity. Qed.

Lemma toLowerCase_idempotent (s : string) :
  Js.toLowerCase (Js.toLowerCase s) = Js.toLowerCase s.
Proof.
  induction s as [|c s IH]; simpl; [reflexivity|].
  now rewrite toLowerChar_idempotent, IH.
Qed.

Lemma wordCountOf_toLowerCase (s : string) :
  wordCountOf (Js.toLowerCase s) = wordCountOf s.
Proof.
  unfold wordCountOf, Js.splitLength. f_equal.
  induction s as [|c s IH]; simpl; [reflexivity|].
  now rewrite toLowerChar_space, IH.
Qed.

(** X18: the fallback classifier does not look at letter case for anything but
    the intensity: a text and its lower-cased form get the same label, the
    same confidence and the same metrics. *)
Theorem fallback_ignores_case (text : string) (ts speakingDuration : Q) :
  let r := fallbackTextAnalysis text ts speakingDuration in
  let r' := fallbackTextAnalysis (Js.toLowerCase text) ts speakingDuration in
  emotion r' = emotion r
  /\ confidence r' = confidence r
  /\ additionalMetrics r' = additionalMetrics r.
Proof.
  cbv zeta.
  assert (Hdetect : detectEmotion (Js.toLowerCase text) = detectEmotion text).
  { unfold detectEmotion. now rewrite toLowerCase_idempotent. }
  unfold fallbackTextAnalysis. simpl.
  unfold fallbackConfidence, detectedEmotionOf, maxScoreOf.
  rewrite Hdetect, wordCountOf_toLowerCase. auto.
Qed.

(** ** Colours *)

(** X19: [getEmotionColor] gives each of the ten labels the colour of its entry
    in the table, never the default by way of a missing entry, and no two
    labels the same colour; the default is the colour of neutral. *)
Theorem getEmotionColor_injective (a b : EmotionLabel) :
  In (a, getEmotionColor a) colorMap
  /\ (getEmotionColor a = getEmotionColor b -> a = b)
  /\ getEmotionColor neutral = "#6B7280"%string.
Proof.
  split; [destruct a; vm_compute; tauto|].
  split; [|reflexivity].
  destruct a, b; vm_compute; intros H; try reflexivity; discriminate.
Qed.


(** ** Timeline segments *)







(** ** The placeholder transcript of the hook *)

Lemma string_of_uint_digits (u : Decimal.uint) :
  allChars isDigit (DecimalString.NilEmpty.string_of_uint u) = true.
Proof. induction u; simpl; auto. Qed.

Lemma isDigit_not_upper (c : ascii) : isDigit c = true -> Js.isUpperAZ c = false.
Proof.
  destruct c as [[] [] [] [] [] [] [] []]; intros H; vm_compute in H;
    try discriminate H; reflexivity.
Qed.

Lemma isDigit_toLowerChar (c : ascii) : isDigit c = true -> Js.toLowerChar c = c.
Proof.
  destruct c as [[] [] [] [] [] [] [] []]; intros H; vm_compute in H;
    try discriminate H; reflexivity.
Qed.

Lemma toLowerCase_app (s t : string) :
  Js.toLowerCase (s ++ t) = (Js.toLowerCase s ++ Js.toLowerCase t)%string.
Proof. induction s as [|c s IH]; simpl; [reflexivity | now rewrite IH]. Qed.

Lemma toLowerCase_digits (d : string) :
  allChars isDigit d = true -> Js.toLowerCase d = d.
Proof.
  induction d as [|c d IH]; simpl; [reflexivity|].
  intros H. apply andb_true_iff in H. destruct H as [Hc Hd].
  now rewrite (isDigit_toLowerChar _ Hc), IH.
Qed.

Lemma testUpperRun_cons (a b : ascii) (s : string) :
  Js.testUpperRun (String a (String b s))
  = (Js.isUpperAZ a && Js.isUpperAZ b) || Js.testUpperRun (String b s).
Proof. reflexivity. Qed.

Lemma testUpperRun_digits (d : string) :
  allChars isDigit d = true -> Js.testUpperRun d = false.
Proof.
  induction d as [|c d IH]; [reflexivity|].
  intros H. cbn [allChars] in H. apply andb_true_iff in H. destruct H as [Hc Hd].
  destruct d as [|c' d']; [reflexivity|].
  rewrite testUpperRun_cons, (isDigit_not_upper _ Hc). now apply IH.
Qed.

Lemma testUpperRun_before_digits (s d : string) :
  allChars isDigit d = true -> Js.testUpperRun (s ++ d) = Js.testUpperRun s.
Proof.
  intros Hd. induction s as [|a s IH].
  - simpl. now apply testUpperRun_digits.
  - destruct s as [|b s'].
    + cbn [append]. destruct d as [|x d']; [reflexivity|].
      rewrite testUpperRun_cons, (testUpperRun_digits _ Hd).
      cbn [allChars] in Hd. apply andb_true_iff in Hd. destruct Hd as [Hx _].
      now rewrite (isDigit_not_upper _ Hx), andb_false_r.
    + change (String a (String b s') ++ d)%string
        with (String a (String b (s' ++ d))).
      change (String b s' ++ d)%string with (String b (s' ++ d)) in IH.
      now rewrite !testUpperRun_cons, IH.
Qed.

Lemma prefix_before_digits (kw s d : string) :
  noDigit kw = true -> allChars isDigit d = true ->
  prefix kw (s ++ d) = prefix kw s.
Proof.
  intros Hkw Hd. revert s. induction kw as [|k kw IH]; intros s.
  - destruct s; simpl; [destruct d|]; reflexivity.
  - unfold noDigit in Hkw. cbn [allChars] in Hkw.
    apply andb_true_iff in Hkw. destruct Hkw as [Hk Hrest].
    destruct s as [|c s]; simpl.
    + destruct d as [|x d']; [reflexivity|]. simpl.
      destruct (ascii_dec k x) as [->|]; [|reflexivity].
      cbn [allChars] in Hd. apply andb_true_iff in Hd. destruct Hd as [Hx _].
      rewrite Hx in Hk. discriminate.
    + destruct (ascii_dec k c); [|reflexivity]. now apply IH.
Qed.

Lemma matchCountFrom_digits (kw d : string) :
  noDigit kw = true -> kw <> EmptyString -> allChars isDigit d = true ->
  forall skip, Js.matchCountFrom kw skip d = 0%nat.
Proof.
  intros Hkw Hne. induction d as [|x d IH]; intros Hd skip; [reflexivity|].
  pose proof (@prefix_before_digits kw EmptyString (String x d) Hkw Hd) as Hp.
  simpl append in Hp.
  cbn [allChars] in Hd. apply andb_true_iff in Hd. destruct Hd as [_ Hd].
  cbn [Js.matchCountFrom]. destruct skip; [|now apply IH].
  rewrite Hp. destruct kw; [contradiction|]. simpl. now apply IH.
Qed.

Lemma matchCountFrom_before_digits (kw s d : string) :
  noDigit kw = true -> kw <> EmptyString -> allChars isDigit d = true ->
  forall skip, Js.matchCountFrom kw skip (s ++ d) = Js.matchCountFrom kw skip s.
Proof.
  intros Hkw Hne Hd. induction s as [|c s IH]; intros skip.
  - simpl. now apply matchCountFrom_digits.
  - pose proof (@prefix_before_digits kw (String c s) d Hkw Hd) as Hp.
    cbn [append] in *. cbn [Js.matchCountFrom].
    destruct skip; [|apply IH].
    rewrite Hp. destruct (prefix kw (String c s)); now rewrite IH.
Qed.

Lemma detectEmotion_without_keyword (text : string) :
  (forall kw, In kw allKeywords -> Js.matchCount kw (Js.toLowerCase text) = 0%nat) ->
  detectEmotion text = (0%nat, neutral).
Proof.
  unfold detectEmotion, allKeywords.
  induction emotionPatterns as [|entry rest IH]; intros Hnone; [reflexivity|].
  cbn [fold_left].
  assert (Hstep : scoreStep (Js.toLowerCase text) (0%nat, neutral) entry = (0%nat, neutral)).
  { unfold scoreStep. cbn [fst].
    assert (Hscore : keywordScore (Js.toLowerCase text) (snd entry) = 0%nat).
    { apply keywordScore_zero. apply Forall_forall. intros kw Hin.
      apply Hnone. simpl. apply in_or_app. now left. }
    now rewrite Hscore. }
  rewrite Hstep. apply IH. intros kw Hin. apply Hnone. simpl. apply in_or_app. now right.
Qed.

(** The fallback record of a placeholder text. *)
Lemma placeholder_fallback_record (n : nat) (ts speakingDuration : Q) :
  let r := fallbackTextAnalysis ("Emotion reading " ++ indexToString n) ts speakingDuration in
  emotion r = neutral /\ confidence r == 0.3 /\ intensity r = low.
Proof.
  cbv zeta.
  set (digits := indexToString n).
  assert (Hd : allChars isDigit digits = true) by apply string_of_uint_digits.
  assert (Hlower : Js.toLowerCase ("Emotion reading " ++ digits)
                   = ("emotion reading " ++ digits)%string).
  { rewrite toLowerCase_app, (toLowerCase_digits _ Hd). reflexivity. }
  assert (Hkeywords :
    forallb (fun kw => noDigit kw && negb (String.eqb kw "")
                       && (Js.matchCount kw "emotion reading " =? 0)%nat)
            ("!"%string :: allKeywords) = true) by (vm_compute; reflexivity).
  assert (Hnone : forall kw, In kw ("!"%string :: allKeywords) ->
            forall s, Js.matchCount kw (s ++ digits)%string = Js.matchCount kw s
            /\ Js.matchCount kw "emotion reading " = 0%nat /\ kw <> EmptyString).
  { intros kw Hin. rewrite forallb_forall in Hkeywords.
    specialize (Hkeywords kw Hin).
    apply andb_true_iff in Hkeywords. destruct Hkeywords as [Hkw Hzero].
    apply andb_true_iff in Hkw. destruct Hkw as [Hkw Hne].
    apply negb_true_iff, String.eqb_neq in Hne. apply Nat.eqb_eq in Hzero.
    intros s. split; [|split; assumption].
    unfold Js.matchCount. now apply matchCountFrom_before_digits. }
  assert (Hdetect : detectEmotion ("Emotion reading " ++ digits) = (0%nat, neutral)).
  { apply detectEmotion_without_keyword. intros kw Hin. rewrite Hlower.
    destruct (Hnone kw (or_intror Hin) "emotion reading "%string) as (-> & Hzero & _).
    exact Hzero. }
  unfold fallbackTextAnalysis. cbn [emotion confidence intensity].
  split; [unfold detectedEmotionOf; now rewrite Hdetect|]. split.
  - unfold fallbackConfidence, maxScoreOf. rewrite Hdetect. cbn [fst].
    assert (Hz : 0.3 + Qnat 0 / Qnat (wordCountOf ("Emotion reading " ++ digits)) * 2 == 0.3).
    { change (Qnat 0) with 0. unfold Qdiv. ring. }
    unfold Js.Math_min. rewrite Q.min_l; [exact Hz | rewrite Hz; lra].
  - unfold fallbackIntensity, maxScoreOf. rewrite Hdetect. cbn [fst].
    rewrite testUpperRun_before_digits by exact Hd.
    assert (Hbang : Js.includes "!" ("Emotion reading " ++ digits) = false).
    { destruct (Hnone "!"%string (or_introl eq_refl) "Emotion reading "%string)
        as (Hsame & _ & Hne).
      apply matchCount_zero; [exact Hne|]. rewrite Hsame. reflexivity. }
    rewrite Hbang. reflexivity.
Qed.


Lemma mockMessagesFrom_candidates (index : nat) (history : list EmotionData) :
  filter isCandidateResponse (mockMessagesFrom index history)
  = mockMessagesFrom index history.
Proof.
  revert index. induction history as [|e history IH]; intros index; [reflexivity|].
  cbn [mockMessagesFrom filter].
  assert (Hcandidate :
    isCandidateResponse
      {| Msg.role := "user";
         Msg.message := Some ("Emotion reading " ++ indexToString (index + 1))%string;
         Msg.time := Some (timestamp e);
         Msg.duration := None |} = true).
  { unfold isCandidateResponse. cbn [Msg.role Msg.message Js.valueOr].
    apply andb_true_iff. split; [reflexivity|].
    unfold Js.trim. cbn [append].
    change (Js.trimStart (String "E" ?s)) with (String "E" s).
    cbn [Js.trimEnd].
    destruct (Js.trimEnd _); reflexivity. }
  rewrite Hcandidate, IH. reflexivity.
Qed.

Lemma occurrences_all_same (label other : EmotionLabel) (records : list EmotionData) :
  Forall (fun r => emotion r = label) records ->
  occurrences other records
  = if EmotionLabel_eq_dec label other then List.length records else 0%nat.
Proof.
  intros Hall. unfold occurrences.
  induction Hall as [|r records Hr _ IH]; [now destruct (EmotionLabel_eq_dec label other)|].
  cbn [map count_occ List.length]. rewrite Hr, IH.
  destruct (EmotionLabel_eq_dec label other); reflexivity.
Qed.

Section HookTranscript.

Variable numberToString : Q -> string.

(** X21: the analysis that the hook asks for when its history of readings
    changes is computed from placeholder texts, not from the readings. In
    fallback mode it therefore holds one record per reading, each labelled
    neutral with confidence 0.3 and low intensity, its dominant emotion is
    neutral and its trend stable, whatever the readings were; the service is
    left untouched. *)
Theorem hook_analysis_in_fallback_mode (penv : ProcessEnv) (env : Env)
    (emotionHistory : list EmotionData) (w : World) :
  liveModeEnabled penv = false ->
  exists result,
    analyzeCompleteTranscript numberToString penv env (mockMessages emotionHistory) w
    = (Return result, w)
    /\ List.length (emotions result) = List.length emotionHistory
    /\ Forall (fun r => emotion r = neutral /\ confidence r == 0.3 /\ intensity r = low)
              (emotions result)
    /\ dominantEmotion result = neutral
    /\ emotionalTrend result = stable.
Proof.
  intros Hmode. unfold analyzeCompleteTranscript, mockMessages.
  rewrite mockMessagesFrom_candidates.
  unfold bind. rewrite analyzeEach_fallback_mode by assumption.
  set (records :=
         map (fun msg =>
                fallbackTextAnalysis (Js.valueOr (Msg.message msg) "")
                  (Js.numberOr (Msg.time msg) (now w))
                  (Js.numberOr (Msg.duration msg) 0))
             (mockMessagesFrom 0 emotionHistory)).
  assert (Hrecords :
    List.length records = List.length emotionHistory
    /\ Forall (fun r => emotion r = neutral /\ confidence r == 0.3 /\ intensity r = low)
              records).
  { subst records. generalize 0%nat as index.
    induction emotionHistory as [|e history IH]; intros index.
    - split; [reflexivity | constructor].
    - cbn [mockMessagesFrom map List.length].
      destruct (IH (index + 1)%nat) as [Hlen Hall].
      split; [now rewrite Hlen|].
      constructor; [|exact Hall].
      cbn [Msg.message Js.valueOr]. apply placeholder_fallback_record. }
  destruct Hrecords as [Hlen Hall].
  destruct (calculateEmotionSummary_total records) as (s & Hs & Hmax).
  rewrite Hs. eexists. split; [reflexivity|].
  cbn [emotions dominantEmotion emotionalTrend].
  split; [exact Hlen|]. split; [exact Hall|]. split.
  - destruct records as [|r records'] eqn:E.
    + simpl in Hs. injection Hs as <-. reflexivity.
    + rewrite <- E in *.
      assert (Hneutral : Forall (fun r => emotion r = neutral) records).
      { eapply Forall_impl; [|exact Hall]. intros ? H. apply H. }
      specialize (Hmax neutral).
      rewrite !(occurrences_all_same _ Hneutral) in Hmax.
      destruct (EmotionLabel_eq_dec neutral (mostFrequentEmotion s)) as [<-|Hother];
        [reflexivity|].
      destruct (EmotionLabel_eq_dec neutral neutral); [|contradiction].
      rewrite E in Hmax. simpl in Hmax. lia.
  - apply calculateEmotionalTrend_uniform with (positive := false).
    eapply Forall_impl; [|exact Hall]. intros r (Hr & _). now rewrite Hr.
Qed.

End HookTranscript.

Lemma hook_analysis_in_fallback_mode_witness :
  exists result,
    analyzeCompleteTranscript integralToString offlineConfiguration throttledService
      (mockMessages (map recordOf [happy; excited; happy])) (initialWorld 42000)
    = (Return result, initialWorld 42000)
    /\ List.length (emotions result) = 3%nat
    /\ dominantEmotion result = neutral
    /\ emotionalTrend result = stable.
Proof.
  destruct (@hook_analysis_in_fallback_mode integralToString offlineConfiguration
              throttledService (map recordOf [happy; excited; happy])
              (initialWorld 42000))
    as (result & Hrun & Hlen & _ & Hdominant & Htrend).
  - reflexivity.
  - exists result. auto.
Defined.


(** ** Confidence of the records of the service *)

Section JsMapValues.

Variable V : Type.
Variable P : V -> Prop.




End JsMapValues.


Section ConfidenceOfTheService.

Variable numberToString : Q -> string.





End ConfidenceOfTheService.

